(** * pdfgod: the retrieval / generation core

A shallow embedding of the TypeScript sources of the chat pipeline:

- [OllamaService]      (src/unnamed/part_001, and its earlier revision
                        src/unnamed/part_002),
- [SimpleVectorStore]  (src/lib/rag/vector-store.ts),
- the chat handlers    (src/app/api/chat/route.ts, and the revision that
                        reads [isPDFMode], second unit of src/app/page.tsx),
- the chunking call    (src/lib/rag/pdf-processor.ts).

Asynchronous methods become functions in a state-and-exception monad over
a [World] that holds the two process-wide singletons and the log of the
calls issued to the outside (HTTP requests and sleeps).  The inference
endpoint is a parameter: an [Endpoint] answers each request as a function
of the instant at which it is issued.  JavaScript numbers are IEEE-754
binary64 values, Rocq's primitive [float]. *)

From Stdlib Require Import List String Ascii ZArith Lia Bool Arith.
From Stdlib Require Import Floats.
From Stdlib Require Import Sorting.Permutation Sorting.Sorted.
From Stdlib Require Import RelationClasses.
From Stdlib Require Import DecimalString.
Import ListNotations.

Local Open Scope string_scope.
Local Open Scope list_scope.

Set Implicit Arguments.

(** ** JavaScript odds and ends *)

Module Js.

(** An [Error] object: its message and the optional [code] that transport
    errors carry. *)
Record Error := mkError { message : string; code : option string }.

(** [new Error(msg)] *)
Definition newError (msg : string) : Error := mkError msg None.

Definition newline : string := String (ascii_of_nat 10) EmptyString.

(** Truthiness of a string: only the empty string is falsy. *)
Definition truthy (s : string) : bool :=
  match s with EmptyString => false | _ => true end.

(** [s.startsWith(p)] *)
Definition startsWith (p s : string) : bool := String.prefix p s.

(** [s.includes(p)], by scanning the suffixes of [s]. *)
Fixpoint includes (p s : string) : bool :=
  String.prefix p s ||
  match s with
  | EmptyString => false
  | String _ s' => includes p s'
  end.

(** [xs.join(sep)] *)
Fixpoint join (sep : string) (xs : list string) : string :=
  match xs with
  | [] => ""
  | [x] => x
  | x :: rest => (x ++ sep ++ join sep rest)%string
  end.

(** [xs.find(p)] *)
Definition find {A} (p : A -> bool) (xs : list A) : option A := List.find p xs.

(** [xs.slice(0, k)] for an integral [k]: a negative [k] counts from the
    end of the array. *)
Definition slice0 {A} (k : Z) (xs : list A) : list A :=
  if (k <? 0)%Z
  then firstn (Z.to_nat (Z.max (Z.of_nat (List.length xs) + k) 0)) xs
  else firstn (Z.to_nat k) xs.

End Js.

(** ** The outside world *)

(** What the process does to the outside, in the order it does it. *)
Inductive event :=
| FetchTags                                   (* GET  baseUrl/api/tags *)
| Sleep (ms : Z)                              (* await sleep(ms) *)
| FetchEmbeddings (model prompt : string)     (* POST baseUrl/api/embeddings *)
| FetchGenerate (model prompt : string).      (* POST baseUrl/api/generate *)

(** Outcome of [fetch(baseUrl/api/tags)]: the promise rejects, or a response
    arrives with its [ok] flag and the [models] field of its body (absent when
    the body has none), each model given by its [name]. *)
Inductive TagsResponse :=
| TagsRejected (e : Js.Error)
| TagsStatus (ok : bool) (models : option (list string)).

(** Outcome of the POST to /api/embeddings: a rejection, a response that is
    not [ok] with its [statusText], or the [embedding] of an [ok] response. *)
Inductive EmbeddingsResponse :=
| EmbeddingsRejected (e : Js.Error)
| EmbeddingsNotOk (statusText : string)
| EmbeddingsOk (embedding : list float).

(** Outcome of the POST to /api/generate: a rejection, a response that is
    not [ok] with its [statusText] and body text, or the [response] field of
    an [ok] response. *)
Inductive GenerateResponse :=
| GenerateRejected (e : Js.Error)
| GenerateNotOk (statusText errorText : string)
| GenerateOk (response : string).

(** The inference endpoint.  Each answer may depend on the instant of the
    request, i.e. on the number of events logged before it. *)
Record Endpoint := mkEndpoint {
  baseUrl : string;
  tags : nat -> TagsResponse;
  embeddings : nat -> string -> string -> EmbeddingsResponse;
  generation : nat -> string -> string -> GenerateResponse
}.

(** ** Process state *)

Record OllamaService := mkOllama {
  isConnected : bool;
  modelName : string
}.

Record StoredDocument := mkStored {
  pageContent : string;
  embedding : list float
}.

Record SimpleVectorStore := mkStore {
  documents : list StoredDocument;
  isInitialized : bool
}.

Record World := mkWorld {
  ollama : OllamaService;                     (* OllamaService.instance *)
  vectorStore : option SimpleVectorStore;     (* let vectorStore = null *)
  routeInitialized : bool;                    (* the chat route's own flag *)
  log : list event
}.

(** A freshly started process. *)
Definition boot : World :=
  mkWorld (mkOllama false "llama3.2") None false [].

(** ** The monad of asynchronous methods *)

Inductive Result (A : Type) :=
| Ret (a : A)
| Throw (e : Js.Error).
Arguments Ret {A} a.
Arguments Throw {A} e.

Definition M (A : Type) : Type := World -> Result A * World.

Definition ret {A} (a : A) : M A := fun w => (Ret a, w).

Definition throw {A} (e : Js.Error) : M A := fun w => (Throw e, w).

Definition bind {A B} (m : M A) (k : A -> M B) : M B :=
  fun w => match m w with
           | (Ret a, w') => k a w'
           | (Throw e, w') => (Throw e, w')
           end.

(** [try { m } catch (e) { h e }] *)
Definition tryCatch {A} (m : M A) (h : Js.Error -> M A) : M A :=
  fun w => match m w with
           | (Ret a, w') => (Ret a, w')
           | (Throw e, w') => h e w'
           end.

Definition get : M World := fun w => (Ret w, w).

Definition emit (e : event) : M unit :=
  fun w => (Ret tt, mkWorld (ollama w) (vectorStore w) (routeInitialized w)
                            (log w ++ [e])).

Definition setOllama (o : OllamaService) : M unit :=
  fun w => (Ret tt, mkWorld o (vectorStore w) (routeInitialized w) (log w)).

Definition setVectorStore (s : option SimpleVectorStore) : M unit :=
  fun w => (Ret tt, mkWorld (ollama w) s (routeInitialized w) (log w)).

Definition setRouteInitialized (b : bool) : M unit :=
  fun w => (Ret tt, mkWorld (ollama w) (vectorStore w) b (log w)).

(** The instant of the next request. *)
Definition now : M nat := fun w => (Ret (List.length (log w)), w).

Declare Scope js_scope.
Delimit Scope js_scope with js.
Notation "x <- m ;; k" := (bind m (fun x => k))
  (at level 61, m at next level, right associativity) : js_scope.
Notation "m ;;; k" := (bind m (fun _ => k))
  (at level 61, right associativity) : js_scope.
Local Open Scope js_scope.

Definition when (b : bool) (m : M unit) : M unit := if b then m else ret tt.

(** Log projections used by the statements. *)
Definition isFetchTags (e : event) : bool :=
  match e with FetchTags => true | _ => false end.
Definition isSleep (e : event) : bool :=
  match e with Sleep _ => true | _ => false end.
Definition isFetchEmbeddings (e : event) : bool :=
  match e with FetchEmbeddings _ _ => true | _ => false end.
Definition isFetchGenerate (e : event) : bool :=
  match e with FetchGenerate _ _ => true | _ => false end.

Definition discoveryCalls (l : list event) : nat :=
  List.length (filter isFetchTags l).
Definition generateCalls (l : list event) : nat :=
  List.length (filter isFetchGenerate l).
Definition embeddingCalls (l : list event) : list event := filter isFetchEmbeddings l.

(** ** The service: src/unnamed/part_001 (lib/services/ollama.ts) *)

Module Ollama.
Section WithEndpoint.

Variable ep : Endpoint.

Definition maxRetries : nat := 3.
Definition retryDelay : Z := 1000.

Definition sleep (ms : Z) : M unit := emit (Sleep ms).

(** The choice made inside [detectAvailableModel] once a non-empty model
    list has arrived. *)
Definition isLlama32 (name : string) : bool :=
  (name =? "llama3.2") || Js.startsWith "llama3.2:" name.

Definition isNonVision (name : string) : bool :=
  negb (Js.includes "vision" name).

Definition chooseModel (models : list string) : option string :=
  match Js.find isLlama32 models with
  | Some _ => Some "llama3.2"
  | None =>
      match Js.find isNonVision models with
      | Some name => Some name
      | None => None
      end
  end.

(** What [detectAvailableModel] makes of one answer of the endpoint; every
    exception is caught and turned into [null]. *)
Definition modelOfResponse (r : TagsResponse) : option string :=
  match r with
  | TagsRejected _ => None
  | TagsStatus false _ => None
  | TagsStatus true None => None
  | TagsStatus true (Some []) => None
  | TagsStatus true (Some models) => chooseModel models
  end.

Definition detectAvailableModel : M (option string) :=
  t <- now ;;
  emit FetchTags ;;;
  ret (modelOfResponse (tags ep t)).

(** The body of the [for] loop of [waitForConnection], from index [i], with
    [todo] iterations left. *)
Fixpoint waitForConnectionFrom (todo i retries : nat) : M bool :=
  match todo with
  | O => ret false
  | S todo' =>
      found <- tryCatch
                 (detectedModel <- detectAvailableModel ;;
                  match detectedModel with
                  | Some name =>
                      if Js.truthy name
                      then setOllama (mkOllama true name) ;;; ret true
                      else ret false
                  | None => ret false
                  end)
                 (fun _ => ret false) ;;
      if found then ret true
      else
        when (Nat.ltb i (retries - 1)) (sleep retryDelay) ;;;
        waitForConnectionFrom todo' (S i) retries
  end.

Definition waitForConnection (retries : nat) : M bool :=
  waitForConnectionFrom retries 0 retries.

Record ConnectionStatus := mkStatus {
  isRunning : bool;
  error : option string
}.

Definition couldNotConnect : string :=
  ("Could not connect to Ollama at " ++ baseUrl ep ++
   " after multiple attempts. Please ensure Ollama is running.")%string.

Definition checkConnection : M ConnectionStatus :=
  tryCatch
    (connected <- waitForConnection maxRetries ;;
     if negb connected
     then ret (mkStatus false (Some couldNotConnect))
     else ret (mkStatus true None))
    (fun e => ret (mkStatus false
                     (Some ("Failed to connect to Ollama: " ++ Js.message e)%string))).

(** [throw new Error(status.error)]; an absent message prints as the empty
    string. *)
Definition statusError (st : ConnectionStatus) : Js.Error :=
  Js.newError (match error st with Some m => m | None => "" end).

(** The guard that opens [generate] and [getEmbeddings]:
    [if (!this.isConnected) { ... checkConnection ... throw ... }]. *)
Definition ensureConnected : M unit :=
  w <- get ;;
  if negb (isConnected (ollama w))
  then status <- checkConnection ;;
       if negb (isRunning status) then throw (statusError status) else ret tt
  else ret tt.

Definition generate (prompt : string) : M string :=
  ensureConnected ;;;
  tryCatch
    (w <- get ;;
     t <- now ;;
     emit (FetchGenerate (modelName (ollama w)) prompt) ;;;
     match generation ep t (modelName (ollama w)) prompt with
     | GenerateRejected e => throw e
     | GenerateNotOk statusText errorText =>
         throw (Js.newError
                  ("Ollama API error: " ++ statusText ++ ". " ++ errorText)%string)
     | GenerateOk response => ret response
     end)
    (fun e => throw (Js.newError
                       ("Failed to generate response: " ++ Js.message e)%string)).

(** The [for (const text of texts)] loop of [getEmbeddings]; [acc] is the
    array the loop pushes to. *)
Fixpoint embedEach (texts : list string) (acc : list (list float))
  : M (list (list float)) :=
  match texts with
  | [] => ret acc
  | text :: rest =>
      w <- get ;;
      t <- now ;;
      emit (FetchEmbeddings (modelName (ollama w)) text) ;;;
      match embeddings ep t (modelName (ollama w)) text with
      | EmbeddingsRejected e => throw e
      | EmbeddingsNotOk statusText =>
          throw (Js.newError ("Failed to get embeddings: " ++ statusText)%string)
      | EmbeddingsOk v => embedEach rest (acc ++ [v])
      end
  end.

Definition getEmbeddings (texts : list string) : M (list (list float)) :=
  ensureConnected ;;;
  tryCatch
    (embedEach texts [])
    (fun e => throw (Js.newError
                       ("Failed to generate embeddings: " ++ Js.message e)%string)).

End WithEndpoint.
End Ollama.

(** The earlier revision of the service (src/unnamed/part_002) keeps no
    model name: discovery only asks whether some listed model mentions
    llama3.2, and [generate] and [getEmbeddings] always name the model
    "llama3.2". *)
Module OllamaLegacy.
Section WithEndpoint.

Variable ep : Endpoint.

Definition hasModel (models : option (list string)) : bool :=
  match models with
  | Some names => existsb (Js.includes "llama3.2") names
  | None => false
  end.

Definition connectsOn (r : TagsResponse) : bool :=
  match r with
  | TagsRejected _ => false
  | TagsStatus ok models => ok && hasModel models
  end.

Fixpoint waitForConnectionFrom (todo i retries : nat) : M bool :=
  match todo with
  | O => ret false
  | S todo' =>
      t <- now ;;
      emit FetchTags ;;;
      if connectsOn (tags ep t)
      then w <- get ;;
           setOllama (mkOllama true (modelName (ollama w))) ;;;
           ret true
      else
        when (Nat.ltb i (retries - 1)) (Ollama.sleep Ollama.retryDelay) ;;;
        waitForConnectionFrom todo' (S i) retries
  end.

Definition waitForConnection (retries : nat) : M bool :=
  waitForConnectionFrom retries 0 retries.

Definition couldNotConnect : string :=
  "Could not connect to Ollama after multiple attempts. Please ensure Ollama is running and the llama3.2 model is installed.".

Definition checkConnection : M Ollama.ConnectionStatus :=
  tryCatch
    (connected <- waitForConnection Ollama.maxRetries ;;
     if negb connected
     then ret (Ollama.mkStatus false (Some couldNotConnect))
     else ret (Ollama.mkStatus true None))
    (fun e => ret (Ollama.mkStatus false
                     (Some ("Failed to connect to Ollama: " ++ Js.message e)%string))).

(** The guard that opens [generate] and [getEmbeddings]. *)
Definition ensureConnected : M unit :=
  w <- get ;;
  if negb (isConnected (ollama w))
  then status <- checkConnection ;;
       if negb (Ollama.isRunning status)
       then throw (Ollama.statusError status)
       else ret tt
  else ret tt.

(** No [try] around the request here: a rejected [fetch] leaves [generate]
    as it is. *)
Definition generate (prompt : string) : M string :=
  ensureConnected ;;;
  t <- now ;;
  emit (FetchGenerate "llama3.2" prompt) ;;;
  match generation ep t "llama3.2" prompt with
  | GenerateRejected e => throw e
  | GenerateNotOk statusText errorText =>
      throw (Js.newError
               ("Ollama API error: " ++ statusText ++ ". " ++ errorText)%string)
  | GenerateOk response => ret response
  end.

Fixpoint embedEach (texts : list string) (acc : list (list float))
  : M (list (list float)) :=
  match texts with
  | [] => ret acc
  | text :: rest =>
      t <- now ;;
      emit (FetchEmbeddings "llama3.2" text) ;;;
      match embeddings ep t "llama3.2" text with
      | EmbeddingsRejected e => throw e
      | EmbeddingsNotOk statusText =>
          throw (Js.newError ("Failed to get embeddings: " ++ statusText)%string)
      | EmbeddingsOk v => embedEach rest (acc ++ [v])
      end
  end.

Definition getEmbeddings (texts : list string) : M (list (list float)) :=
  ensureConnected ;;;
  embedEach texts [].

End WithEndpoint.
End OllamaLegacy.

(** ** src/lib/rag/vector-store.ts *)

Module Document.

(** langchain's [Document], of which only [pageContent] is used. *)
Record t := make { pageContent : string }.

End Document.

Module VectorStore.

(** *** Numbers *)

(** [b[i]] inside an arithmetic expression: a missing element is
    [undefined], which multiplies to NaN. *)
Definition at_ (b : list float) (i : nat) : float :=
  match nth_error b i with
  | Some x => x
  | None => nan
  end.

(** [a.reduce((sum, val, i) => f sum val i, init)], from index [i]. *)
Fixpoint reduceFrom (f : float -> float -> nat -> float)
         (a : list float) (i : nat) (sum : float) : float :=
  match a with
  | [] => sum
  | val :: rest => reduceFrom f rest (S i) (f sum val i)
  end.

Definition reduce (f : float -> float -> nat -> float) (a : list float)
           (init : float) : float :=
  reduceFrom f a 0 init.

Definition dotProduct (a b : list float) : float :=
  reduce (fun sum val i => sum + val * at_ b i)%float a 0%float.

Definition magnitude (a : list float) : float :=
  PrimFloat.sqrt (reduce (fun sum val _ => sum + val * val)%float a 0%float).

Definition cosineSimilarity (a b : list float) : float :=
  (dotProduct a b / (magnitude a * magnitude b))%float.

(** *** Array.prototype.sort *)

(** The sort is stable and places [x] before [y] when the comparator is
    negative on [(x, y)]; a zero or NaN comparison leaves the two in their
    original order.  For a consistent comparator every stable sort yields
    the same array, and straight insertion is the one written here; with an
    inconsistent comparator (NaN among the keys) the language leaves the
    order to the implementation. *)
Section Sort.

Variable A : Type.
Variable comparator : A -> A -> float.

Definition sortsBefore (x y : A) : bool :=
  (comparator x y <? 0)%float.

Fixpoint insert (x : A) (sorted : list A) : list A :=
  match sorted with
  | [] => [x]
  | y :: rest =>
      if sortsBefore y x then y :: insert x rest else x :: y :: rest
  end.

Definition sort (xs : list A) : list A := fold_right insert [] xs.

End Sort.

(** *** The store *)

Record Similarity := mkSimilarity { index : nat; score : float }.

(** [(a, b) => b.score - a.score] *)
Definition byScoreDesc (a b : Similarity) : float :=
  (score b - score a)%float.

(** [xs.map((x, i) => f x i)], from index [i]. *)
Fixpoint mapiFrom {A B} (f : A -> nat -> B) (xs : list A) (i : nat) : list B :=
  match xs with
  | [] => []
  | x :: rest => f x i :: mapiFrom f rest (S i)
  end.

Definition mapi {A B} (f : A -> nat -> B) (xs : list A) : list B :=
  mapiFrom f xs 0.

Definition typeError : Js.Error := Js.newError "TypeError".

Section WithEndpoint.

Variable ep : Endpoint.

(** [this], the singleton the exported functions work on. *)
Definition this : M SimpleVectorStore :=
  w <- get ;;
  match vectorStore w with
  | Some s => ret s
  | None => throw typeError
  end.

Definition initialize : M unit :=
  s <- this ;;
  if isInitialized s then ret tt
  else
    tryCatch
      (status <- Ollama.checkConnection ep ;;
       if negb (Ollama.isRunning status)
       then throw (Js.newError
                     (match Ollama.error status with
                      | Some m => if Js.truthy m then m
                                  else "Failed to connect to Ollama service"
                      | None => "Failed to connect to Ollama service"
                      end))
       else
         s' <- this ;;
         setVectorStore (Some (mkStore (documents s') true)))
      (fun e => throw e).

Definition addDocuments (docs : list Document.t) : M unit :=
  s <- this ;;
  (if negb (isInitialized s) then initialize else ret tt) ;;;
  tryCatch
    (let texts := map Document.pageContent docs in
     embs <- Ollama.getEmbeddings ep texts ;;
     s' <- this ;;
     setVectorStore
       (Some (mkStore
                (documents s' ++
                 mapi (fun doc i =>
                         mkStored (Document.pageContent doc)
                                  (nth i embs [])) docs)
                (isInitialized s'))))
    (fun e => throw e).

(** The scores of the stored documents against a query embedding. *)
Definition similarities (queryEmbedding : list float)
           (docs : list StoredDocument) : list Similarity :=
  mapi (fun doc i =>
          mkSimilarity i (cosineSimilarity queryEmbedding (embedding doc)))
       docs.

(** [.map(({ index }) => new Document({ pageContent:
    this.documents[index].pageContent }))]; [None] stands for the
    TypeError of reading a missing document. *)
Fixpoint toDocuments (docs : list StoredDocument) (sims : list Similarity)
  : option (list Document.t) :=
  match sims with
  | [] => Some []
  | s :: rest =>
      match nth_error docs (index s), toDocuments docs rest with
      | Some d, Some ds => Some (Document.make (pageContent d) :: ds)
      | _, _ => None
      end
  end.

Definition similaritySearch (query : string) (k : Z) : M (list Document.t) :=
  s <- this ;;
  (if negb (isInitialized s) then initialize else ret tt) ;;;
  s <- this ;;
  if Nat.eqb (List.length (documents s)) 0 then ret []
  else
    tryCatch
      (embs <- Ollama.getEmbeddings ep [query] ;;
       match embs with
       | [] => throw typeError
       | queryEmbedding :: _ =>
           s' <- this ;;
           let topK :=
             Js.slice0 k (sort byScoreDesc
                               (similarities queryEmbedding (documents s'))) in
           match toDocuments (documents s') topK with
           | Some ds => ret ds
           | None => throw typeError
           end
       end)
      (fun _ => ret []).

Definition initializeVectorStore : M SimpleVectorStore :=
  w <- get ;;
  match vectorStore w with
  | None =>
      setVectorStore (Some (mkStore [] false)) ;;;
      initialize ;;;
      this
  | Some s => ret s
  end.

Definition addDocumentsToStore (chunks : list string) : M unit :=
  initializeVectorStore ;;;
  addDocuments (map Document.make chunks).

Definition searchSimilarChunks (query : string) (k : Z) : M (list string) :=
  initializeVectorStore ;;;
  docs <- similaritySearch query k ;;
  ret (map Document.pageContent docs).

End WithEndpoint.

End VectorStore.

(** ** The chat handlers *)

Record ConversationMessage := mkMessage { role : string; content : string }.

(** What [NextResponse.json(body, { status })] carries. *)
Inductive Body :=
| ErrorBody (error : option string)
| AnswerBody (response : string) (context : list string)
| SuccessBody.

Record Response := Json { body : Body; status : Z }.

(** [history.map(msg => `${msg.role}: ${msg.content}`).join('\n')] *)
Definition historyLines (history : list ConversationMessage) : string :=
  Js.join Js.newline
          (map (fun msg => (role msg ++ ": " ++ content msg)%string) history).

(** The prompt of plain chat, shared by both handlers. *)
Definition plainPrompt (history : list ConversationMessage) (message : string)
  : string :=
  ("You are a helpful AI assistant. Answer the user's question to the best of your ability."
   ++ Js.newline ++ Js.newline
   ++ "Chat History:" ++ Js.newline
   ++ historyLines history ++ Js.newline ++ Js.newline
   ++ "User: " ++ message ++ Js.newline
   ++ "Assistant:")%string.

(** [!message]: a missing or empty message. *)
Definition noMessage (message : option string) : bool :=
  match message with
  | Some m => negb (Js.truthy m)
  | None => true
  end.

Definition messageText (message : option string) : string :=
  match message with Some m => m | None => "" end.

(** The outer [catch] of both handlers. *)
Definition chatApiError (formatError : Js.Error -> string) (e : Js.Error)
  : Response :=
  Json (ErrorBody (Some (formatError e)))
       (match Js.code e with
        | Some c => if (c =? "ECONNREFUSED")%string then 503 else 500
        | None => 500
        end)%Z.

(** *** src/app/api/chat/route.ts *)

Module ChatRoute.
Section WithEndpoint.

Variable ep : Endpoint.
(** [formatError] of lib/utils, which the handler only calls. *)
Variable formatError : Js.Error -> string.

Record Request := mkRequest {
  message : option string;
  history : list ConversationMessage
}.

Definition contextPrompt (contextChunks : list string)
           (history : list ConversationMessage) (message : string) : string :=
  ("You are a helpful AI assistant. Use the following context to answer the user's question. If you cannot find the answer in the context, say so."
   ++ Js.newline ++ Js.newline
   ++ "Context:" ++ Js.newline
   ++ Js.join (Js.newline ++ Js.newline) contextChunks
   ++ Js.newline ++ Js.newline
   ++ "Chat History:" ++ Js.newline
   ++ historyLines history ++ Js.newline ++ Js.newline
   ++ "User: " ++ message ++ Js.newline
   ++ "Assistant:")%string.

Definition POST (req : Request) : M Response :=
  tryCatch
    (status <- Ollama.checkConnection ep ;;
     if negb (Ollama.isRunning status)
     then ret (Json (ErrorBody (Ollama.error status)) 503)
     else if noMessage (message req)
     then ret (Json (ErrorBody (Some "Message is required")) 400)
     else
       let message := messageText (message req) in
       contextChunks <-
         tryCatch (VectorStore.searchSimilarChunks ep message 3)
                  (fun _ => ret []) ;;
       let prompt :=
         if Nat.ltb 0 (List.length contextChunks)
         then contextPrompt contextChunks (history req) message
         else plainPrompt (history req) message in
       response <- Ollama.generate ep prompt ;;
       ret (Json (AnswerBody response contextChunks) 200))
    (fun e => ret (chatApiError formatError e)).

End WithEndpoint.
End ChatRoute.

(** *** The mode-aware revision of the chat handler

The revision that reads [isPDFMode] and [chunks] from the request (the
second unit of src/app/page.tsx). *)

Module ChatRouteModes.
Section WithEndpoint.

Variable ep : Endpoint.
Variable formatError : Js.Error -> string.

Record Request := mkRequest {
  message : option string;
  history : list ConversationMessage;
  isPDFMode : bool;
  chunks : option (list string)
}.

Definition ensureVectorStore : M unit :=
  w <- get ;;
  if negb (routeInitialized w)
  then VectorStore.initializeVectorStore ep ;;; setRouteInitialized true
  else ret tt.

Definition contextPrompt (contextChunks : list string)
           (history : list ConversationMessage) (message : string) : string :=
  ("You are a helpful AI assistant. Use the following context from the PDF document to answer the user's question. If you cannot find the answer in the context, say so."
   ++ Js.newline ++ Js.newline
   ++ "Context from PDF:" ++ Js.newline
   ++ Js.join (Js.newline ++ Js.newline) contextChunks
   ++ Js.newline ++ Js.newline
   ++ "Chat History:" ++ Js.newline
   ++ historyLines history ++ Js.newline ++ Js.newline
   ++ "User: " ++ message ++ Js.newline
   ++ "Assistant:")%string.

Definition noRelevantInformation : string :=
  "No relevant information found in the PDF. Please try uploading the PDF again.".

Definition failedToRetrieve : string :=
  "Failed to retrieve context from PDF. Please try uploading the PDF again.".

Definition hasChunks (chunks : option (list string)) : bool :=
  match chunks with
  | Some cs => Nat.ltb 0 (List.length cs)
  | None => false
  end.

(** The [if (isPDFMode) { try ... catch ... }] block: either the handler
    returns at once (left) or it goes on with a prompt and the context it
    used (right). *)
Definition retrieveContext (history : list ConversationMessage)
           (message : string) : M (Response + string * list string) :=
  tryCatch
    (ensureVectorStore ;;;
     contextChunks <- VectorStore.searchSimilarChunks ep message 3 ;;
     if Nat.eqb (List.length contextChunks) 0
     then ret (inl (Json (ErrorBody (Some noRelevantInformation)) 404))
     else ret (inr (contextPrompt contextChunks history message, contextChunks)))
    (fun _ => ret (inl (Json (ErrorBody (Some failedToRetrieve)) 500))).

Definition respond (prompt : string) (contextChunks : list string)
  : M Response :=
  tryCatch
    (response <- Ollama.generate ep prompt ;;
     ret (Json (AnswerBody response contextChunks) 200))
    (fun e => ret (Json (ErrorBody
                           (Some ("Failed to generate response: "
                                  ++ Js.message e)%string)) 500)).

Definition POST (req : Request) : M Response :=
  tryCatch
    (status <- Ollama.checkConnection ep ;;
     if negb (Ollama.isRunning status)
     then ret (Json (ErrorBody
                       (Some ("Ollama service not available: "
                              ++ match Ollama.error status with
                                 | Some m => m
                                 | None => "undefined"
                                 end)%string)) 503)
     else if hasChunks (chunks req)
     then
       ensureVectorStore ;;;
       VectorStore.addDocumentsToStore
         ep (match chunks req with Some cs => cs | None => [] end) ;;;
       ret (Json SuccessBody 200)
     else if noMessage (message req)
     then ret (Json (ErrorBody (Some "Message is required")) 400)
     else
       let message := messageText (message req) in
       if isPDFMode req
       then
         r <- retrieveContext (history req) message ;;
         match r with
         | inl early => ret early
         | inr (prompt, contextChunks) => respond prompt contextChunks
         end
       else respond (plainPrompt (history req) message) [])
    (fun e => ret (chatApiError formatError e)).

End WithEndpoint.
End ChatRouteModes.

(** ** The split handler: src/unnamed/part_003, first unit *)

Module SplitRoute.

(** Page numbers are integers, as the number inputs of the client send
    them. *)
Record PageRange := mkRange { start : Z; end_ : Z }.

(** The [file] field of the form: absent, a file that [PDFDocument.load]
    rejects, or a PDF with its page count. *)
Inductive Upload :=
| NoFile
| Unreadable
| Pdf (pageCount : Z).

(** The [ranges] field of the form: text that [JSON.parse] rejects, an
    absent field (parsed as [null]), or the parsed array. *)
Inductive RangesField :=
| Malformed
| Missing
| Parsed (ranges : list PageRange).

(** The answer: a JSON error, or the PDF made of the listed pages of the
    source (indices from 0), sent as an attachment. *)
Inductive Response :=
| JsonError (error : string) (status : Z)
| PdfAttachment (pages : list Z) (filename : string).

(** An integer as a template literal prints it. *)
Definition showNumber (n : Z) : string := NilZero.string_of_int (Z.to_int n).

Definition invalid (pageCount : Z) (range : PageRange) : bool :=
  (start range <? 1)%Z || (pageCount <? end_ range)%Z
  || (end_ range <? start range)%Z.

Definition invalidPageRange (pageCount : Z) (range : PageRange) : string :=
  ("Invalid page range: " ++ showNumber (start range) ++ "-"
   ++ showNumber (end_ range) ++ ". Document has "
   ++ showNumber pageCount ++ " pages.")%string.

(** [Array.from({ length: range.end - range.start + 1 },
                (_, i) => range.start + i - 1)] *)
Definition pageIndices (range : PageRange) : list Z :=
  map (fun i => (start range + Z.of_nat i - 1)%Z)
      (seq 0 (Z.to_nat (end_ range - start range + 1))).

Definition failedToSplit : Response := JsonError "Failed to split PDF" 500.

Definition POST (file : Upload) (ranges : RangesField) : Response :=
  match ranges with
  | Malformed => failedToSplit
  | _ =>
      match file with
      | NoFile => JsonError "No PDF file provided" 400
      | Unreadable => failedToSplit
      | Pdf pageCount =>
          match ranges with
          | Parsed rs =>
              match List.find (invalid pageCount) rs with
              | Some range => JsonError (invalidPageRange pageCount range) 400
              | None => PdfAttachment (flat_map pageIndices rs) "split.pdf"
              end
          | _ => failedToSplit
          end
      end
  end.

End SplitRoute.

(** * The merge handler (src/app/api/pdf/merge/route.ts) *)

Module MergeRoute.

(** An uploaded file: one that [PDFDocument.load] rejects, or a PDF with
    its page count. *)
Inductive Upload :=
| Unreadable
| Pdf (pageCount : nat).

(** A page of the merged document: the position of its file among the
    uploads and its index in that file. *)
Definition Page : Type := nat * nat.

Inductive Response :=
| JsonError (error : string) (status : Z)
| PdfAttachment (pages : list Page) (filename : string).

(** [pdf.getPageIndices()] *)
Definition getPageIndices (pageCount : nat) : list nat := seq 0 pageCount.

(** The loop over the files, from the file at position [i] on, with the
    pages added to [mergedPdf] so far; [None] when a file fails to load. *)
Fixpoint mergeFrom (i : nat) (files : list Upload) (mergedPdf : list Page)
  : option (list Page) :=
  match files with
  | [] => Some mergedPdf
  | Unreadable :: _ => None
  | Pdf pageCount :: rest =>
      mergeFrom (S i) rest
                (mergedPdf ++ map (pair i) (getPageIndices pageCount))
  end.

Definition POST (files : list Upload) : Response :=
  if Nat.ltb (List.length files) 2
  then JsonError "At least two PDFs are required for merging" 400
  else match mergeFrom 0 files [] with
       | Some mergedPdf => PdfAttachment mergedPdf "merged.pdf"
       | None => JsonError "Failed to merge PDFs" 500
       end.

End MergeRoute.

(** ** src/lib/rag/pdf-processor.ts *)

Module PdfProcessor.
Section WithSplitter.

(** [RecursiveCharacterTextSplitter.createDocuments] of langchain, given
    its [chunkSize] and [chunkOverlap]: a dependency, which the repository
    configures and calls and does not define. *)
Variable createDocuments : nat -> nat -> list string -> list Document.t.

Definition chunkSize : nat := 1000.
Definition chunkOverlap : nat := 200.

(** The part of [loadAndProcessPDF] that follows text extraction: the page
    texts are joined by a space, split, and the chunks' texts returned. *)
Definition chunksOfPages (textContent : list string) : list string :=
  map Document.pageContent
      (createDocuments chunkSize chunkOverlap [Js.join " " textContent]).

End WithSplitter.
End PdfProcessor.

(** * Vocabulary of the statements *)

(** ** Frames *)

(** [respects R m]: whatever [m] does, the world it leaves is [R]-related to
    the world it started from. *)
Definition respects (R : World -> World -> Prop) {A} (m : M A) : Prop :=
  forall w, R w (snd (m w)).

(** The store and the route flag are left alone (what the service does). *)
Definition sameStore (w w' : World) : Prop :=
  vectorStore w' = vectorStore w /\ routeInitialized w' = routeInitialized w.

(** The log only grows, by calls other than [generate], and a connection once
    made is never unmade (what everything but [generate] does). *)
Definition quietly (w w' : World) : Prop :=
  (exists l, log w' = log w ++ l /\ generateCalls l = 0) /\
  (isConnected (ollama w) = true -> isConnected (ollama w') = true).

(** The log grows without discovery calls. *)
Definition withoutDiscovery (w w' : World) : Prop :=
  exists l, log w' = log w ++ l /\ discoveryCalls l = 0.

(** ** Worlds reached by the service *)

(** The world [w] with [l] appended to its log. *)
Definition extended (w : World) (l : list event) : World :=
  mkWorld (ollama w) (vectorStore w) (routeInitialized w) (log w ++ l).

(** The world after one discovery request. *)
Definition probed (w : World) : World :=
  mkWorld (ollama w) (vectorStore w) (routeInitialized w) (log w ++ [FetchTags]).

(** The world after a discovery request that found [name]. *)
Definition connectedAs (name : string) (w : World) : World :=
  mkWorld (mkOllama true name) (vectorStore w) (routeInitialized w)
          (log w ++ [FetchTags]).

(** The world [w] with [s] as its store. *)
Definition withStore (w : World) (s : SimpleVectorStore) : World :=
  mkWorld (ollama w) (Some s) (routeInitialized w) (log w).

(** The usable model the endpoint would report if asked in world [w]. *)
Definition modelNow (ep : Endpoint) (w : World) : option string :=
  match Ollama.modelOfResponse (tags ep (List.length (log w))) with
  | Some name => if Js.truthy name then Some name else None
  | None => None
  end.

(** The log of a loop in which no request finds a model. *)
Fixpoint retryLog (todo i retries : nat) : list event :=
  match todo with
  | O => []
  | S todo' =>
      FetchTags ::
      (if Nat.ltb i (retries - 1) then [Sleep Ollama.retryDelay] else []) ++
      retryLog todo' (S i) retries
  end.

(** A discovery request fails when the transport rejects it or the response
    is not [ok]. *)
Definition discoveryFails (r : TagsResponse) : Prop :=
  match r with
  | TagsRejected _ => True
  | TagsStatus ok _ => ok = false
  end.

(** ** Requests, answers and the errors made of them *)

(** One embeddings request per text, in order. *)
Definition requests (model : string) (texts : list string) : list event :=
  map (FetchEmbeddings model) texts.

(** What the endpoint answers to one request per text, in order, the first
    one sent at instant [t]. *)
Fixpoint answers (ep : Endpoint) (model : string) (t : nat) (texts : list string)
  : list EmbeddingsResponse :=
  match texts with
  | [] => []
  | text :: rest => embeddings ep t model text :: answers ep model (S t) rest
  end.

Definition isEmbeddingsOk (r : EmbeddingsResponse) : bool :=
  match r with EmbeddingsOk _ => true | _ => false end.

(** The error the loop throws on an answer that is not a success. *)
Definition embeddingFailure (r : EmbeddingsResponse) : Js.Error :=
  match r with
  | EmbeddingsRejected e => e
  | EmbeddingsNotOk statusText =>
      Js.newError ("Failed to get embeddings: " ++ statusText)%string
  | EmbeddingsOk _ => VectorStore.typeError
  end.

(** What [generate] throws for an answer that is not a success. *)
Definition generateFailure (r : GenerateResponse) : Js.Error :=
  match r with
  | GenerateRejected e => e
  | GenerateNotOk statusText errorText =>
      Js.newError ("Ollama API error: " ++ statusText ++ ". " ++ errorText)%string
  | GenerateOk _ => VectorStore.typeError
  end.

(** The message of the error [initialize] throws for a failed check. *)
Definition initializeError (st : Ollama.ConnectionStatus) : Js.Error :=
  Js.newError
    (match Ollama.error st with
     | Some m => if Js.truthy m then m else "Failed to connect to Ollama service"
     | None => "Failed to connect to Ollama service"
     end).

(** What route.ts does once retrieval has come back empty-handed, from the
    world [w] retrieval left. *)
Definition answerWithoutContext (ep : Endpoint) (formatError : Js.Error -> string)
           (history : list ConversationMessage) (message : string) (w : World)
  : Result Response * World :=
  match Ollama.generate ep (plainPrompt history message) w with
  | (Ret response, w') => (Ret (Json (AnswerBody response []) 200), w')
  | (Throw e, w') => (Ret (chatApiError formatError e), w')
  end.

(** ** Model selection as the spec words it *)

(** The selection in the spec's words: the preferred name if it is listed,
    else the first listed model that is not a vision model, else none. *)
Definition exactThenFallback (preferred : string) (models : list string)
  : option string :=
  if existsb (String.eqb preferred) models then Some preferred
  else Js.find Ollama.isNonVision models.

(** ** Ranking *)

(** The scores of the stored documents, in insertion order. *)
Definition scoresOf (queryEmbedding : list float) (docs : list StoredDocument)
  : list float :=
  map (fun doc => VectorStore.cosineSimilarity queryEmbedding (embedding doc)) docs.

(** The score of document [i]. *)
Definition scoreAt (scores : list float) (i : nat) : float := nth i scores nan.

(** Document [i] ranks before document [j]: its score is not lower, and on
    equal scores it was inserted earlier. *)
Definition rankedBefore (scores : list float) (i j : nat) : Prop :=
  PrimFloat.leb (scoreAt scores j) (scoreAt scores i) = true /\
  (PrimFloat.eqb (scoreAt scores i) (scoreAt scores j) = true -> i < j).

(** A stable descending sort of the documents [0 .. n-1] by score. *)
Definition stableDescending (scores : list float) (ranking : list nat) : Prop :=
  Permutation ranking (seq 0 (List.length scores)) /\
  StronglySorted (rankedBefore scores) ranking.

(** The binary64 comparisons order the scores at hand, and the sign of a
    difference tells which score is lower.  Any list of doubles without NaN
    passes; the check is computed on the scores rather than derived, the
    primitive operations being opaque to proof. *)
Definition comparablePair (a b : float) : bool :=
  Bool.eqb (PrimFloat.ltb (a - b) 0) (PrimFloat.ltb a b) &&
  implb (PrimFloat.ltb a b) (PrimFloat.leb a b && negb (PrimFloat.eqb b a)) &&
  (PrimFloat.ltb a b || PrimFloat.leb b a).

Definition comparableTriple (a b c : float) : bool :=
  implb (PrimFloat.leb c b && PrimFloat.leb b a)
        (PrimFloat.leb c a &&
         implb (PrimFloat.eqb a c) (PrimFloat.eqb a b && PrimFloat.eqb b c)).

Definition comparableScores (scores : list float) : bool :=
  forallb (fun a =>
             negb (PrimFloat.is_nan a) &&
             forallb (fun b =>
                        comparablePair a b &&
                        forallb (fun c => comparableTriple a b c) scores)
                     scores)
          scores.

(** The array that [similaritySearch] sorts. *)
Definition indexed (scores : list float) : list VectorStore.Similarity :=
  map (fun i => VectorStore.mkSimilarity i (scoreAt scores i))
      (seq 0 (List.length scores)).

(** ** Endpoints and worlds the code is run on *)

Definition refused : Js.Error := Js.mkError "fetch failed" (Some "ECONNREFUSED").

Definition localhost : string := "http://127.0.0.1:11434".

(** Nothing listens: every request is refused. *)
Definition deadEndpoint : Endpoint :=
  mkEndpoint localhost
             (fun _ => TagsRejected refused)
             (fun _ _ _ => EmbeddingsRejected refused)
             (fun _ _ _ => GenerateRejected refused).

(** A server that lists [models], embeds each prompt as [embed] says and
    answers every prompt with [reply]. *)
Definition liveEndpoint (models : list string)
           (embed : string -> EmbeddingsResponse) (reply : string) : Endpoint :=
  mkEndpoint localhost
             (fun _ => TagsStatus true (Some models))
             (fun _ _ prompt => embed prompt)
             (fun _ _ _ => GenerateOk reply).

(** A process whose service is connected and that has no store yet. *)
Definition connectedWorld : World :=
  mkWorld (mkOllama true "llama3.2") None false [].

(** A server whose embeddings request fails for the prompt "b". *)
Definition flakyEndpoint : Endpoint :=
  liveEndpoint ["llama3.2:latest"]
               (fun prompt => if (prompt =? "b")%string
                              then EmbeddingsNotOk "Internal Server Error"
                              else EmbeddingsOk [1%float; 0%float])
               "ok".

(** The world after storing the chunk "a" on that server. *)
Definition oneChunkStored : World :=
  snd (VectorStore.addDocumentsToStore flakyEndpoint ["a"] boot).

(** The worlds of a first request "hi" to a server that embeds every text as
    the empty vector and answers "made up". *)
Definition talkativeEndpoint : Endpoint :=
  liveEndpoint ["llama3.2:latest"] (fun _ => EmbeddingsOk []) "made up".

Definition afterCheck : World := snd (Ollama.checkConnection talkativeEndpoint boot).

Definition afterSearch : World :=
  snd (VectorStore.searchSimilarChunks talkativeEndpoint "hi" 3 afterCheck).

Definition afterModeSearch : World :=
  snd ((ChatRouteModes.ensureVectorStore talkativeEndpoint ;;;
        VectorStore.searchSimilarChunks talkativeEndpoint "hi" 3) afterCheck).

(** A server for the examples: it embeds "zero" as the zero vector, "short"
    as a one-dimensional vector, "none" as the empty vector, "half" as (3, 4)
    and every other text as the vector (1, 0). *)
Definition embedByName (prompt : string) : EmbeddingsResponse :=
  if (prompt =? "zero")%string then EmbeddingsOk [0%float; 0%float]
  else if (prompt =? "short")%string then EmbeddingsOk [1%float]
  else if (prompt =? "none")%string then EmbeddingsOk []
  else if (prompt =? "half")%string then EmbeddingsOk [3%float; 4%float]
  else EmbeddingsOk [1%float; 0%float].

Definition namedEndpoint : Endpoint :=
  liveEndpoint ["llama3.2:latest"] embedByName "ok".

(** Three chunks, two of which cannot be scored against the query (1, 0),
    and the world after storing them. *)
Definition threeChunks : list StoredDocument :=
  [mkStored "zero" [0%float; 0%float];
   mkStored "short" [1%float];
   mkStored "same" [1%float; 0%float]].

Definition threeChunksStored : World :=
  snd (VectorStore.addDocumentsToStore namedEndpoint ["zero"; "short"; "same"] boot).

(** Three chunks with the scores 0.6, 1 and 1 against the query (1, 0), and
    the world after storing them. *)
Definition rankedChunks : list StoredDocument :=
  [mkStored "half" [3%float; 4%float];
   mkStored "same" [1%float; 0%float];
   mkStored "twin" [1%float; 0%float]].

Definition rankedStored : World :=
  snd (VectorStore.addDocumentsToStore namedEndpoint ["half"; "same"; "twin"] boot).

(** ** Further vocabulary *)

(** The usable model the endpoint reports at instant [t]. *)
Definition modelAt (ep : Endpoint) (t : nat) : option string :=
  match Ollama.modelOfResponse (tags ep t) with
  | Some name => if Js.truthy name then Some name else None
  | None => None
  end.

(** The log of [j] failed attempts, each followed by its sleep. *)
Fixpoint failedAttempts (j : nat) : list event :=
  match j with
  | O => []
  | S j' => FetchTags :: Sleep Ollama.retryDelay :: failedAttempts j'
  end.

(** The documents held by the store, none while there is no store. *)
Definition storedDocuments (w : World) : list StoredDocument :=
  match vectorStore w with
  | Some s => documents s
  | None => []
  end.

(** A connection once made is still there. *)
Definition keepsConnection (w w' : World) : Prop :=
  isConnected (ollama w) = true -> isConnected (ollama w') = true.

(** The stored documents are the same. *)
Definition sameDocuments (w w' : World) : Prop :=
  storedDocuments w' = storedDocuments w.

(** The stored documents are still there, in place, possibly followed by
    new ones. *)
Definition documentsGrow (w w' : World) : Prop :=
  exists added, storedDocuments w' = storedDocuments w ++ added.

(** Chunk texts paired with their vectors, as [addDocuments] stores them. *)
Definition paired (texts : list string) (vectors : list (list float))
  : list StoredDocument :=
  map (fun tv => mkStored (fst tv) (snd tv)) (combine texts vectors).

(** The calls of a log that are embeddings or generate requests. *)
Definition modelCalls (l : list event) : list event :=
  filter (fun e => isFetchEmbeddings e || isFetchGenerate e) l.

(** The failed-attempt log of the legacy loop is that of the current one. *)
Definition legacyFails (ep : Endpoint) : Prop :=
  forall t, OllamaLegacy.connectsOn (tags ep t) = false.

(** A server that is still starting: it refuses the first discovery request
    and lists mistral from instant 2 on. *)
Definition slowEndpoint : Endpoint :=
  mkEndpoint localhost
             (fun t => if Nat.ltb t 2 then TagsRejected refused
                       else TagsStatus true (Some ["mistral"]))
             (fun _ _ _ => EmbeddingsOk [1%float; 0%float])
             (fun _ _ _ => GenerateOk "ok").

(** A server that lists only a vision model. *)
Definition visionOnlyEndpoint : Endpoint :=
  liveEndpoint ["llama3.2-vision:11b"] (fun _ => EmbeddingsOk []) "ok".

(** A server that is up and lists mistral only. *)
Definition mistralEndpoint : Endpoint :=
  liveEndpoint ["mistral"] (fun _ => EmbeddingsOk [1%float; 0%float]) "ok".

(** A connected service whose recorded model is mistral. *)
Definition connectedToMistral : World :=
  mkWorld (mkOllama true "mistral") None false [].

(** A server that refuses every generate request. *)
Definition muteEndpoint : Endpoint :=
  mkEndpoint localhost
             (fun _ => TagsStatus true (Some ["llama3.2:latest"]))
             (fun _ _ _ => EmbeddingsOk [1%float; 0%float])
             (fun _ _ _ => GenerateRejected refused).

(** What the inner [try] of route.ts leaves from world [w]: the chunks
    retrieved (none after an error) and the world after retrieval. *)
Definition retrieved (ep : Endpoint) (message : string) (w : World)
  : list string * World :=
  match VectorStore.searchSimilarChunks ep message 3 w with
  | (Ret contextChunks, w') => (contextChunks, w')
  | (Throw _, w') => ([], w')
  end.

(** The prompt route.ts builds for the chunks it retrieved. *)
Definition promptFor (contextChunks : list string)
           (history : list ConversationMessage) (message : string) : string :=
  if Nat.ltb 0 (List.length contextChunks)
  then ChatRoute.contextPrompt contextChunks history message
  else plainPrompt history message.

(** The answer made of the outcome of [generate] in route.ts. *)
Definition answered (formatError : Js.Error -> string)
           (contextChunks : list string) (out : Result string * World)
  : Result Response * World :=
  match out with
  | (Ret response, w') => (Ret (Json (AnswerBody response contextChunks) 200), w')
  | (Throw e, w') => (Ret (chatApiError formatError e), w')
  end.

(** The answer made of the outcome of [generate] in the mode-aware handler. *)
Definition responded (contextChunks : list string) (out : Result string * World)
  : Result Response * World :=
  match out with
  | (Ret response, w') => (Ret (Json (AnswerBody response contextChunks) 200), w')
  | (Throw e, w') =>
      (Ret (Json (ErrorBody (Some ("Failed to generate response: "
                                   ++ Js.message e)%string)) 500), w')
  end.

(** Every error the computation can throw carries no [code]. *)
Definition codeless {A} (m : M A) : Prop :=
  forall w e, fst (m w) = Throw e -> Js.code e = None.

(** The log grows by discovery requests and sleeps only. *)
Definition discoveryOnly (w w' : World) : Prop :=
  exists l, log w' = log w ++ l /\ modelCalls l = [].

(** The status codes the chat handlers answer with. *)
Definition chatStatus (r : Response) : Prop :=
  status r = 200%Z \/ status r = 400%Z \/ status r = 404%Z \/
  status r = 500%Z \/ status r = 503%Z.

(** The message of the 503 answer of the mode-aware handler. *)
Definition notAvailable (st : Ollama.ConnectionStatus) : string :=
  ("Ollama service not available: "
   ++ match Ollama.error st with Some m => m | None => "undefined" end)%string.

(** The chunks of an ingest request. *)
Definition chunksOf (req : ChatRouteModes.Request) : list string :=
  match ChatRouteModes.chunks req with Some cs => cs | None => [] end.


(** ** Page ranges *)




(** ** Merged pages *)

(** Reading order of the pages of several files: by file, then by page. *)
Definition readingOrder (a b : MergeRoute.Page) : Prop :=
  fst a < fst b \/ (fst a = fst b /\ snd a < snd b).

(** * Verification *)

(** ** Frame reasoning

[respects R m]: whatever [m] does, the world it leaves is [R]-related to
the world it started from.  For a preorder [R] the property follows the
structure of the program. *)

Section Respects.

Variable R : World -> World -> Prop.
Context {R_pre : PreOrder R}.

Lemma respects_ret A (a : A) : respects R (ret a).
Proof. intros w; simpl; reflexivity. Qed.

Lemma respects_throw A e : respects R (@throw A e).
Proof. intros w; simpl; reflexivity. Qed.

Lemma respects_get : respects R get.
Proof. intros w; simpl; reflexivity. Qed.

Lemma respects_now : respects R now.
Proof. intros w; simpl; reflexivity. Qed.

Lemma respects_bind A B (m : M A) (k : A -> M B) :
  respects R m -> (forall a, respects R (k a)) -> respects R (bind m k).
Proof.
  intros Hm Hk w. unfold bind. specialize (Hm w).
  destruct (m w) as [[a|e] w1]; simpl in *.
  - etransitivity; [exact Hm | apply Hk].
  - exact Hm.
Qed.

Lemma respects_tryCatch A (m : M A) (h : Js.Error -> M A) :
  respects R m -> (forall e, respects R (h e)) -> respects R (tryCatch m h).
Proof.
  intros Hm Hh w. unfold tryCatch. specialize (Hm w).
  destruct (m w) as [[a|e] w1]; simpl in *.
  - exact Hm.
  - etransitivity; [exact Hm | apply Hh].
Qed.

Lemma respects_when b (m : M unit) : respects R m -> respects R (when b m).
Proof. intros Hm; destruct b; simpl; [exact Hm | apply respects_ret]. Qed.

End Respects.

(** One step of structural decomposition of a [respects] goal. *)
Ltac respects_step :=
  match goal with
  | |- respects _ (bind _ _) =>
      apply respects_bind; [ exact _ | | intros ? ]
  | |- respects _ (tryCatch _ _) =>
      apply respects_tryCatch; [ exact _ | | intros ? ]
  | |- respects _ (when _ _) => apply respects_when; [ exact _ | ]
  | |- respects _ (ret _) => apply respects_ret; exact _
  | |- respects _ (throw _) => apply respects_throw; exact _
  | |- respects _ get => apply respects_get; exact _
  | |- respects _ now => apply respects_now; exact _
  | |- respects _ (if ?b then _ else _) => destruct b
  | |- respects _ (match ?x with _ => _ end) => destruct x
  | |- respects _ _ => solve [ auto with frame ]
  end.

Ltac respects_auto := repeat respects_step.

Create HintDb frame.

(** *** The relations that are framed *)

#[export] Instance sameStore_pre : PreOrder sameStore.
Proof.
  split.
  - intros w; split; reflexivity.
  - intros a b c [H1 H2] [H3 H4]; split; congruence.
Qed.

Lemma generateCalls_app l1 l2 :
  generateCalls (l1 ++ l2) = generateCalls l1 + generateCalls l2.
Proof. unfold generateCalls. rewrite filter_app, length_app. reflexivity. Qed.

Lemma discoveryCalls_app l1 l2 :
  discoveryCalls (l1 ++ l2) = discoveryCalls l1 + discoveryCalls l2.
Proof. unfold discoveryCalls. rewrite filter_app, length_app. reflexivity. Qed.

#[export] Instance quietly_pre : PreOrder quietly.
Proof.
  split.
  - intros w; split; [exists []; rewrite app_nil_r; auto | auto].
  - intros a b c [[l1 [H1 G1]] C1] [[l2 [H2 G2]] C2]; split.
    + exists (l1 ++ l2). split.
      * rewrite H2, H1, app_assoc. reflexivity.
      * rewrite generateCalls_app. lia.
    + auto.
Qed.

#[export] Instance withoutDiscovery_pre : PreOrder withoutDiscovery.
Proof.
  split.
  - intros w; exists []; rewrite app_nil_r; auto.
  - intros a b c [l1 [H1 G1]] [l2 [H2 G2]].
    exists (l1 ++ l2). split.
    + rewrite H2, H1, app_assoc. reflexivity.
    + rewrite discoveryCalls_app. lia.
Qed.

(** *** The primitives *)

Lemma emit_sameStore e : respects sameStore (emit e).
Proof. intros w; split; reflexivity. Qed.

Lemma setOllama_sameStore o : respects sameStore (setOllama o).
Proof. intros w; split; reflexivity. Qed.

Lemma emit_quietly e : isFetchGenerate e = false -> respects quietly (emit e).
Proof.
  intros He w; split; simpl; [ | auto ].
  exists [e]; split; [reflexivity | ].
  unfold generateCalls; simpl; rewrite He; reflexivity.
Qed.

Lemma setOllama_quietly name : respects quietly (setOllama (mkOllama true name)).
Proof.
  intros w; split; simpl; [ | auto ].
  exists []; rewrite app_nil_r; auto.
Qed.

Lemma setVectorStore_quietly s : respects quietly (setVectorStore s).
Proof.
  intros w; split; simpl; [ | auto ].
  exists []; rewrite app_nil_r; auto.
Qed.

Lemma setRouteInitialized_quietly b : respects quietly (setRouteInitialized b).
Proof.
  intros w; split; simpl; [ | auto ].
  exists []; rewrite app_nil_r; auto.
Qed.

Lemma emit_withoutDiscovery e :
  isFetchTags e = false -> respects withoutDiscovery (emit e).
Proof.
  intros He w; exists [e]; split; [reflexivity | ].
  unfold discoveryCalls; simpl; rewrite He; reflexivity.
Qed.

#[export] Hint Resolve emit_sameStore setOllama_sameStore emit_quietly
  setOllama_quietly setVectorStore_quietly setRouteInitialized_quietly
  emit_withoutDiscovery : frame.

(** *** The service *)

Section ServiceFrames.

Variable ep : Endpoint.

Lemma detectAvailableModel_sameStore :
  respects sameStore (Ollama.detectAvailableModel ep).
Proof. unfold Ollama.detectAvailableModel. respects_auto. Qed.

Lemma detectAvailableModel_quietly :
  respects quietly (Ollama.detectAvailableModel ep).
Proof. unfold Ollama.detectAvailableModel. respects_auto. Qed.

Hint Resolve detectAvailableModel_sameStore detectAvailableModel_quietly
  : frame.

Lemma waitForConnectionFrom_sameStore todo i retries :
  respects sameStore (Ollama.waitForConnectionFrom ep todo i retries).
Proof.
  revert i. induction todo as [|todo IH]; intros i; simpl.
  - respects_auto.
  - unfold Ollama.sleep. respects_auto.
Qed.

Lemma waitForConnectionFrom_quietly todo i retries :
  respects quietly (Ollama.waitForConnectionFrom ep todo i retries).
Proof.
  revert i. induction todo as [|todo IH]; intros i; simpl.
  - respects_auto.
  - unfold Ollama.sleep. respects_auto.
Qed.

Hint Resolve waitForConnectionFrom_sameStore waitForConnectionFrom_quietly
  : frame.

Lemma checkConnection_sameStore : respects sameStore (Ollama.checkConnection ep).
Proof.
  unfold Ollama.checkConnection, Ollama.waitForConnection. respects_auto.
Qed.

Lemma checkConnection_quietly : respects quietly (Ollama.checkConnection ep).
Proof.
  unfold Ollama.checkConnection, Ollama.waitForConnection. respects_auto.
Qed.

Hint Resolve checkConnection_sameStore checkConnection_quietly : frame.

Lemma ensureConnected_sameStore : respects sameStore (Ollama.ensureConnected ep).
Proof. unfold Ollama.ensureConnected. respects_auto. Qed.

Lemma ensureConnected_quietly : respects quietly (Ollama.ensureConnected ep).
Proof. unfold Ollama.ensureConnected. respects_auto. Qed.

Hint Resolve ensureConnected_sameStore ensureConnected_quietly : frame.

Lemma generate_sameStore prompt : respects sameStore (Ollama.generate ep prompt).
Proof. unfold Ollama.generate. respects_auto. Qed.

Lemma embedEach_sameStore texts acc :
  respects sameStore (Ollama.embedEach ep texts acc).
Proof.
  revert acc. induction texts as [|text rest IH]; intros acc; simpl;
    respects_auto.
Qed.

Lemma embedEach_quietly texts acc :
  respects quietly (Ollama.embedEach ep texts acc).
Proof.
  revert acc. induction texts as [|text rest IH]; intros acc; simpl;
    respects_auto.
Qed.

Lemma embedEach_withoutDiscovery texts acc :
  respects withoutDiscovery (Ollama.embedEach ep texts acc).
Proof.
  revert acc. induction texts as [|text rest IH]; intros acc; simpl;
    respects_auto.
Qed.

Hint Resolve embedEach_sameStore embedEach_quietly : frame.

Lemma getEmbeddings_sameStore texts :
  respects sameStore (Ollama.getEmbeddings ep texts).
Proof. unfold Ollama.getEmbeddings. respects_auto. Qed.

Lemma getEmbeddings_quietly texts :
  respects quietly (Ollama.getEmbeddings ep texts).
Proof. unfold Ollama.getEmbeddings. respects_auto. Qed.

End ServiceFrames.

#[export] Hint Resolve checkConnection_sameStore checkConnection_quietly
  getEmbeddings_sameStore getEmbeddings_quietly generate_sameStore
  embedEach_withoutDiscovery : frame.

(** ** The connection loop *)

Section Connection.

Variable ep : Endpoint.

Lemma waitForConnectionFrom_S todo i retries w :
  Ollama.waitForConnectionFrom ep (S todo) i retries w =
  match modelNow ep w with
  | Some name => (Ret true, connectedAs name w)
  | None =>
      (when (Nat.ltb i (retries - 1)) (Ollama.sleep Ollama.retryDelay) ;;;
       Ollama.waitForConnectionFrom ep todo (S i) retries) (probed w)
  end.
Proof.
  unfold modelNow. cbn [Ollama.waitForConnectionFrom].
  unfold bind at 1. unfold tryCatch, Ollama.detectAvailableModel, bind, now,
    emit, ret, setOllama. cbn.
  destruct (Ollama.modelOfResponse (tags ep (List.length (log w)))) as [name|];
    [destruct (Js.truthy name) | ]; reflexivity.
Qed.

Lemma extended_nil w : extended w [] = w.
Proof. destruct w; unfold extended; cbn. rewrite app_nil_r. reflexivity. Qed.

Lemma waitForConnectionFrom_exhausted todo :
  (forall t, Ollama.modelOfResponse (tags ep t) = None) ->
  forall i retries w,
    Ollama.waitForConnectionFrom ep todo i retries w =
    (Ret false, extended w (retryLog todo i retries)).
Proof.
  intros Hnone. induction todo as [|todo IH]; intros i retries w.
  - cbn. rewrite extended_nil. reflexivity.
  - rewrite waitForConnectionFrom_S. unfold modelNow. rewrite Hnone.
    unfold bind, when, Ollama.sleep, emit, ret.
    destruct (Nat.ltb i (retries - 1)) eqn:Hi; cbn [retryLog]; rewrite Hi;
      rewrite IH; unfold extended, probed; cbn;
      rewrite <- !app_assoc; reflexivity.
Qed.

(** Every run of the loop extends the log by between one and [todo]
    discovery requests (none when [todo] is zero). *)
Lemma waitForConnectionFrom_probes todo :
  forall i retries w,
  exists l,
    log (snd (Ollama.waitForConnectionFrom ep todo i retries w)) = log w ++ l /\
    discoveryCalls l <= todo /\
    (0 < todo -> 1 <= discoveryCalls l).
Proof.
  induction todo as [|todo IH]; intros i retries w.
  - exists []. cbn. rewrite app_nil_r. repeat split; auto; lia.
  - rewrite waitForConnectionFrom_S.
    destruct (modelNow ep w) as [name|].
    + exists [FetchTags]. cbn. repeat split; auto; lia.
    + unfold bind, when, Ollama.sleep, emit, ret.
      destruct (Nat.ltb i (retries - 1)); cbn.
      * destruct (IH (S i) retries
                     (mkWorld (ollama w) (vectorStore w) (routeInitialized w)
                              ((log w ++ [FetchTags]) ++ [Sleep Ollama.retryDelay])))
          as [l [Hl [Hle _]]].
        exists ([FetchTags; Sleep Ollama.retryDelay] ++ l).
        rewrite Hl. cbn [log]. rewrite <- !app_assoc. split; [reflexivity|].
        rewrite discoveryCalls_app. cbn. lia.
      * destruct (IH (S i) retries (probed w)) as [l [Hl [Hle _]]].
        exists ([FetchTags] ++ l).
        rewrite Hl. unfold probed. cbn [log]. rewrite <- !app_assoc.
        split; [reflexivity|].
        rewrite discoveryCalls_app. cbn. lia.
Qed.

Lemma checkConnection_unfold w :
  Ollama.checkConnection ep w =
  match Ollama.waitForConnection ep Ollama.maxRetries w with
  | (Ret true, w') => (Ret (Ollama.mkStatus true None), w')
  | (Ret false, w') =>
      (Ret (Ollama.mkStatus false (Some (Ollama.couldNotConnect ep))), w')
  | (Throw e, w') =>
      (Ret (Ollama.mkStatus false
              (Some ("Failed to connect to Ollama: " ++ Js.message e)%string)),
       w')
  end.
Proof.
  unfold Ollama.checkConnection, tryCatch, bind.
  destruct (Ollama.waitForConnection ep Ollama.maxRetries w) as [[[|]|e] w'];
    reflexivity.
Qed.

(** A check made while a model is on offer connects after one request. *)
Lemma checkConnection_connects w name :
  modelNow ep w = Some name ->
  Ollama.checkConnection ep w =
  (Ret (Ollama.mkStatus true None), connectedAs name w).
Proof.
  intros H. rewrite checkConnection_unfold.
  unfold Ollama.waitForConnection, Ollama.maxRetries.
  rewrite waitForConnectionFrom_S, H. reflexivity.
Qed.

(** With the connection up, [ensureConnected] does nothing at all. *)
Lemma ensureConnected_connected w :
  isConnected (ollama w) = true ->
  Ollama.ensureConnected ep w = (Ret tt, w).
Proof.
  intros H. unfold Ollama.ensureConnected, bind, get. rewrite H. reflexivity.
Qed.

End Connection.

(** ** Claims about the connection check *)

Lemma modelOfResponse_fails r :
  discoveryFails r -> Ollama.modelOfResponse r = None.
Proof. destruct r as [e|[|] models]; cbn; intros H; congruence. Qed.

(** C4.  When every discovery request fails (rejected, or answered with a
    status that is not ok), [checkConnection] issues exactly [maxRetries] = 3
    discovery requests with a sleep of [retryDelay] = 1000 ms between
    consecutive ones (two sleeps), changes nothing else, and returns, not
    throws, the status [{ isRunning: false, error: "Could not connect ..." }]. *)
Theorem checkConnection_unreachable (ep : Endpoint) (w : World) :
  (forall t, discoveryFails (tags ep t)) ->
  Ollama.checkConnection ep w =
  (Ret (Ollama.mkStatus false
          (Some ("Could not connect to Ollama at " ++ baseUrl ep ++
                 " after multiple attempts. Please ensure Ollama is running.")%string)),
   extended w [FetchTags; Sleep 1000; FetchTags; Sleep 1000; FetchTags]).
Proof.
  intros Hfail. rewrite checkConnection_unfold.
  unfold Ollama.waitForConnection.
  rewrite waitForConnectionFrom_exhausted
    by (intros t; apply modelOfResponse_fails, Hfail).
  reflexivity.
Qed.

Lemma checkConnection_unreachable_witness :
  Ollama.checkConnection deadEndpoint boot =
  (Ret (Ollama.mkStatus false
          (Some "Could not connect to Ollama at http://127.0.0.1:11434 after multiple attempts. Please ensure Ollama is running.")),
   mkWorld (mkOllama false "llama3.2") None false
           [FetchTags; Sleep 1000; FetchTags; Sleep 1000; FetchTags]).
Proof.
  apply (checkConnection_unreachable deadEndpoint boot).
  intros t. exact I.
Defined.

(** C3, as the spec states it, fails: on a server that lists llama3.2, a
    first check succeeds and leaves the service connected, and the check made
    right after it sends one more discovery request. *)
Lemma checkConnection_twice_probes_twice :
  let ep := liveEndpoint ["llama3.2:latest"] (fun _ => EmbeddingsOk []) "ok" in
  let first := Ollama.checkConnection ep boot in
  let second := Ollama.checkConnection ep (snd first) in
  fst first = Ret (Ollama.mkStatus true None) /\
  isConnected (ollama (snd first)) = true /\
  fst second = Ret (Ollama.mkStatus true None) /\
  discoveryCalls (log (snd first)) = 1 /\
  discoveryCalls (log (snd second)) = 2.
Proof. vm_compute. repeat split. Qed.

(** C3, amended.  [checkConnection] has no fast path: in every state,
    connected or not, it sends at least one and at most [maxRetries]
    discovery requests, and exactly one when a model is on offer.  The
    connected fast path is at the callers: with [isConnected] set,
    [generate] and [getEmbeddings] send no discovery request. *)
Theorem checkConnection_always_probes (ep : Endpoint) (w : World) :
  (exists l,
      log (snd (Ollama.checkConnection ep w)) = log w ++ l /\
      1 <= discoveryCalls l <= Ollama.maxRetries /\
      (forall name, modelNow ep w = Some name -> l = [FetchTags])) /\
  (isConnected (ollama w) = true ->
   forall prompt texts,
     withoutDiscovery w (snd (Ollama.generate ep prompt w)) /\
     withoutDiscovery w (snd (Ollama.getEmbeddings ep texts w))).
Proof.
  split.
  - destruct (waitForConnectionFrom_probes ep Ollama.maxRetries 0
                                           Ollama.maxRetries w)
      as [l [Hl [Hle Hge]]].
    exists l. rewrite checkConnection_unfold. unfold Ollama.waitForConnection.
    split; [ | split ].
    + rewrite <- Hl.
      destruct (Ollama.waitForConnectionFrom ep Ollama.maxRetries 0
                                             Ollama.maxRetries w)
        as [[[|]|e] w']; reflexivity.
    + split; [apply Hge; unfold Ollama.maxRetries; lia | exact Hle].
    + intros name Hname. unfold Ollama.maxRetries in Hl.
      rewrite waitForConnectionFrom_S, Hname in Hl. cbn in Hl.
      apply app_inv_head in Hl. auto.
  - intros Hconn prompt texts. split.
    + unfold Ollama.generate, bind at 1.
      rewrite ensureConnected_connected by exact Hconn.
      apply (@respects_tryCatch withoutDiscovery _ string).
      * respects_auto.
      * intros e. respects_auto.
    + unfold Ollama.getEmbeddings, bind at 1.
      rewrite ensureConnected_connected by exact Hconn.
      apply (@respects_tryCatch withoutDiscovery _ (list (list float))).
      * respects_auto.
      * intros e. respects_auto.
Qed.

(** ** Claims about [getEmbeddings] *)

Section Embeddings.

Variable ep : Endpoint.

Lemma extended_extended w l1 l2 :
  extended (extended w l1) l2 = extended w (l1 ++ l2).
Proof. unfold extended; cbn. rewrite app_assoc. reflexivity. Qed.

Lemma length_log_extended1 w e :
  List.length (log (extended w [e])) = S (List.length (log w)).
Proof. cbn. rewrite length_app. cbn. lia. Qed.

Lemma embedEach_cons text rest acc w :
  Ollama.embedEach ep (text :: rest) acc w =
  match embeddings ep (List.length (log w)) (modelName (ollama w)) text with
  | EmbeddingsOk v =>
      Ollama.embedEach ep rest (acc ++ [v])
                       (extended w [FetchEmbeddings (modelName (ollama w)) text])
  | r => (Throw (embeddingFailure r),
          extended w [FetchEmbeddings (modelName (ollama w)) text])
  end.
Proof.
  cbn [Ollama.embedEach]. unfold bind, get, now, emit. cbn.
  destruct (embeddings ep (List.length (log w)) (modelName (ollama w)) text);
    reflexivity.
Qed.

Lemma embedEach_all_ok texts :
  forall acc w vs,
    answers ep (modelName (ollama w)) (List.length (log w)) texts
    = map EmbeddingsOk vs ->
    Ollama.embedEach ep texts acc w =
    (Ret (acc ++ vs), extended w (requests (modelName (ollama w)) texts)).
Proof.
  induction texts as [|text rest IH]; intros acc w vs Hans.
  - destruct vs; [ | discriminate ].
    cbn. rewrite app_nil_r, extended_nil. reflexivity.
  - destruct vs as [|v vs]; [discriminate | ].
    cbn in Hans. injection Hans as Hv Hrest.
    rewrite embedEach_cons, Hv.
    rewrite (IH _ _ vs).
    + rewrite extended_extended, <- app_assoc. reflexivity.
    + rewrite length_log_extended1. exact Hrest.
Qed.

Lemma embedEach_first_failure texts :
  forall acc w vs bad later,
    answers ep (modelName (ollama w)) (List.length (log w)) texts
    = map EmbeddingsOk vs ++ bad :: later ->
    isEmbeddingsOk bad = false ->
    Ollama.embedEach ep texts acc w =
    (Throw (embeddingFailure bad),
     extended w (requests (modelName (ollama w))
                          (firstn (S (List.length vs)) texts))).
Proof.
  induction texts as [|text rest IH]; intros acc w vs bad later Hans Hbad.
  - destruct vs; discriminate.
  - destruct vs as [|v vs]; cbn in Hans; injection Hans as Hv Hrest.
    + rewrite embedEach_cons, Hv.
      destruct bad; [reflexivity | reflexivity | discriminate].
    + rewrite embedEach_cons, Hv.
      rewrite (IH _ _ vs bad later); [ | | exact Hbad ].
      * rewrite extended_extended. reflexivity.
      * rewrite length_log_extended1. exact Hrest.
Qed.

Lemma answers_length model t texts :
  List.length (answers ep model t texts) = List.length texts.
Proof.
  revert t. induction texts as [|x r IH]; intros t; cbn; [ | rewrite IH ];
    reflexivity.
Qed.

End Embeddings.

Lemma getEmbeddings_first_failure ep w texts vs bad later :
  isConnected (ollama w) = true ->
  answers ep (modelName (ollama w)) (List.length (log w)) texts
  = map EmbeddingsOk vs ++ bad :: later ->
  isEmbeddingsOk bad = false ->
  Ollama.getEmbeddings ep texts w =
  (Throw (Js.newError ("Failed to generate embeddings: "
                       ++ Js.message (embeddingFailure bad))%string),
   extended w (requests (modelName (ollama w))
                        (firstn (S (List.length vs)) texts))).
Proof.
  intros Hconn Hans Hbad. unfold Ollama.getEmbeddings, bind.
  rewrite ensureConnected_connected by exact Hconn.
  unfold tryCatch.
  rewrite (embedEach_first_failure ep texts [] w vs bad later Hans Hbad).
  reflexivity.
Qed.

(** C6.  On a connected service, [getEmbeddings texts] sends one embeddings
    request per text, one after the other in the order of [texts].  If every
    request succeeds it returns the vectors, one per text and in the same
    order.  If some request fails, the requests up to and including the
    first failing one are the only ones sent, and the call throws an error
    ("Failed to generate embeddings: ...") instead of returning any vector. *)
Theorem getEmbeddings_sequential (ep : Endpoint) (w : World) (texts : list string) :
  isConnected (ollama w) = true ->
  let model := modelName (ollama w) in
  let asked := answers ep model (List.length (log w)) texts in
  (forall vs,
      asked = map EmbeddingsOk vs ->
      Ollama.getEmbeddings ep texts w =
      (Ret vs, extended w (map (FetchEmbeddings model) texts)) /\
      List.length vs = List.length texts) /\
  (forall vs bad later,
      asked = map EmbeddingsOk vs ++ bad :: later ->
      isEmbeddingsOk bad = false ->
      Ollama.getEmbeddings ep texts w =
      (Throw (Js.newError ("Failed to generate embeddings: "
                           ++ Js.message (embeddingFailure bad))%string),
       extended w (map (FetchEmbeddings model)
                       (firstn (S (List.length vs)) texts)))).
Proof.
  intros Hconn model asked. split.
  - intros vs Hok. split.
    + unfold Ollama.getEmbeddings, bind.
      rewrite ensureConnected_connected by exact Hconn.
      unfold tryCatch. rewrite (embedEach_all_ok ep texts [] w vs Hok).
      reflexivity.
    + apply (f_equal (@List.length _)) in Hok.
      unfold asked in Hok. rewrite answers_length, length_map in Hok. auto.
  - intros vs bad later Hans Hbad.
    exact (getEmbeddings_first_failure ep w texts vs bad later Hconn Hans Hbad).
Qed.

Lemma getEmbeddings_sequential_witness :
  Ollama.getEmbeddings flakyEndpoint ["a"; "c"] connectedWorld =
  (Ret [[1%float; 0%float]; [1%float; 0%float]],
   extended connectedWorld
            [FetchEmbeddings "llama3.2" "a"; FetchEmbeddings "llama3.2" "c"]) /\
  Ollama.getEmbeddings flakyEndpoint ["a"; "b"; "c"] connectedWorld =
  (Throw (Js.newError
            "Failed to generate embeddings: Failed to get embeddings: Internal Server Error"),
   extended connectedWorld
            [FetchEmbeddings "llama3.2" "a"; FetchEmbeddings "llama3.2" "b"]).
Proof.
  split.
  - exact (proj1 (proj1 (getEmbeddings_sequential flakyEndpoint connectedWorld
                                                  ["a"; "c"] eq_refl)
                        [[1%float; 0%float]; [1%float; 0%float]] eq_refl)).
  - exact (proj2 (getEmbeddings_sequential flakyEndpoint connectedWorld
                                           ["a"; "b"; "c"] eq_refl)
                 [[1%float; 0%float]]
                 (EmbeddingsNotOk "Internal Server Error")
                 [EmbeddingsOk [1%float; 0%float]] eq_refl eq_refl).
Defined.

(** ** Claims about model discovery *)

(** C8, as the spec states it, fails.  With mistral listed before
    llama3.2:1b there is no exact match of the preferred name, so the stated
    order picks mistral; the code picks "llama3.2" (a name that is not even
    listed) and records it.  The earlier revision of the service has no
    fallback at all: a server that lists only mistral is never connected to. *)
Lemma chooseModel_prefers_tagged_llama :
  let models := ["mistral"; "llama3.2:1b"] in
  let ep := liveEndpoint models (fun _ => EmbeddingsOk []) "ok" in
  exactThenFallback "llama3.2" models = Some "mistral" /\
  Ollama.chooseModel models = Some "llama3.2" /\
  modelName (ollama (snd (Ollama.checkConnection ep boot))) = "llama3.2" /\
  fst (OllamaLegacy.waitForConnection
         (liveEndpoint ["mistral"] (fun _ => EmbeddingsOk []) "ok") 3 boot)
  = Ret false.
Proof. vm_compute. repeat split. Qed.

Lemma find_skips {A} (p : A -> bool) (skipped : list A) (x : A) (rest : list A) :
  (forall y, In y skipped -> p y = false) ->
  p x = true ->
  List.find p (skipped ++ x :: rest) = Some x.
Proof.
  intros Hskip Hx. induction skipped as [|y ys IH]; cbn.
  - rewrite Hx. reflexivity.
  - rewrite (Hskip y) by (left; reflexivity).
    apply IH. intros z Hz. apply Hskip. right. exact Hz.
Qed.

Lemma find_all_false {A} (p : A -> bool) (xs : list A) :
  (forall y, In y xs -> p y = false) -> List.find p xs = None.
Proof.
  intros H. induction xs as [|y ys IH]; cbn; [reflexivity | ].
  rewrite (H y) by (left; reflexivity).
  apply IH. intros z Hz. apply H. right. exact Hz.
Qed.

Lemma embedEach_log ep texts :
  forall acc w,
  exists n,
    log (snd (Ollama.embedEach ep texts acc w)) =
    log w ++ requests (modelName (ollama w)) (firstn n texts).
Proof.
  induction texts as [|text rest IH]; intros acc w.
  - exists 0. cbn. rewrite app_nil_r. reflexivity.
  - rewrite embedEach_cons.
    destruct (embeddings ep (List.length (log w)) (modelName (ollama w)) text)
      as [e|st|v].
    + exists 1. reflexivity.
    + exists 1. reflexivity.
    + destruct (IH (acc ++ [v])
                   (extended w [FetchEmbeddings (modelName (ollama w)) text]))
        as [n Hn].
      exists (S n). rewrite Hn. cbn. rewrite <- app_assoc. reflexivity.
Qed.

Lemma isLlama32_spec name :
  Ollama.isLlama32 name = true <->
  name = "llama3.2" \/ String.prefix "llama3.2:" name = true.
Proof.
  unfold Ollama.isLlama32, Js.startsWith. rewrite orb_true_iff, String.eqb_eq.
  reflexivity.
Qed.

Lemma generate_connected ep prompt w :
  isConnected (ollama w) = true ->
  log (snd (Ollama.generate ep prompt w)) =
  log w ++ [FetchGenerate (modelName (ollama w)) prompt].
Proof.
  intros Hconn. unfold Ollama.generate, bind at 1.
  rewrite ensureConnected_connected by exact Hconn.
  unfold tryCatch, bind, get, now, emit. cbn.
  destruct (generation ep (List.length (log w)) (modelName (ollama w)) prompt);
    reflexivity.
Qed.

Lemma getEmbeddings_connected ep texts w :
  isConnected (ollama w) = true ->
  exists n,
    log (snd (Ollama.getEmbeddings ep texts w)) =
    log w ++ requests (modelName (ollama w)) (firstn n texts).
Proof.
  intros Hconn. unfold Ollama.getEmbeddings, bind at 1.
  rewrite ensureConnected_connected by exact Hconn.
  destruct (embedEach_log ep texts [] w) as [n Hn].
  exists n. unfold tryCatch.
  destruct (Ollama.embedEach ep texts [] w) as [[vs|e] w']; exact Hn.
Qed.

(** C8, amended.  Discovery prefers any listed model named "llama3.2" or
    whose name begins with "llama3.2:" and then reports the fixed name
    "llama3.2"; failing that it reports the first listed model whose name
    does not contain "vision"; failing that, none.  When a check meets a
    list with a (non-empty) choice, it succeeds after one request, records
    the chosen name, and the following [generate] and [getEmbeddings]
    requests carry that name.  In the earlier revision one attempt connects
    exactly when some listed name contains "llama3.2"; there is no fallback. *)
Theorem model_discovery_order (models : list string) :
  ((exists name, In name models /\
                 (name = "llama3.2" \/ String.prefix "llama3.2:" name = true)) ->
   Ollama.chooseModel models = Some "llama3.2") /\
  ((forall name, In name models -> Ollama.isLlama32 name = false) ->
   (forall vision name rest,
       models = vision ++ name :: rest ->
       (forall m, In m vision -> Js.includes "vision" m = true) ->
       Js.includes "vision" name = false ->
       Ollama.chooseModel models = Some name) /\
   ((forall m, In m models -> Js.includes "vision" m = true) ->
    Ollama.chooseModel models = None)) /\
  (forall ep w name,
      tags ep (List.length (log w)) = TagsStatus true (Some models) ->
      Ollama.chooseModel models = Some name ->
      Js.truthy name = true ->
      let w1 := snd (Ollama.checkConnection ep w) in
      Ollama.checkConnection ep w =
      (Ret (Ollama.mkStatus true None), connectedAs name w) /\
      ollama w1 = mkOllama true name /\
      (forall prompt,
          log (snd (Ollama.generate ep prompt w1)) =
          log w1 ++ [FetchGenerate name prompt]) /\
      (forall texts, exists n,
          log (snd (Ollama.getEmbeddings ep texts w1)) =
          log w1 ++ map (FetchEmbeddings name) (firstn n texts))) /\
  (forall ep w,
      tags ep (List.length (log w)) = TagsStatus true (Some models) ->
      fst (OllamaLegacy.waitForConnection ep 1 w) =
      Ret (existsb (Js.includes "llama3.2") models)).
Proof.
  split; [ | split; [ | split ] ].
  - intros [name [Hin Hname]]. unfold Ollama.chooseModel, Js.find.
    destruct (List.find Ollama.isLlama32 models) eqn:Hfind; [reflexivity | ].
    apply (find_none _ _ Hfind) in Hin.
    apply isLlama32_spec in Hname. congruence.
  - intros Hnone. unfold Ollama.chooseModel, Js.find.
    rewrite (find_all_false _ _ Hnone). split.
    + intros vision name rest -> Hvision Hname.
      rewrite find_skips; [reflexivity | | ].
      * intros m Hm. unfold Ollama.isNonVision. rewrite (Hvision m Hm).
        reflexivity.
      * unfold Ollama.isNonVision. rewrite Hname. reflexivity.
    + intros Hall. rewrite find_all_false; [reflexivity | ].
      intros m Hm. unfold Ollama.isNonVision. rewrite (Hall m Hm). reflexivity.
  - intros ep w name Htags Hchoose Htruthy w1.
    assert (Hnow : modelNow ep w = Some name).
    { unfold modelNow. rewrite Htags. cbn.
      destruct models as [|m ms]; [discriminate | ].
      rewrite Hchoose, Htruthy. reflexivity. }
    assert (Hcheck := checkConnection_connects ep w Hnow).
    subst w1. rewrite Hcheck. cbn [snd].
    split; [reflexivity | split; [reflexivity | split ] ].
    + intros prompt. apply (generate_connected ep prompt (connectedAs name w)).
      reflexivity.
    + intros texts.
      apply (getEmbeddings_connected ep texts (connectedAs name w)).
      reflexivity.
  - intros ep w Htags. cbn. unfold bind, now, emit, get, setOllama, ret. cbn.
    rewrite Htags. cbn.
    destruct (existsb (Js.includes "llama3.2") models); reflexivity.
Qed.

(** ** The vector store *)

Section StoreFacts.

Variable ep : Endpoint.

Lemma this_some w s :
  vectorStore w = Some s -> VectorStore.this w = (Ret s, w).
Proof. intros H. unfold VectorStore.this, bind, get. rewrite H. reflexivity. Qed.

(** The check always returns a status; it leaves the store alone, and a
    status that says running means the service is connected. *)
Lemma checkConnection_returns w :
  exists st w',
    Ollama.checkConnection ep w = (Ret st, w') /\
    vectorStore w' = vectorStore w /\
    routeInitialized w' = routeInitialized w /\
    (Ollama.isRunning st = true -> isConnected (ollama w') = true).
Proof.
  destruct (checkConnection_sameStore ep w) as [Hs Hr].
  rewrite checkConnection_unfold in *. unfold Ollama.waitForConnection in *.
  assert (Hconn : forall todo i retries w0,
             fst (Ollama.waitForConnectionFrom ep todo i retries w0) = Ret true ->
             isConnected
               (ollama (snd (Ollama.waitForConnectionFrom ep todo i retries w0)))
             = true).
  { induction todo as [|todo IH]; intros i retries w0.
    - cbn. discriminate.
    - rewrite waitForConnectionFrom_S. destruct (modelNow ep w0).
      + reflexivity.
      + unfold bind, when, Ollama.sleep, emit, ret.
        destruct (Nat.ltb i (retries - 1)); cbn; apply IH. }
  specialize (Hconn Ollama.maxRetries 0 Ollama.maxRetries w).
  destruct (Ollama.waitForConnectionFrom ep Ollama.maxRetries 0
                                         Ollama.maxRetries w)
    as [[[|]|e] w']; cbn in *; eauto 10.
  - do 2 eexists. repeat split; eauto. discriminate.
  - do 2 eexists. repeat split; eauto. discriminate.
Qed.

Lemma initialize_initialized w s :
  vectorStore w = Some s -> isInitialized s = true ->
  VectorStore.initialize ep w = (Ret tt, w).
Proof.
  intros Hs Hi. unfold VectorStore.initialize, bind at 1.
  rewrite (this_some w Hs), Hi. reflexivity.
Qed.

Lemma initialize_uninitialized w s st w' :
  vectorStore w = Some s -> isInitialized s = false ->
  Ollama.checkConnection ep w = (Ret st, w') ->
  VectorStore.initialize ep w =
  if Ollama.isRunning st
  then (Ret tt, withStore w' (mkStore (documents s) true))
  else (Throw (initializeError st), w').
Proof.
  intros Hs Hi Hc.
  destruct (checkConnection_returns w) as [st0 [w0 [Hc0 [Hv _]]]].
  rewrite Hc in Hc0. injection Hc0 as <- <-.
  unfold VectorStore.initialize, bind at 1.
  rewrite (this_some w Hs), Hi.
  unfold tryCatch, bind at 1. rewrite Hc.
  destruct (Ollama.isRunning st); cbn.
  - unfold bind. rewrite (this_some w' (eq_trans Hv Hs)). reflexivity.
  - reflexivity.
Qed.

(** [similaritySearch] on an initialized store. *)
Lemma similaritySearch_initialized query k w s :
  vectorStore w = Some s -> isInitialized s = true ->
  VectorStore.similaritySearch ep query k w =
  match documents s with
  | [] => (Ret [], w)
  | _ :: _ =>
      match Ollama.getEmbeddings ep [query] w with
      | (Ret [], w') => (Ret [], w')
      | (Ret (queryEmbedding :: _), w') =>
          match VectorStore.toDocuments
                  (documents s)
                  (Js.slice0 k (VectorStore.sort
                                  VectorStore.byScoreDesc
                                  (VectorStore.similarities queryEmbedding
                                                            (documents s))))
          with
          | Some ds => (Ret ds, w')
          | None => (Ret [], w')
          end
      | (Throw _, w') => (Ret [], w')
      end
  end.
Proof.
  intros Hs Hi. unfold VectorStore.similaritySearch.
  unfold bind at 1. rewrite (this_some w Hs), Hi. cbn [negb].
  unfold bind at 1. cbn [ret].
  unfold bind at 1. rewrite (this_some w Hs).
  destruct (documents s) as [|d ds] eqn:Hd; [reflexivity | ].
  cbn [List.length Nat.eqb].
  destruct (getEmbeddings_sameStore ep [query] w) as [Hv _].
  unfold tryCatch, bind at 1.
  destruct (Ollama.getEmbeddings ep [query] w) as [[[|qe rest]|e] w'];
    try reflexivity.
  cbn in Hv. unfold bind at 1.
  rewrite (this_some w' (eq_trans Hv Hs)). rewrite Hd.
  destruct (VectorStore.toDocuments _ _); reflexivity.
Qed.

End StoreFacts.

(** ** Claims about an empty store *)

(** C9, as the spec states it, fails.  A first search against an unreachable
    server leaves the module with a store that is empty and not initialized;
    [similaritySearch] on that store raises the connection error. *)
Lemma similaritySearch_empty_store_raises :
  let w0 := snd (VectorStore.searchSimilarChunks deadEndpoint "q" 3 boot) in
  vectorStore w0 = Some (mkStore [] false) /\
  fst (VectorStore.similaritySearch deadEndpoint "q" 3 w0) =
  Throw (Js.newError
           "Could not connect to Ollama at http://127.0.0.1:11434 after multiple attempts. Please ensure Ollama is running.").
Proof. vm_compute. split; reflexivity. Qed.

(** C9, amended.  On an empty store that is initialized, [similaritySearch]
    returns the empty sequence for every query and every [k], without any
    request and without an error.  On an empty store that is not yet
    initialized it first runs the connection check: if the check reports a
    running service the store becomes initialized and the result is the empty
    sequence; otherwise the call raises the error of the check. *)
Theorem similaritySearch_empty_store
        (ep : Endpoint) (w : World) (s : SimpleVectorStore)
        (query : string) (k : Z) :
  vectorStore w = Some s ->
  documents s = [] ->
  (isInitialized s = true ->
   VectorStore.similaritySearch ep query k w = (Ret [], w)) /\
  (isInitialized s = false ->
   forall st w',
     Ollama.checkConnection ep w = (Ret st, w') ->
     VectorStore.similaritySearch ep query k w =
     if Ollama.isRunning st
     then (Ret [], withStore w' (mkStore [] true))
     else (Throw (initializeError st), w')).
Proof.
  intros Hs Hd. split.
  - intros Hi. rewrite (similaritySearch_initialized ep query k w Hs Hi), Hd.
    reflexivity.
  - intros Hi st w' Hc.
    unfold VectorStore.similaritySearch.
    unfold bind at 1. rewrite (this_some w Hs), Hi. cbn [negb].
    unfold bind at 1.
    rewrite (initialize_uninitialized ep w Hs Hi Hc), Hd.
    destruct (Ollama.isRunning st); [ | reflexivity ].
    unfold bind at 1.
    rewrite (this_some (withStore w' (mkStore [] true)) eq_refl).
    reflexivity.
Qed.

Lemma similaritySearch_empty_store_witness :
  VectorStore.similaritySearch deadEndpoint "q" 3
    (mkWorld (mkOllama true "llama3.2") (Some (mkStore [] true)) false []) =
  (Ret [], mkWorld (mkOllama true "llama3.2") (Some (mkStore [] true)) false []).
Proof.
  exact (proj1 (similaritySearch_empty_store
                  deadEndpoint
                  (mkWorld (mkOllama true "llama3.2") (Some (mkStore [] true))
                           false [])
                  "q" 3 eq_refl eq_refl) eq_refl).
Defined.

(** ** Claims about the scores *)

(** C10.  [cosineSimilarity] is the quotient [dot(a,b) / (|a| * |b|)] and
    nothing else.  A zero-magnitude vector on either side (the zero vector,
    the empty vector) and a second vector shorter than the first give NaN.
    Such embeddings enter through [addDocumentsToStore] and
    [searchSimilarChunks]; the search then still returns documents, ranked
    with the NaN scores, and raises nothing: here the two NaN-scored chunks
    are returned ahead of the chunk that matches the query exactly. *)
Theorem cosineSimilarity_unguarded :
  (forall a b,
      VectorStore.cosineSimilarity a b =
      (VectorStore.dotProduct a b /
       (VectorStore.magnitude a * VectorStore.magnitude b))%float) /\
  PrimFloat.is_nan
    (VectorStore.cosineSimilarity [1%float; 0%float] [0%float; 0%float]) = true /\
  PrimFloat.is_nan
    (VectorStore.cosineSimilarity [0%float; 0%float] [1%float; 0%float]) = true /\
  PrimFloat.is_nan (VectorStore.cosineSimilarity [1%float; 0%float] []) = true /\
  PrimFloat.is_nan
    (VectorStore.cosineSimilarity [1%float; 0%float] [1%float]) = true /\
  (let w1 := snd (VectorStore.addDocumentsToStore
                    namedEndpoint ["zero"; "short"; "same"] boot) in
   vectorStore w1 =
   Some (mkStore [mkStored "zero" [0%float; 0%float];
                  mkStored "short" [1%float];
                  mkStored "same" [1%float; 0%float]] true) /\
   map (fun sim => PrimFloat.is_nan (VectorStore.score sim))
       (VectorStore.similarities [1%float; 0%float]
                                 [mkStored "zero" [0%float; 0%float];
                                  mkStored "short" [1%float];
                                  mkStored "same" [1%float; 0%float]])
   = [true; true; false] /\
   fst (VectorStore.searchSimilarChunks namedEndpoint "query" 3 w1) =
   Ret ["zero"; "short"; "same"] /\
   fst (VectorStore.searchSimilarChunks namedEndpoint "query" 1 w1) =
   Ret ["zero"]).
Proof.
  split; [ intros a b; reflexivity | ].
  vm_compute. repeat split; reflexivity.
Qed.

(** ** Frames of the store and of retrieval *)

Section StoreFrames.

Variable ep : Endpoint.

Lemma this_quietly : respects quietly VectorStore.this.
Proof. unfold VectorStore.this. respects_auto. Qed.

Hint Resolve this_quietly : frame.

Lemma initialize_quietly : respects quietly (VectorStore.initialize ep).
Proof. unfold VectorStore.initialize. respects_auto. Qed.

Hint Resolve initialize_quietly : frame.

Lemma addDocuments_quietly docs :
  respects quietly (VectorStore.addDocuments ep docs).
Proof. unfold VectorStore.addDocuments. respects_auto. Qed.

Lemma similaritySearch_quietly query k :
  respects quietly (VectorStore.similaritySearch ep query k).
Proof. unfold VectorStore.similaritySearch. respects_auto. Qed.

Lemma initializeVectorStore_quietly :
  respects quietly (VectorStore.initializeVectorStore ep).
Proof. unfold VectorStore.initializeVectorStore. respects_auto. Qed.

Hint Resolve addDocuments_quietly similaritySearch_quietly
  initializeVectorStore_quietly : frame.

Lemma addDocumentsToStore_quietly chunks :
  respects quietly (VectorStore.addDocumentsToStore ep chunks).
Proof. unfold VectorStore.addDocumentsToStore. respects_auto. Qed.

Lemma searchSimilarChunks_quietly query k :
  respects quietly (VectorStore.searchSimilarChunks ep query k).
Proof. unfold VectorStore.searchSimilarChunks. respects_auto. Qed.

Hint Resolve searchSimilarChunks_quietly : frame.

Lemma ensureVectorStore_quietly :
  respects quietly (ChatRouteModes.ensureVectorStore ep).
Proof. unfold ChatRouteModes.ensureVectorStore. respects_auto. Qed.

Hint Resolve ensureVectorStore_quietly : frame.

Lemma retrieval_quietly query k :
  respects quietly
           (ChatRouteModes.ensureVectorStore ep ;;;
            VectorStore.searchSimilarChunks ep query k).
Proof. respects_auto. Qed.

End StoreFrames.

Lemma generate_connected_result ep prompt w :
  isConnected (ollama w) = true ->
  Ollama.generate ep prompt w =
  match generation ep (List.length (log w)) (modelName (ollama w)) prompt with
  | GenerateOk response =>
      (Ret response, extended w [FetchGenerate (modelName (ollama w)) prompt])
  | r => (Throw (Js.newError ("Failed to generate response: "
                              ++ Js.message (generateFailure r))%string),
          extended w [FetchGenerate (modelName (ollama w)) prompt])
  end.
Proof.
  intros Hconn. unfold Ollama.generate, bind at 1.
  rewrite ensureConnected_connected by exact Hconn.
  unfold tryCatch, bind, get, now, emit. cbn.
  destruct (generation ep (List.length (log w)) (modelName (ollama w)) prompt);
    reflexivity.
Qed.

Lemma ChatRoute_POST_no_context ep formatError req w st w1 r w2 :
  Ollama.checkConnection ep w = (Ret st, w1) ->
  Ollama.isRunning st = true ->
  noMessage (ChatRoute.message req) = false ->
  VectorStore.searchSimilarChunks
    ep (messageText (ChatRoute.message req)) 3 w1 = (r, w2) ->
  (r = Ret [] \/ exists e, r = Throw e) ->
  ChatRoute.POST ep formatError req w =
  answerWithoutContext ep formatError (ChatRoute.history req)
                       (messageText (ChatRoute.message req)) w2.
Proof.
  intros Hc Hrun Hmsg Hsearch Hr.
  unfold ChatRoute.POST, answerWithoutContext.
  unfold tryCatch at 1. unfold bind at 1. rewrite Hc, Hrun, Hmsg. cbn [negb].
  unfold bind at 1. unfold tryCatch at 1. rewrite Hsearch.
  destruct Hr as [-> | [e ->]]; cbn [ret List.length Nat.ltb Nat.leb];
    unfold bind;
    destruct (Ollama.generate ep _ w2) as [[response|e'] w3]; reflexivity.
Qed.

Lemma quietly_generateCalls w w' :
  quietly w w' -> generateCalls (log w') = generateCalls (log w).
Proof.
  intros [[l [Hl Hg]] _]. rewrite Hl, generateCalls_app. lia.
Qed.

Lemma checkConnection_running ep w st w1 :
  Ollama.checkConnection ep w = (Ret st, w1) ->
  Ollama.isRunning st = true ->
  isConnected (ollama w1) = true.
Proof.
  intros Hc Hrun.
  destruct (checkConnection_returns ep w) as [st0 [w0 [Hc0 [_ [_ Hconn]]]]].
  rewrite Hc in Hc0. injection Hc0 as <- <-. auto.
Qed.

(** ** Claims about the chat handlers *)

(** C1, as the spec states it, fails on route.ts.  With nothing stored,
    retrieval for the message comes back with zero chunks; the handler then
    sends the prompt without context to [generate] and answers 200 with the
    generated text and an empty context. *)
Lemma POST_answers_without_context :
  let ep := liveEndpoint ["llama3.2:latest"] (fun _ => EmbeddingsOk []) "made up" in
  let w1 := snd (Ollama.checkConnection ep boot) in
  let out := ChatRoute.POST ep Js.message (ChatRoute.mkRequest (Some "hi") []) boot in
  fst (VectorStore.searchSimilarChunks ep "hi" 3 w1) = Ret [] /\
  fst out = Ret (Json (AnswerBody "made up" []) 200) /\
  generateCalls (log (snd out)) = 1.
Proof. vm_compute. repeat split; reflexivity. Qed.

(** C1, amended.  The handler of route.ts has no document mode: it attempts
    retrieval for every message, and when retrieval yields zero chunks it
    sends the context-free prompt to [generate] (one request) and, if that
    succeeds, answers 200 with the generated text and an empty context.  The
    fail-fast policy is that of the mode-aware revision of the handler: with
    [isPDFMode] set and zero chunks retrieved it answers 404 "No relevant
    information found in the PDF. ..." and sends no [generate] request. *)
Theorem chat_on_empty_retrieval (ep : Endpoint) (formatError : Js.Error -> string)
        (w : World) (st : Ollama.ConnectionStatus) (w1 w2 : World) :
  Ollama.checkConnection ep w = (Ret st, w1) ->
  Ollama.isRunning st = true ->
  (forall req,
      noMessage (ChatRoute.message req) = false ->
      VectorStore.searchSimilarChunks
        ep (messageText (ChatRoute.message req)) 3 w1 = (Ret [], w2) ->
      let prompt := plainPrompt (ChatRoute.history req)
                                (messageText (ChatRoute.message req)) in
      log (snd (ChatRoute.POST ep formatError req w)) =
      log w2 ++ [FetchGenerate (modelName (ollama w2)) prompt] /\
      (forall answer,
          generation ep (List.length (log w2)) (modelName (ollama w2)) prompt
          = GenerateOk answer ->
          fst (ChatRoute.POST ep formatError req w) =
          Ret (Json (AnswerBody answer []) 200))) /\
  (forall req,
      ChatRouteModes.hasChunks (ChatRouteModes.chunks req) = false ->
      noMessage (ChatRouteModes.message req) = false ->
      ChatRouteModes.isPDFMode req = true ->
      (ChatRouteModes.ensureVectorStore ep ;;;
       VectorStore.searchSimilarChunks
         ep (messageText (ChatRouteModes.message req)) 3) w1 = (Ret [], w2) ->
      ChatRouteModes.POST ep formatError req w =
      (Ret (Json (ErrorBody (Some ChatRouteModes.noRelevantInformation)) 404), w2) /\
      generateCalls (log w2) = generateCalls (log w)).
Proof.
  intros Hc Hrun.
  assert (Hconn1 := checkConnection_running ep w Hc Hrun).
  split.
  - intros req Hmsg Hsearch prompt.
    rewrite (ChatRoute_POST_no_context ep formatError req w Hc Hrun Hmsg Hsearch)
      by (left; reflexivity).
    assert (Hconn2 : isConnected (ollama w2) = true).
    { pose proof (searchSimilarChunks_quietly
                    ep (messageText (ChatRoute.message req)) 3 w1) as [_ H].
      rewrite Hsearch in H. auto. }
    unfold answerWithoutContext. fold prompt.
    rewrite (generate_connected_result ep prompt w2 Hconn2).
    split.
    + destruct (generation ep _ _ prompt); reflexivity.
    + intros answer ->. reflexivity.
  - intros req Hchunks Hmsg Hmode Hsearch. split.
    + unfold ChatRouteModes.POST.
      unfold tryCatch at 1. unfold bind at 1.
      rewrite Hc, Hrun, Hchunks, Hmsg, Hmode. cbn [negb].
      unfold bind at 1. unfold ChatRouteModes.retrieveContext, tryCatch.
      unfold bind at 1.
      unfold bind in Hsearch.
      destruct (ChatRouteModes.ensureVectorStore ep w1) as [[[]|e] w1'];
        [ | discriminate ].
      unfold bind at 1. rewrite Hsearch. reflexivity.
    + pose proof (checkConnection_quietly ep w) as H1.
      pose proof (retrieval_quietly
                    ep (messageText (ChatRouteModes.message req)) 3 w1) as H2.
      rewrite Hc in H1. rewrite Hsearch in H2. cbn in H1, H2.
      rewrite (quietly_generateCalls H2), (quietly_generateCalls H1).
      reflexivity.
Qed.

Lemma chat_on_empty_retrieval_witness :
  fst (ChatRoute.POST talkativeEndpoint Js.message
                      (ChatRoute.mkRequest (Some "hi") []) boot) =
  Ret (Json (AnswerBody "made up" []) 200) /\
  ChatRouteModes.POST talkativeEndpoint Js.message
                      (ChatRouteModes.mkRequest (Some "hi") [] true None) boot =
  (Ret (Json (ErrorBody (Some ChatRouteModes.noRelevantInformation)) 404),
   afterModeSearch).
Proof.
  split.
  - exact (proj2 (proj1 (@chat_on_empty_retrieval
                           talkativeEndpoint Js.message boot
                           (Ollama.mkStatus true None) afterCheck afterSearch
                           eq_refl eq_refl)
                        (ChatRoute.mkRequest (Some "hi") []) eq_refl eq_refl)
                 "made up" eq_refl).
  - exact (proj1 (proj2 (@chat_on_empty_retrieval
                           talkativeEndpoint Js.message boot
                           (Ollama.mkStatus true None) afterCheck afterModeSearch
                           eq_refl eq_refl)
                        (ChatRouteModes.mkRequest (Some "hi") [] true None)
                        eq_refl eq_refl eq_refl eq_refl)).
Defined.

(** ** Claims about error propagation *)

(** C2, as the spec states it, fails.  With one chunk stored, the embeddings
    request for the query "b" fails; [getEmbeddings] throws, but
    [similaritySearch] returns the empty sequence instead, and the handler of
    route.ts goes on to answer 200 without context. *)
Lemma similaritySearch_swallows_embedding_failure :
  let w1 := snd (VectorStore.addDocumentsToStore flakyEndpoint ["a"] boot) in
  vectorStore w1 = Some (mkStore [mkStored "a" [1%float; 0%float]] true) /\
  fst (Ollama.getEmbeddings flakyEndpoint ["b"] w1) =
  Throw (Js.newError
           "Failed to generate embeddings: Failed to get embeddings: Internal Server Error") /\
  fst (VectorStore.similaritySearch flakyEndpoint "b" 3 w1) = Ret [] /\
  fst (ChatRoute.POST flakyEndpoint Js.message
                      (ChatRoute.mkRequest (Some "b") []) w1) =
  Ret (Json (AnswerBody "ok" []) 200).
Proof. vm_compute. repeat split; reflexivity. Qed.

(** C2, amended.  An error of the connection check made by [initialize]
    leaves [addDocuments] and [similaritySearch] as the same error, and an
    error of [getEmbeddings] leaves [addDocuments] as the same error.  An
    error of [getEmbeddings] inside [similaritySearch] on a non-empty store
    is caught and an empty result is returned in its place; an error of
    [searchSimilarChunks] inside the handler of route.ts is caught and the
    handler answers without context.  [generate] and [getEmbeddings] rethrow
    a failed request under a new message, "Failed to generate response: ..."
    and "Failed to generate embeddings: ...". *)
Theorem error_propagation (ep : Endpoint) (w : World) :
  (forall s e w',
      vectorStore w = Some s ->
      isInitialized s = false ->
      VectorStore.initialize ep w = (Throw e, w') ->
      (forall docs, VectorStore.addDocuments ep docs w = (Throw e, w')) /\
      (forall query k, VectorStore.similaritySearch ep query k w = (Throw e, w'))) /\
  (forall s docs e w',
      vectorStore w = Some s ->
      isInitialized s = true ->
      Ollama.getEmbeddings ep (map Document.pageContent docs) w = (Throw e, w') ->
      VectorStore.addDocuments ep docs w = (Throw e, w')) /\
  (forall s query k e w',
      vectorStore w = Some s ->
      isInitialized s = true ->
      documents s <> [] ->
      Ollama.getEmbeddings ep [query] w = (Throw e, w') ->
      VectorStore.similaritySearch ep query k w = (Ret [], w')) /\
  (forall formatError req st w1 e w2,
      Ollama.checkConnection ep w = (Ret st, w1) ->
      Ollama.isRunning st = true ->
      noMessage (ChatRoute.message req) = false ->
      VectorStore.searchSimilarChunks
        ep (messageText (ChatRoute.message req)) 3 w1 = (Throw e, w2) ->
      ChatRoute.POST ep formatError req w =
      answerWithoutContext ep formatError (ChatRoute.history req)
                           (messageText (ChatRoute.message req)) w2) /\
  (forall prompt r,
      isConnected (ollama w) = true ->
      generation ep (List.length (log w)) (modelName (ollama w)) prompt = r ->
      (forall answer, r <> GenerateOk answer) ->
      fst (Ollama.generate ep prompt w) =
      Throw (Js.newError ("Failed to generate response: "
                          ++ Js.message (generateFailure r))%string)) /\
  (forall texts vs bad later,
      isConnected (ollama w) = true ->
      answers ep (modelName (ollama w)) (List.length (log w)) texts
      = map EmbeddingsOk vs ++ bad :: later ->
      isEmbeddingsOk bad = false ->
      fst (Ollama.getEmbeddings ep texts w) =
      Throw (Js.newError ("Failed to generate embeddings: "
                          ++ Js.message (embeddingFailure bad))%string)).
Proof.
  split; [ | split; [ | split; [ | split; [ | split ] ] ] ].
  - intros s e w' Hs Hi Hinit. split.
    + intros docs. unfold VectorStore.addDocuments.
      unfold bind at 1. rewrite (this_some w Hs), Hi. cbn [negb].
      unfold bind at 1. rewrite Hinit. reflexivity.
    + intros query k. unfold VectorStore.similaritySearch.
      unfold bind at 1. rewrite (this_some w Hs), Hi. cbn [negb].
      unfold bind at 1. rewrite Hinit. reflexivity.
  - intros s docs e w' Hs Hi Hemb. unfold VectorStore.addDocuments.
    unfold bind at 1. rewrite (this_some w Hs), Hi. cbn [negb].
    unfold bind at 1. cbn [ret]. unfold tryCatch, bind at 1. rewrite Hemb.
    reflexivity.
  - intros s query k e w' Hs Hi Hd Hemb.
    rewrite (similaritySearch_initialized ep query k w Hs Hi), Hemb.
    destruct (documents s); [contradiction | reflexivity].
  - intros formatError req st w1 e w2 Hc Hrun Hmsg Hsearch.
    apply (ChatRoute_POST_no_context ep formatError req w Hc Hrun Hmsg Hsearch).
    right. exists e. reflexivity.
  - intros prompt r Hconn Hr Hbad.
    rewrite (generate_connected_result ep prompt w Hconn), Hr.
    destruct r as [e|st et|answer]; try reflexivity.
    exfalso. apply (Hbad answer). reflexivity.
  - intros texts vs bad later Hconn Hans Hbad.
    rewrite (getEmbeddings_first_failure ep w texts vs bad later Hconn Hans Hbad).
    reflexivity.
Qed.

Lemma error_propagation_witness :
  VectorStore.similaritySearch flakyEndpoint "b" 3 oneChunkStored =
  (Ret [], snd (Ollama.getEmbeddings flakyEndpoint ["b"] oneChunkStored)) /\
  VectorStore.addDocuments flakyEndpoint [Document.make "b"] oneChunkStored =
  (Throw (Js.newError
            "Failed to generate embeddings: Failed to get embeddings: Internal Server Error"),
   snd (Ollama.getEmbeddings flakyEndpoint ["b"] oneChunkStored)).
Proof.
  split.
  - refine (proj1 (proj2 (proj2 (error_propagation flakyEndpoint oneChunkStored)))
                  (mkStore [mkStored "a" [1%float; 0%float]] true) "b" 3%Z _ _
                  eq_refl eq_refl _ eq_refl).
    discriminate.
  - exact (proj1 (proj2 (error_propagation flakyEndpoint oneChunkStored))
                 (mkStore [mkStored "a" [1%float; 0%float]] true)
                 [Document.make "b"] _ _ eq_refl eq_refl eq_refl).
Defined.

(** ** The sort *)

Section SortFacts.

Variable A : Type.
Variable comparator : A -> A -> float.

Lemma sort_cons x l :
  VectorStore.sort comparator (x :: l) =
  VectorStore.insert comparator x (VectorStore.sort comparator l).
Proof. reflexivity. Qed.

Lemma insert_perm x l :
  Permutation (VectorStore.insert comparator x l) (x :: l).
Proof.
  induction l as [|y l IH]; cbn [VectorStore.insert].
  - apply Permutation_refl.
  - destruct (VectorStore.sortsBefore comparator y x).
    + eapply perm_trans; [apply perm_skip, IH | apply perm_swap].
    + apply Permutation_refl.
Qed.

Lemma sort_perm l : Permutation (VectorStore.sort comparator l) l.
Proof.
  induction l as [|x l IH]; [apply perm_nil | rewrite sort_cons].
  - eapply perm_trans; [apply insert_perm | apply perm_skip, IH].
Qed.

(** The order [R] that the output is to follow, the order [E] in which the
    input came, and the elements [dom] on which the comparator behaves:
    - an element the comparator puts strictly first is [R]-before;
    - of two elements the comparator does not separate that way, the
      earlier one is [R]-before;
    - [R] is transitive. *)
Variable dom : A -> Prop.
Variables R E : A -> A -> Prop.

Hypothesis strictly_first :
  forall x y, dom x -> dom y ->
              VectorStore.sortsBefore comparator y x = true -> R y x.
Hypothesis earlier_first :
  forall x y, dom x -> dom y -> E x y ->
              VectorStore.sortsBefore comparator y x = false -> R x y.
Hypothesis R_trans :
  forall x y z, dom x -> dom y -> dom z -> R x y -> R y z -> R x z.

Lemma insert_sorted x l :
  dom x -> Forall dom l -> Forall (E x) l ->
  StronglySorted R l ->
  StronglySorted R (VectorStore.insert comparator x l).
Proof.
  intros Hx. induction l as [|y l IH]; intros Hdom Hearly Hsorted;
    cbn [VectorStore.insert].
  - constructor; constructor.
  - apply Forall_cons_iff in Hdom as [Hy Hdom].
    apply Forall_cons_iff in Hearly as [Exy Hearly].
    apply StronglySorted_inv in Hsorted as [Hsorted Hy_first].
    destruct (VectorStore.sortsBefore comparator y x) eqn:Hcmp.
    + constructor; [apply IH; assumption | ].
      apply (Permutation_Forall (Permutation_sym (insert_perm x l))).
      constructor; [apply strictly_first; assumption | exact Hy_first].
    + constructor; [constructor; assumption | ].
      assert (Rxy : R x y) by (apply earlier_first; assumption).
      constructor; [exact Rxy | ].
      rewrite Forall_forall in *. intros z Hz.
      apply R_trans with y; auto.
Qed.

Lemma sort_sorted l :
  Forall dom l -> StronglySorted E l ->
  StronglySorted R (VectorStore.sort comparator l).
Proof.
  induction l as [|x l IH]; intros Hdom Hinput;
    [constructor | rewrite sort_cons].
  - apply Forall_cons_iff in Hdom as [Hx Hdom].
    apply StronglySorted_inv in Hinput as [Hinput Hx_early].
    apply insert_sorted.
    + exact Hx.
    + apply (Permutation_Forall (Permutation_sym (sort_perm l))), Hdom.
    + apply (Permutation_Forall (Permutation_sym (sort_perm l))), Hx_early.
    + apply IH; assumption.
Qed.

End SortFacts.

(** ** Ranking by score *)

(** Comparable scores contain no NaN. *)
Lemma comparableScores_no_nan scores a :
  comparableScores scores = true -> In a scores -> PrimFloat.is_nan a = false.
Proof.
  intros Hall Ha. unfold comparableScores in Hall.
  rewrite forallb_forall in Hall. specialize (Hall a Ha).
  apply andb_true_iff in Hall as [Hnan _].
  apply negb_true_iff in Hnan. exact Hnan.
Qed.

Lemma comparableScores_pair scores a b :
  comparableScores scores = true -> In a scores -> In b scores ->
  PrimFloat.ltb (a - b) 0 = PrimFloat.ltb a b /\
  (PrimFloat.ltb a b = true ->
   PrimFloat.leb a b = true /\ PrimFloat.eqb b a = false) /\
  (PrimFloat.ltb a b = false -> PrimFloat.leb b a = true).
Proof.
  intros Hall Ha Hb. unfold comparableScores in Hall.
  rewrite forallb_forall in Hall. specialize (Hall a Ha).
  apply andb_true_iff in Hall as [_ Hall].
  rewrite forallb_forall in Hall. specialize (Hall b Hb).
  apply andb_true_iff in Hall as [Hpair _].
  unfold comparablePair in Hpair.
  apply andb_true_iff in Hpair as [Hpair Htotal].
  apply andb_true_iff in Hpair as [Hsign Hlt].
  apply Bool.eqb_prop in Hsign.
  split; [exact Hsign | split].
  - intros H. rewrite H in Hlt. cbn in Hlt.
    apply andb_true_iff in Hlt as [Hle Hne].
    apply negb_true_iff in Hne. auto.
  - intros H. rewrite H in Htotal. exact Htotal.
Qed.

Lemma comparableScores_triple scores a b c :
  comparableScores scores = true -> In a scores -> In b scores -> In c scores ->
  PrimFloat.leb c b = true -> PrimFloat.leb b a = true ->
  PrimFloat.leb c a = true /\
  (PrimFloat.eqb a c = true ->
   PrimFloat.eqb a b = true /\ PrimFloat.eqb b c = true).
Proof.
  intros Hall Ha Hb Hc Hcb Hba. unfold comparableScores in Hall.
  rewrite forallb_forall in Hall. specialize (Hall a Ha).
  apply andb_true_iff in Hall as [_ Hall].
  rewrite forallb_forall in Hall. specialize (Hall b Hb).
  apply andb_true_iff in Hall as [_ Hall].
  rewrite forallb_forall in Hall. specialize (Hall c Hc).
  unfold comparableTriple in Hall. rewrite Hcb, Hba in Hall. cbn in Hall.
  apply andb_true_iff in Hall as [Hca Heq].
  split; [exact Hca | ].
  intros H. rewrite H in Heq. cbn in Heq.
  apply andb_true_iff in Heq. exact Heq.
Qed.

Lemma similaritiesFrom queryEmbedding docs :
  forall earlier,
    VectorStore.mapiFrom
      (fun doc i =>
         VectorStore.mkSimilarity
           i (VectorStore.cosineSimilarity queryEmbedding (embedding doc)))
      docs (List.length earlier) =
    map (fun i => VectorStore.mkSimilarity
                    i (scoreAt (scoresOf queryEmbedding (earlier ++ docs)) i))
        (seq (List.length earlier) (List.length docs)).
Proof.
  induction docs as [|doc docs IH]; intros earlier; [reflexivity | ].
  cbn [VectorStore.mapiFrom List.length seq map]. f_equal.
  - f_equal. unfold scoreAt, scoresOf. rewrite map_app. cbn [map].
    rewrite <- (length_map
                  (fun doc => VectorStore.cosineSimilarity queryEmbedding
                                                           (embedding doc))
                  earlier).
    rewrite nth_middle. reflexivity.
  - specialize (IH (earlier ++ [doc])).
    rewrite length_app, Nat.add_1_r, <- app_assoc in IH. exact IH.
Qed.

Lemma similarities_indexed queryEmbedding docs :
  VectorStore.similarities queryEmbedding docs =
  indexed (scoresOf queryEmbedding docs).
Proof.
  unfold VectorStore.similarities, VectorStore.mapi, indexed.
  pose proof (similaritiesFrom queryEmbedding docs []) as H.
  cbn [List.length app] in H. rewrite H.
  unfold scoresOf at 3. rewrite length_map. reflexivity.
Qed.

Lemma indexed_In scores x :
  In x (indexed scores) ->
  VectorStore.index x < List.length scores /\
  VectorStore.score x = scoreAt scores (VectorStore.index x) /\
  In (VectorStore.score x) scores.
Proof.
  unfold indexed. rewrite in_map_iff. intros [i [<- Hi]].
  apply in_seq in Hi. cbn. repeat split; [lia | ].
  apply nth_In. lia.
Qed.

Lemma indexed_index scores :
  map VectorStore.index (indexed scores) = seq 0 (List.length scores).
Proof. unfold indexed. rewrite map_map. cbn. apply map_id. Qed.

Lemma seq_increasing len : forall start, StronglySorted lt (seq start len).
Proof.
  induction len as [|len IH]; intros start; cbn; constructor.
  - apply IH.
  - rewrite Forall_forall. intros j Hj. apply in_seq in Hj. lia.
Qed.

Lemma StronglySorted_map {A B} (f : A -> B) (R : B -> B -> Prop) l :
  StronglySorted R (map f l) <-> StronglySorted (fun x y => R (f x) (f y)) l.
Proof.
  induction l as [|x l IH]; cbn.
  - split; constructor.
  - split; intros H; apply StronglySorted_inv in H as [Hl Hx];
      constructor; try (apply IH; exact Hl).
    + rewrite Forall_map in Hx. exact Hx.
    + rewrite Forall_map. exact Hx.
Qed.

(** The sort ranks comparable scores: descending, ties in insertion order. *)
Lemma sort_ranks scores :
  comparableScores scores = true ->
  stableDescending scores
    (map VectorStore.index
         (VectorStore.sort VectorStore.byScoreDesc (indexed scores))).
Proof.
  intros Hcmp. split.
  - rewrite <- indexed_index. apply Permutation_map, sort_perm.
  - apply StronglySorted_map.
    apply sort_sorted
      with (dom := fun x => In x (indexed scores))
           (E := fun x y => VectorStore.index x < VectorStore.index y).
    + intros x y Hx Hy Hfirst.
      apply indexed_In in Hx as [_ [Sx Ix]].
      apply indexed_In in Hy as [_ [Sy Iy]].
      unfold VectorStore.sortsBefore, VectorStore.byScoreDesc in Hfirst.
      destruct (@comparableScores_pair scores _ _ Hcmp Ix Iy) as [Hsign [Hlt _]].
      rewrite Hsign in Hfirst. destruct (Hlt Hfirst) as [Hle Hne].
      unfold rankedBefore. rewrite <- Sx, <- Sy. split; [exact Hle | ].
      rewrite Hne. discriminate.
    + intros x y Hx Hy Hearly Hnot.
      apply indexed_In in Hx as [_ [Sx Ix]].
      apply indexed_In in Hy as [_ [Sy Iy]].
      unfold VectorStore.sortsBefore, VectorStore.byScoreDesc in Hnot.
      destruct (@comparableScores_pair scores _ _ Hcmp Ix Iy) as [Hsign [_ Hge]].
      rewrite Hsign in Hnot.
      unfold rankedBefore. rewrite <- Sx, <- Sy. split; [apply Hge, Hnot | ].
      intros _. exact Hearly.
    + intros x y z Hx Hy Hz [Hyx Exy] [Hzy Eyz].
      apply indexed_In in Hx as [_ [Sx Ix]].
      apply indexed_In in Hy as [_ [Sy Iy]].
      apply indexed_In in Hz as [_ [Sz Iz]].
      unfold rankedBefore in *. rewrite <- Sx, <- Sy, <- Sz in *.
      destruct (@comparableScores_triple scores _ _ _ Hcmp Ix Iy Iz Hzy Hyx)
        as [Hzx Heq].
      split; [exact Hzx | ].
      intros H. destruct (Heq H) as [Hxy Hyz].
      specialize (Exy Hxy). specialize (Eyz Hyz). lia.
    + rewrite Forall_forall. auto.
    + apply (StronglySorted_map VectorStore.index lt).
      rewrite indexed_index. apply seq_increasing.
Qed.

Lemma toDocuments_indexed docs sims :
  Forall (fun sim => VectorStore.index sim < List.length docs) sims ->
  VectorStore.toDocuments docs sims =
  Some (map (fun sim =>
               Document.make (nth (VectorStore.index sim) (map pageContent docs) ""))
            sims).
Proof.
  induction sims as [|sim sims IH]; intros Hall; [reflexivity | ].
  apply Forall_cons_iff in Hall as [Hsim Hall].
  cbn [VectorStore.toDocuments map].
  rewrite (nth_error_nth' docs (mkStored "" []) Hsim), (IH Hall).
  rewrite <- (map_nth pageContent docs (mkStored "" []) (VectorStore.index sim)).
  reflexivity.
Qed.

Lemma firstn_subset {A} n (xs : list A) x : In x (firstn n xs) -> In x xs.
Proof.
  intros H. rewrite <- (firstn_skipn n xs). apply in_or_app. left. exact H.
Qed.

Lemma slice0_firstn {A} (k : Z) (xs : list A) :
  (0 <= k)%Z -> Js.slice0 k xs = firstn (Z.to_nat k) xs.
Proof.
  intros Hk. unfold Js.slice0.
  destruct (k <? 0)%Z eqn:Hneg; [apply Z.ltb_lt in Hneg; lia | reflexivity].
Qed.

Lemma getEmbeddings_one ep w query queryEmbedding :
  isConnected (ollama w) = true ->
  embeddings ep (List.length (log w)) (modelName (ollama w)) query
  = EmbeddingsOk queryEmbedding ->
  Ollama.getEmbeddings ep [query] w =
  (Ret [queryEmbedding],
   extended w [FetchEmbeddings (modelName (ollama w)) query]).
Proof.
  intros Hconn Hemb. unfold Ollama.getEmbeddings, bind.
  rewrite ensureConnected_connected by exact Hconn.
  unfold tryCatch.
  rewrite (embedEach_all_ok ep [query] [] w [queryEmbedding]); [reflexivity | ].
  cbn. rewrite Hemb. reflexivity.
Qed.

Lemma StronglySorted_related {A} (R : A -> A -> Prop) l a b :
  StronglySorted R l -> In a l -> In b l -> a = b \/ R a b \/ R b a.
Proof.
  induction 1 as [|x l Hl IH Hx]; intros Ha Hb; [contradiction | ].
  rewrite Forall_forall in Hx.
  destruct Ha as [<- | Ha], Hb as [<- | Hb]; auto.
Qed.

(** ** Claims about the ranking returned by [similaritySearch] *)

(** C5, as the spec states it, fails in two ways.  With one chunk stored and
    k = 1, a failed embeddings request for the query makes [similaritySearch]
    return no chunk at all.  With the chunks "zero", "short" and "same"
    stored, two scores are NaN: no arrangement of the three chunks is in
    non-increasing order of score, and for k = 3 the search returns them with
    the chunk of score 1 last. *)
Lemma similaritySearch_not_always_ranked :
  vectorStore oneChunkStored = Some (mkStore [mkStored "a" [1%float; 0%float]] true) /\
  fst (VectorStore.similaritySearch flakyEndpoint "b" 1 oneChunkStored) = Ret [] /\
  vectorStore threeChunksStored = Some (mkStore threeChunks true) /\
  map PrimFloat.is_nan (scoresOf [1%float; 0%float] threeChunks)
  = [true; true; false] /\
  scoreAt (scoresOf [1%float; 0%float] threeChunks) 2 = 1%float /\
  fst (VectorStore.similaritySearch namedEndpoint "query" 3 threeChunksStored) =
  Ret [Document.make "zero"; Document.make "short"; Document.make "same"] /\
  ~ (exists ranking,
        stableDescending (scoresOf [1%float; 0%float] threeChunks) ranking).
Proof.
  repeat split; try (vm_compute; reflexivity).
  intros [ranking [Hperm Hsorted]].
  assert (H0 : In 0 ranking)
    by (apply (Permutation_in _ (Permutation_sym Hperm)); cbn; auto).
  assert (H2 : In 2 ranking)
    by (apply (Permutation_in _ (Permutation_sym Hperm)); cbn; auto).
  destruct (@StronglySorted_related _ _ _ _ _ Hsorted H0 H2) as [H | [[H _] | [H _]]];
    [discriminate | vm_compute in H; discriminate | vm_compute in H; discriminate].
Qed.

(** C5, amended.  On an initialized store of n chunks, with the service
    connected, when the embeddings request for the query succeeds and the
    resulting scores are comparable (no NaN among them), [similaritySearch]
    with 0 <= k <= n returns exactly k documents: the first k of the ranking
    that lists the chunks by non-increasing cosine similarity to the query,
    chunks of equal score in insertion order. *)
Theorem similaritySearch_top_k
        (ep : Endpoint) (w : World) (s : SimpleVectorStore)
        (query : string) (k : Z) (queryEmbedding : list float) :
  vectorStore w = Some s ->
  isInitialized s = true ->
  isConnected (ollama w) = true ->
  embeddings ep (List.length (log w)) (modelName (ollama w)) query
  = EmbeddingsOk queryEmbedding ->
  comparableScores (scoresOf queryEmbedding (documents s)) = true ->
  (0 <= k <= Z.of_nat (List.length (documents s)))%Z ->
  exists ranking,
    stableDescending (scoresOf queryEmbedding (documents s)) ranking /\
    fst (VectorStore.similaritySearch ep query k w) =
    Ret (map (fun i => Document.make (nth i (map pageContent (documents s)) ""))
             (firstn (Z.to_nat k) ranking)) /\
    List.length (firstn (Z.to_nat k) ranking) = Z.to_nat k.
Proof.
  intros Hs Hi Hconn Hemb Hcmp Hk.
  set (scores := scoresOf queryEmbedding (documents s)) in *.
  set (sorted := VectorStore.sort VectorStore.byScoreDesc (indexed scores)).
  exists (map VectorStore.index sorted).
  assert (Hrank : stableDescending scores (map VectorStore.index sorted))
    by (apply sort_ranks, Hcmp).
  assert (Hlen : List.length scores = List.length (documents s))
    by (unfold scores, scoresOf; apply length_map).
  split; [exact Hrank | split].
  - rewrite (similaritySearch_initialized ep query k w Hs Hi).
    destruct (documents s) as [|doc docs] eqn:Hdocs.
    + cbn in Hk. assert (k = 0%Z) by lia. subst k. reflexivity.
    + rewrite (getEmbeddings_one ep w query Hconn Hemb).
      rewrite similarities_indexed. fold scores. fold sorted.
      rewrite slice0_firstn by lia.
      rewrite toDocuments_indexed.
      * cbn [fst]. rewrite firstn_map, map_map. reflexivity.
      * apply Forall_forall. intros sim Hsim.
        apply firstn_subset in Hsim.
        apply (Permutation_in _ (sort_perm VectorStore.byScoreDesc
                                           (indexed scores))) in Hsim.
        apply indexed_In in Hsim as [Hlt _]. rewrite <- Hlen. exact Hlt.
  - destruct Hrank as [Hperm _].
    apply Permutation_length in Hperm. rewrite length_seq in Hperm.
    rewrite length_firstn, Hperm, Hlen. lia.
Qed.

Lemma similaritySearch_top_k_witness :
  exists ranking,
    stableDescending (scoresOf [1%float; 0%float] rankedChunks) ranking /\
    fst (VectorStore.similaritySearch namedEndpoint "query" 2 rankedStored) =
    Ret (map (fun i => Document.make (nth i ["half"; "same"; "twin"] ""))
             (firstn 2 ranking)) /\
    List.length (firstn 2 ranking) = 2.
Proof.
  apply (@similaritySearch_top_k namedEndpoint rankedStored
                                 (mkStore rankedChunks true) "query" 2
                                 [1%float; 0%float]).
  - reflexivity.
  - reflexivity.
  - reflexivity.
  - reflexivity.
  - vm_compute. reflexivity.
  - cbn. lia.
Defined.

(** The same search, computed: the two chunks of score 1 come first, in the
    order in which they were stored, and the chunk of score 0.6 is cut off. *)
Example searchSimilarChunks_top_2 :
  scoresOf [1%float; 0%float] rankedChunks = [0x1.3333333333333p-1%float; 1%float; 1%float] /\
  fst (VectorStore.searchSimilarChunks namedEndpoint "query" 2 rankedStored) =
  Ret ["same"; "twin"].
Proof. vm_compute. split; reflexivity. Qed.

(** ** The chunks handed to the store *)

(** [loadAndProcessPDF] passes on every chunk that the splitter produces, in
    order, and configures the splitter with an overlap below the chunk size. *)
Lemma chunksOfPages_keeps_every_chunk createDocuments textContent :
  PdfProcessor.chunkOverlap < PdfProcessor.chunkSize /\
  List.length (PdfProcessor.chunksOfPages createDocuments textContent) =
  List.length (createDocuments PdfProcessor.chunkSize PdfProcessor.chunkOverlap
                               [Js.join " " textContent]).
Proof.
  split.
  - unfold PdfProcessor.chunkOverlap, PdfProcessor.chunkSize. lia.
  - unfold PdfProcessor.chunksOfPages. apply length_map.
Qed.

(** * Further properties of the code *)

Unset Implicit Arguments.

(** ** The retry loop *)

Lemma modelNow_modelAt ep w : modelNow ep w = modelAt ep (List.length (log w)).
Proof. reflexivity. Qed.

Lemma waitForConnectionFrom_first_success ep name j :
  forall todo i retries w,
    j < todo ->
    i + todo = retries ->
    (forall a, a < j -> modelAt ep (List.length (log w) + 2 * a) = None) ->
    modelAt ep (List.length (log w) + 2 * j) = Some name ->
    Ollama.waitForConnectionFrom ep todo i retries w =
    (Ret true,
     mkWorld (mkOllama true name) (vectorStore w) (routeInitialized w)
             (log w ++ failedAttempts j ++ [FetchTags])).
Proof.
  induction j as [|j IH]; intros todo i retries w Hj Hsum Hfail Hfound.
  - destruct todo as [|todo]; [lia | ].
    rewrite waitForConnectionFrom_S, modelNow_modelAt.
    rewrite Nat.add_0_r in Hfound. rewrite Hfound. reflexivity.
  - destruct todo as [|todo]; [lia | ].
    rewrite waitForConnectionFrom_S, modelNow_modelAt.
    pose proof (Hfail 0 ltac:(lia)) as H0. rewrite Nat.add_0_r in H0.
    rewrite H0.
    assert (Hsleep : Nat.ltb i (retries - 1) = true)
      by (apply Nat.ltb_lt; lia).
    unfold bind, when, Ollama.sleep, emit, ret. rewrite Hsleep. cbn [probed log
      ollama vectorStore routeInitialized].
    rewrite (IH todo (S i) retries).
    + cbn [ollama vectorStore routeInitialized log failedAttempts].
      rewrite <- !app_assoc. reflexivity.
    + lia.
    + lia.
    + intros a Ha. cbn [log]. rewrite !length_app. cbn [List.length].
      replace (List.length (log w) + 1 + 1 + 2 * a)
        with (List.length (log w) + 2 * S a) by lia.
      apply Hfail. lia.
    + cbn [log]. rewrite !length_app. cbn [List.length].
      replace (List.length (log w) + 1 + 1 + 2 * j)
        with (List.length (log w) + 2 * S j) by lia.
      exact Hfound.
Qed.

(** X1.  [checkConnection] stops at the first attempt that finds a model:
    when the first [j] discovery requests find none and the next one, still
    within [maxRetries], finds [name], the check has sent [j + 1] discovery
    requests with a sleep after each of the [j] failed ones and none after
    the last, has recorded [name], is connected, and reports success. *)
Theorem checkConnection_first_success (ep : Endpoint) (w : World)
        (name : string) (j : nat) :
  j < Ollama.maxRetries ->
  (forall a, a < j -> modelAt ep (List.length (log w) + 2 * a) = None) ->
  modelAt ep (List.length (log w) + 2 * j) = Some name ->
  Ollama.checkConnection ep w =
  (Ret (Ollama.mkStatus true None),
   mkWorld (mkOllama true name) (vectorStore w) (routeInitialized w)
           (log w ++ failedAttempts j ++ [FetchTags])).
Proof.
  intros Hj Hfail Hfound. rewrite checkConnection_unfold.
  unfold Ollama.waitForConnection.
  rewrite (@waitForConnectionFrom_first_success ep name j Ollama.maxRetries 0
             Ollama.maxRetries w Hj eq_refl Hfail Hfound).
  reflexivity.
Qed.

Lemma checkConnection_first_success_witness :
  Ollama.checkConnection slowEndpoint boot =
  (Ret (Ollama.mkStatus true None),
   mkWorld (mkOllama true "mistral") None false
           [FetchTags; Sleep 1000; FetchTags]).
Proof.
  apply (@checkConnection_first_success slowEndpoint boot "mistral" 1).
  - unfold Ollama.maxRetries. lia.
  - intros a Ha. assert (a = 0) by lia. subst a. reflexivity.
  - reflexivity.
Defined.

(** ** Requests without a connection *)

Lemma waitForConnectionFrom_no_model ep todo :
  (forall t, modelAt ep t = None) ->
  forall i retries w,
    Ollama.waitForConnectionFrom ep todo i retries w =
    (Ret false, extended w (retryLog todo i retries)).
Proof.
  intros Hnone. induction todo as [|todo IH]; intros i retries w.
  - cbn. rewrite extended_nil. reflexivity.
  - rewrite waitForConnectionFrom_S, modelNow_modelAt, Hnone.
    unfold bind, when, Ollama.sleep, emit, ret.
    destruct (Nat.ltb i (retries - 1)) eqn:Hi; cbn [retryLog]; rewrite Hi;
      rewrite IH; unfold extended, probed; cbn;
      rewrite <- !app_assoc; reflexivity.
Qed.

Lemma checkConnection_no_model ep w :
  (forall t, modelAt ep t = None) ->
  Ollama.checkConnection ep w =
  (Ret (Ollama.mkStatus false (Some (Ollama.couldNotConnect ep))),
   extended w [FetchTags; Sleep 1000; FetchTags; Sleep 1000; FetchTags]).
Proof.
  intros Hnone. rewrite checkConnection_unfold. unfold Ollama.waitForConnection.
  rewrite (waitForConnectionFrom_no_model ep Ollama.maxRetries Hnone).
  reflexivity.
Qed.

(** X2.  Without a connection and with no usable model on offer (requests
    refused, answers not ok, an empty list, only vision models), [generate]
    and [getEmbeddings] run the three discovery attempts and then throw an
    error whose message is the "Could not connect to Ollama at ..." text of
    the check; neither sends its own request, and the service state is left
    as it was. *)
Theorem requests_need_a_model (ep : Endpoint) (w : World) :
  isConnected (ollama w) = false ->
  (forall t, modelAt ep t = None) ->
  forall prompt texts,
    Ollama.generate ep prompt w =
    (Throw (Js.newError (Ollama.couldNotConnect ep)),
     extended w [FetchTags; Sleep 1000; FetchTags; Sleep 1000; FetchTags]) /\
    Ollama.getEmbeddings ep texts w =
    (Throw (Js.newError (Ollama.couldNotConnect ep)),
     extended w [FetchTags; Sleep 1000; FetchTags; Sleep 1000; FetchTags]).
Proof.
  intros Hoff Hnone prompt texts.
  assert (Hguard : Ollama.ensureConnected ep w =
                   (Throw (Js.newError (Ollama.couldNotConnect ep)),
                    extended w [FetchTags; Sleep 1000; FetchTags; Sleep 1000;
                                FetchTags])).
  { unfold Ollama.ensureConnected, bind at 1. cbn [get]. rewrite Hoff.
    cbn [negb]. unfold bind. rewrite (checkConnection_no_model ep w Hnone).
    reflexivity. }
  split.
  - unfold Ollama.generate, bind at 1. rewrite Hguard. reflexivity.
  - unfold Ollama.getEmbeddings, bind at 1. rewrite Hguard. reflexivity.
Qed.

Lemma requests_need_a_model_witness :
  Ollama.generate visionOnlyEndpoint "hi" boot =
  (Throw (Js.newError
            "Could not connect to Ollama at http://127.0.0.1:11434 after multiple attempts. Please ensure Ollama is running."),
   extended boot [FetchTags; Sleep 1000; FetchTags; Sleep 1000; FetchTags]) /\
  Ollama.getEmbeddings visionOnlyEndpoint ["a"; "b"] boot =
  (Throw (Js.newError
            "Could not connect to Ollama at http://127.0.0.1:11434 after multiple attempts. Please ensure Ollama is running."),
   extended boot [FetchTags; Sleep 1000; FetchTags; Sleep 1000; FetchTags]).
Proof.
  apply (@requests_need_a_model visionOnlyEndpoint boot).
  - reflexivity.
  - intros t. reflexivity.
Defined.

(** ** A connection is never dropped *)

#[export] Instance keepsConnection_pre : PreOrder keepsConnection.
Proof.
  split.
  - intros w H. exact H.
  - intros a b c Hab Hbc H. apply Hbc, Hab, H.
Qed.

Lemma respects_weaken (R R' : World -> World -> Prop) A (m : M A) :
  (forall w w', R w w' -> R' w w') -> respects R m -> respects R' m.
Proof. intros Hsub Hm w. apply Hsub, Hm. Qed.

Lemma quietly_keepsConnection w w' : quietly w w' -> keepsConnection w w'.
Proof. intros [_ H]. exact H. Qed.

Lemma emit_keepsConnection e : respects keepsConnection (emit e).
Proof. intros w H. exact H. Qed.

Lemma checkConnection_keepsConnection ep :
  respects keepsConnection (Ollama.checkConnection ep).
Proof.
  apply (@respects_weaken quietly keepsConnection _ _ quietly_keepsConnection), checkConnection_quietly.
Qed.

Lemma getEmbeddings_keepsConnection ep texts :
  respects keepsConnection (Ollama.getEmbeddings ep texts).
Proof.
  apply (@respects_weaken quietly keepsConnection _ _ quietly_keepsConnection), getEmbeddings_quietly.
Qed.

Lemma ensureConnected_keepsConnection ep :
  respects keepsConnection (Ollama.ensureConnected ep).
Proof.
  apply (@respects_weaken quietly keepsConnection _ _ quietly_keepsConnection), ensureConnected_quietly.
Qed.

Lemma searchSimilarChunks_keepsConnection ep query k :
  respects keepsConnection (VectorStore.searchSimilarChunks ep query k).
Proof.
  apply (@respects_weaken quietly keepsConnection _ _ quietly_keepsConnection), searchSimilarChunks_quietly.
Qed.

Lemma addDocumentsToStore_keepsConnection ep chunks :
  respects keepsConnection (VectorStore.addDocumentsToStore ep chunks).
Proof.
  apply (@respects_weaken quietly keepsConnection _ _ quietly_keepsConnection), addDocumentsToStore_quietly.
Qed.

Lemma ensureVectorStore_keepsConnection ep :
  respects keepsConnection (ChatRouteModes.ensureVectorStore ep).
Proof.
  apply (@respects_weaken quietly keepsConnection _ _ quietly_keepsConnection), ensureVectorStore_quietly.
Qed.

#[export] Hint Resolve emit_keepsConnection checkConnection_keepsConnection
  getEmbeddings_keepsConnection ensureConnected_keepsConnection
  searchSimilarChunks_keepsConnection addDocumentsToStore_keepsConnection
  ensureVectorStore_keepsConnection : frame.

Lemma generate_keepsConnection ep prompt :
  respects keepsConnection (Ollama.generate ep prompt).
Proof. unfold Ollama.generate. respects_auto. Qed.

#[export] Hint Resolve generate_keepsConnection : frame.

Lemma ChatRoute_POST_keepsConnection ep formatError req :
  respects keepsConnection (ChatRoute.POST ep formatError req).
Proof. unfold ChatRoute.POST. respects_auto. Qed.

Lemma ChatRouteModes_POST_keepsConnection ep formatError req :
  respects keepsConnection (ChatRouteModes.POST ep formatError req).
Proof.
  unfold ChatRouteModes.POST, ChatRouteModes.retrieveContext,
    ChatRouteModes.respond.
  respects_auto.
Qed.

(** X3.  Nothing resets [isConnected]: once the service is connected it is
    still connected after every operation of the service, of the store and
    of both chat handlers, whatever the endpoint answers, a failed
    connection check included. *)
Theorem connection_never_dropped (ep : Endpoint) (w : World) :
  isConnected (ollama w) = true ->
  isConnected (ollama (snd (Ollama.checkConnection ep w))) = true /\
  (forall prompt,
      isConnected (ollama (snd (Ollama.generate ep prompt w))) = true) /\
  (forall texts,
      isConnected (ollama (snd (Ollama.getEmbeddings ep texts w))) = true) /\
  (forall chunks,
      isConnected (ollama (snd (VectorStore.addDocumentsToStore ep chunks w)))
      = true) /\
  (forall query k,
      isConnected (ollama (snd (VectorStore.searchSimilarChunks ep query k w)))
      = true) /\
  (forall formatError req,
      isConnected (ollama (snd (ChatRoute.POST ep formatError req w))) = true) /\
  (forall formatError req,
      isConnected (ollama (snd (ChatRouteModes.POST ep formatError req w)))
      = true).
Proof.
  intros Hconn. repeat split; intros.
  - apply (checkConnection_keepsConnection ep w Hconn).
  - apply (generate_keepsConnection ep prompt w Hconn).
  - apply (getEmbeddings_keepsConnection ep texts w Hconn).
  - apply (addDocumentsToStore_keepsConnection ep chunks w Hconn).
  - apply (searchSimilarChunks_keepsConnection ep query k w Hconn).
  - apply (ChatRoute_POST_keepsConnection ep formatError req w Hconn).
  - apply (ChatRouteModes_POST_keepsConnection ep formatError req w Hconn).
Qed.

Lemma connection_never_dropped_witness :
  isConnected (ollama (snd (Ollama.checkConnection deadEndpoint connectedWorld)))
  = true.
Proof.
  exact (proj1 (@connection_never_dropped deadEndpoint connectedWorld eq_refl)).
Defined.

(** ** The earlier revision of the service *)

Lemma legacy_waitForConnectionFrom_exhausted ep todo :
  legacyFails ep ->
  forall i retries w,
    OllamaLegacy.waitForConnectionFrom ep todo i retries w =
    (Ret false, extended w (retryLog todo i retries)).
Proof.
  intros Hfail. induction todo as [|todo IH]; intros i retries w.
  - cbn. rewrite extended_nil. reflexivity.
  - cbn [OllamaLegacy.waitForConnectionFrom].
    unfold bind at 1. cbn [now]. unfold bind at 1. cbn [emit].
    rewrite Hfail.
    unfold bind, when, Ollama.sleep, emit, ret.
    destruct (Nat.ltb i (retries - 1)) eqn:Hi; cbn [retryLog]; rewrite Hi;
      rewrite IH; unfold extended; cbn;
      rewrite <- !app_assoc; reflexivity.
Qed.

(** X4.  In the earlier revision, a server on which no attempt finds a model
    whose name contains "llama3.2" (a server that is down, or one that is up
    with other models only) gets exactly three discovery requests with two
    sleeps of 1000 ms between them; the check then returns, not throws,
    [isRunning: false] with the message that asks for the llama3.2 model, and
    leaves the state as it was. *)
Theorem legacy_checkConnection_unavailable (ep : Endpoint) (w : World) :
  legacyFails ep ->
  OllamaLegacy.checkConnection ep w =
  (Ret (Ollama.mkStatus false
          (Some "Could not connect to Ollama after multiple attempts. Please ensure Ollama is running and the llama3.2 model is installed.")),
   extended w [FetchTags; Sleep 1000; FetchTags; Sleep 1000; FetchTags]).
Proof.
  intros Hfail. unfold OllamaLegacy.checkConnection, tryCatch, bind.
  unfold OllamaLegacy.waitForConnection.
  rewrite (legacy_waitForConnectionFrom_exhausted ep Ollama.maxRetries Hfail).
  reflexivity.
Qed.

Lemma legacy_checkConnection_unavailable_witness :
  OllamaLegacy.checkConnection mistralEndpoint boot =
  (Ret (Ollama.mkStatus false
          (Some "Could not connect to Ollama after multiple attempts. Please ensure Ollama is running and the llama3.2 model is installed.")),
   extended boot [FetchTags; Sleep 1000; FetchTags; Sleep 1000; FetchTags]).
Proof.
  apply (@legacy_checkConnection_unavailable mistralEndpoint boot).
  intros t. reflexivity.
Defined.

Lemma legacy_ensureConnected_connected ep w :
  isConnected (ollama w) = true ->
  OllamaLegacy.ensureConnected ep w = (Ret tt, w).
Proof.
  intros H. unfold OllamaLegacy.ensureConnected, bind, get. rewrite H.
  reflexivity.
Qed.

(** X5.  In the earlier revision [generate], on a connected service, sends
    one request that names the model "llama3.2" whatever model name the
    state holds; it returns the response text of a success, and a rejected
    request leaves it as the very error of the rejection, not wrapped. *)
Theorem legacy_generate_raw (ep : Endpoint) (w : World) (prompt : string) :
  isConnected (ollama w) = true ->
  (forall response,
      generation ep (List.length (log w)) "llama3.2" prompt = GenerateOk response ->
      OllamaLegacy.generate ep prompt w =
      (Ret response, extended w [FetchGenerate "llama3.2" prompt])) /\
  (forall e,
      generation ep (List.length (log w)) "llama3.2" prompt = GenerateRejected e ->
      OllamaLegacy.generate ep prompt w =
      (Throw e, extended w [FetchGenerate "llama3.2" prompt])) /\
  (forall statusText errorText,
      generation ep (List.length (log w)) "llama3.2" prompt
      = GenerateNotOk statusText errorText ->
      OllamaLegacy.generate ep prompt w =
      (Throw (Js.newError
                ("Ollama API error: " ++ statusText ++ ". " ++ errorText)%string),
       extended w [FetchGenerate "llama3.2" prompt])).
Proof.
  intros Hconn.
  assert (Hgen : OllamaLegacy.generate ep prompt w =
                 match generation ep (List.length (log w)) "llama3.2" prompt with
                 | GenerateOk response =>
                     (Ret response, extended w [FetchGenerate "llama3.2" prompt])
                 | r => (Throw (generateFailure r),
                         extended w [FetchGenerate "llama3.2" prompt])
                 end).
  { unfold OllamaLegacy.generate, bind at 1.
    rewrite (legacy_ensureConnected_connected ep w Hconn).
    unfold bind, now, emit. cbn.
    destruct (generation ep (List.length (log w)) "llama3.2" prompt);
      reflexivity. }
  repeat split; intros; rewrite Hgen, H; reflexivity.
Qed.

Lemma legacy_generate_raw_witness :
  OllamaLegacy.generate muteEndpoint "hi" connectedToMistral =
  (Throw refused, extended connectedToMistral [FetchGenerate "llama3.2" "hi"]).
Proof.
  exact (proj1 (proj2 (@legacy_generate_raw muteEndpoint connectedToMistral "hi"
                                            eq_refl))
               refused eq_refl).
Defined.

Lemma legacy_embedEach_cons ep text rest acc w :
  OllamaLegacy.embedEach ep (text :: rest) acc w =
  match embeddings ep (List.length (log w)) "llama3.2" text with
  | EmbeddingsOk v =>
      OllamaLegacy.embedEach ep rest (acc ++ [v])
                             (extended w [FetchEmbeddings "llama3.2" text])
  | r => (Throw (embeddingFailure r),
          extended w [FetchEmbeddings "llama3.2" text])
  end.
Proof.
  cbn [OllamaLegacy.embedEach]. unfold bind, now, emit. cbn.
  destruct (embeddings ep (List.length (log w)) "llama3.2" text); reflexivity.
Qed.

Lemma legacy_embedEach_all_ok ep texts :
  forall acc w vs,
    answers ep "llama3.2" (List.length (log w)) texts = map EmbeddingsOk vs ->
    OllamaLegacy.embedEach ep texts acc w =
    (Ret (acc ++ vs), extended w (requests "llama3.2" texts)).
Proof.
  induction texts as [|text rest IH]; intros acc w vs Hans.
  - destruct vs; [ | discriminate ].
    cbn. rewrite app_nil_r, extended_nil. reflexivity.
  - destruct vs as [|v vs]; [discriminate | ].
    cbn in Hans. injection Hans as Hv Hrest.
    rewrite legacy_embedEach_cons, Hv.
    rewrite (IH _ _ vs).
    + rewrite extended_extended, <- app_assoc. reflexivity.
    + rewrite length_log_extended1. exact Hrest.
Qed.

Lemma legacy_embedEach_first_failure ep texts :
  forall acc w vs bad later,
    answers ep "llama3.2" (List.length (log w)) texts
    = map EmbeddingsOk vs ++ bad :: later ->
    isEmbeddingsOk bad = false ->
    OllamaLegacy.embedEach ep texts acc w =
    (Throw (embeddingFailure bad),
     extended w (requests "llama3.2" (firstn (S (List.length vs)) texts))).
Proof.
  induction texts as [|text rest IH]; intros acc w vs bad later Hans Hbad.
  - destruct vs; discriminate.
  - destruct vs as [|v vs]; cbn in Hans; injection Hans as Hv Hrest.
    + rewrite legacy_embedEach_cons, Hv.
      destruct bad; [reflexivity | reflexivity | discriminate].
    + rewrite legacy_embedEach_cons, Hv.
      rewrite (IH _ _ vs bad later); [ | | exact Hbad ].
      * rewrite extended_extended. reflexivity.
      * rewrite length_log_extended1. exact Hrest.
Qed.

(** X6.  In the earlier revision [getEmbeddings], on a connected service,
    sends one request per text, in order, each naming the model "llama3.2".
    If all succeed it returns the vectors in the order of the texts; at the
    first failure it stops sending and throws the failure itself (the error
    of a rejection unchanged, or "Failed to get embeddings: " followed by the
    status text), with no vector returned. *)
Theorem legacy_getEmbeddings_sequential
        (ep : Endpoint) (w : World) (texts : list string) :
  isConnected (ollama w) = true ->
  (forall vs,
      answers ep "llama3.2" (List.length (log w)) texts = map EmbeddingsOk vs ->
      OllamaLegacy.getEmbeddings ep texts w =
      (Ret vs, extended w (map (FetchEmbeddings "llama3.2") texts))) /\
  (forall vs bad later,
      answers ep "llama3.2" (List.length (log w)) texts
      = map EmbeddingsOk vs ++ bad :: later ->
      isEmbeddingsOk bad = false ->
      OllamaLegacy.getEmbeddings ep texts w =
      (Throw (embeddingFailure bad),
       extended w (map (FetchEmbeddings "llama3.2")
                       (firstn (S (List.length vs)) texts)))).
Proof.
  intros Hconn. split.
  - intros vs Hok. unfold OllamaLegacy.getEmbeddings, bind.
    rewrite (legacy_ensureConnected_connected ep w Hconn).
    rewrite (legacy_embedEach_all_ok ep texts [] w vs Hok). reflexivity.
  - intros vs bad later Hans Hbad. unfold OllamaLegacy.getEmbeddings, bind.
    rewrite (legacy_ensureConnected_connected ep w Hconn).
    rewrite (legacy_embedEach_first_failure ep texts [] w vs bad later Hans Hbad).
    reflexivity.
Qed.

Lemma legacy_getEmbeddings_sequential_witness :
  OllamaLegacy.getEmbeddings flakyEndpoint ["a"; "b"; "c"] connectedToMistral =
  (Throw (Js.newError "Failed to get embeddings: Internal Server Error"),
   extended connectedToMistral
            [FetchEmbeddings "llama3.2" "a"; FetchEmbeddings "llama3.2" "b"]).
Proof.
  exact (proj2 (@legacy_getEmbeddings_sequential flakyEndpoint connectedToMistral
                                                 ["a"; "b"; "c"] eq_refl)
               [[1%float; 0%float]]
               (EmbeddingsNotOk "Internal Server Error")
               [EmbeddingsOk [1%float; 0%float]] eq_refl eq_refl).
Defined.

(** ** The stored documents *)

#[export] Instance sameDocuments_pre : PreOrder sameDocuments.
Proof.
  split.
  - intros w. reflexivity.
  - intros a b c Hab Hbc. unfold sameDocuments in *. congruence.
Qed.

#[export] Instance documentsGrow_pre : PreOrder documentsGrow.
Proof.
  split.
  - intros w. exists []. rewrite app_nil_r. reflexivity.
  - intros a b c [l1 H1] [l2 H2]. exists (l1 ++ l2).
    rewrite H2, H1, app_assoc. reflexivity.
Qed.

Lemma sameStore_sameDocuments w w' : sameStore w w' -> sameDocuments w w'.
Proof. intros [H _]. unfold sameDocuments, storedDocuments. rewrite H. reflexivity. Qed.

Lemma sameDocuments_documentsGrow w w' : sameDocuments w w' -> documentsGrow w w'.
Proof. intros H. exists []. rewrite app_nil_r. exact H. Qed.

(** A computation that starts by reading the world. *)
Lemma respects_get_bind (R : World -> World -> Prop) A (k : World -> M A) :
  (forall w, R w (snd (k w w))) -> respects R (bind get k).
Proof. intros H w. unfold bind, get. apply H. Qed.

Lemma emit_sameDocuments e : respects sameDocuments (emit e).
Proof. intros w. reflexivity. Qed.

Lemma setRouteInitialized_sameDocuments b :
  respects sameDocuments (setRouteInitialized b).
Proof. intros w. reflexivity. Qed.

Lemma this_sameDocuments : respects sameDocuments VectorStore.this.
Proof. unfold VectorStore.this. respects_auto. Qed.

Lemma checkConnection_sameDocuments ep :
  respects sameDocuments (Ollama.checkConnection ep).
Proof.
  apply (respects_weaken _ _ _ _ sameStore_sameDocuments),
    checkConnection_sameStore.
Qed.

Lemma getEmbeddings_sameDocuments ep texts :
  respects sameDocuments (Ollama.getEmbeddings ep texts).
Proof.
  apply (respects_weaken _ _ _ _ sameStore_sameDocuments),
    getEmbeddings_sameStore.
Qed.

Lemma generate_sameDocuments ep prompt :
  respects sameDocuments (Ollama.generate ep prompt).
Proof.
  apply (respects_weaken _ _ _ _ sameStore_sameDocuments), generate_sameStore.
Qed.

#[export] Hint Resolve emit_sameDocuments setRouteInitialized_sameDocuments
  this_sameDocuments checkConnection_sameDocuments getEmbeddings_sameDocuments
  generate_sameDocuments : frame.

(** Marking the store initialized keeps its documents. *)
Lemma markInitialized_sameDocuments :
  respects sameDocuments
           (bind VectorStore.this
                 (fun s' => setVectorStore (Some (mkStore (documents s') true)))).
Proof.
  intros w. unfold bind at 1.
  destruct (vectorStore w) as [s|] eqn:Hs.
  - rewrite (this_some w Hs). unfold sameDocuments, storedDocuments. cbn.
    rewrite Hs. reflexivity.
  - unfold VectorStore.this, bind, get. rewrite Hs. reflexivity.
Qed.

Lemma initialize_sameDocuments ep :
  respects sameDocuments (VectorStore.initialize ep).
Proof.
  unfold VectorStore.initialize.
  apply respects_bind; [exact _ | apply this_sameDocuments | intros s].
  destruct (isInitialized s); [apply respects_ret; exact _ | ].
  apply respects_tryCatch; [exact _ | | intros e; apply respects_throw; exact _].
  apply respects_bind; [exact _ | apply checkConnection_sameDocuments | intros st].
  destruct (negb (Ollama.isRunning st)); [apply respects_throw; exact _ | ].
  apply markInitialized_sameDocuments.
Qed.

#[export] Hint Resolve initialize_sameDocuments : frame.

Lemma similaritySearch_sameDocuments ep query k :
  respects sameDocuments (VectorStore.similaritySearch ep query k).
Proof. unfold VectorStore.similaritySearch. respects_auto. Qed.

Lemma initializeVectorStore_sameDocuments ep :
  respects sameDocuments (VectorStore.initializeVectorStore ep).
Proof.
  unfold VectorStore.initializeVectorStore.
  apply respects_get_bind. intros w.
  destruct (vectorStore w) as [s|] eqn:Hs; [reflexivity | ].
  unfold bind at 1. cbn [setVectorStore].
  transitivity (mkWorld (ollama w) (Some (mkStore [] false))
                        (routeInitialized w) (log w)).
  - unfold sameDocuments, storedDocuments. cbn. rewrite Hs. reflexivity.
  - apply (@respects_bind sameDocuments _ unit SimpleVectorStore
                          (VectorStore.initialize ep)
                          (fun _ => VectorStore.this)
                          (initialize_sameDocuments ep)
                          (fun _ => this_sameDocuments)).
Qed.

#[export] Hint Resolve similaritySearch_sameDocuments
  initializeVectorStore_sameDocuments : frame.

Lemma searchSimilarChunks_sameDocuments ep query k :
  respects sameDocuments (VectorStore.searchSimilarChunks ep query k).
Proof. unfold VectorStore.searchSimilarChunks. respects_auto. Qed.

#[export] Hint Resolve searchSimilarChunks_sameDocuments : frame.

Lemma ChatRoute_POST_sameDocuments ep formatError req :
  respects sameDocuments (ChatRoute.POST ep formatError req).
Proof. unfold ChatRoute.POST. respects_auto. Qed.

(** X7.  Retrieval and answering never write to the store: after
    [similaritySearch], [searchSimilarChunks] or a request to the handler of
    route.ts, whatever their outcome, the stored documents are exactly the
    ones stored before (and a store created on the way is empty). *)
Theorem retrieval_leaves_documents (ep : Endpoint) (w : World) :
  (forall query k,
      storedDocuments (snd (VectorStore.similaritySearch ep query k w))
      = storedDocuments w) /\
  (forall query k,
      storedDocuments (snd (VectorStore.searchSimilarChunks ep query k w))
      = storedDocuments w) /\
  (forall formatError req,
      storedDocuments (snd (ChatRoute.POST ep formatError req w))
      = storedDocuments w).
Proof.
  repeat split; intros.
  - apply (similaritySearch_sameDocuments ep query k w).
  - apply (searchSimilarChunks_sameDocuments ep query k w).
  - apply (ChatRoute_POST_sameDocuments ep formatError req w).
Qed.

Lemma mapiFrom_paired chunks :
  forall earlier vs,
    List.length vs = List.length chunks ->
    VectorStore.mapiFrom
      (fun doc i => mkStored (Document.pageContent doc) (nth i (earlier ++ vs) []))
      (map Document.make chunks) (List.length earlier)
    = paired chunks vs.
Proof.
  induction chunks as [|chunk chunks IH]; intros earlier vs Hlen.
  - reflexivity.
  - destruct vs as [|v vs]; [discriminate | ].
    cbn [map VectorStore.mapiFrom]. unfold paired. cbn [combine map fst snd].
    f_equal.
    + rewrite nth_middle. reflexivity.
    + specialize (IH (earlier ++ [v]) vs).
      rewrite length_app, Nat.add_1_r, <- app_assoc in IH.
      apply IH. cbn in Hlen. lia.
Qed.

Lemma mapi_paired chunks vs :
  List.length vs = List.length chunks ->
  VectorStore.mapi
    (fun doc i => mkStored (Document.pageContent doc) (nth i vs []))
    (map Document.make chunks)
  = paired chunks vs.
Proof. intros H. exact (mapiFrom_paired chunks [] vs H). Qed.

Lemma getEmbeddings_all_ok ep w texts vs :
  isConnected (ollama w) = true ->
  answers ep (modelName (ollama w)) (List.length (log w)) texts
  = map EmbeddingsOk vs ->
  Ollama.getEmbeddings ep texts w =
  (Ret vs, extended w (requests (modelName (ollama w)) texts)).
Proof.
  intros Hconn Hok. unfold Ollama.getEmbeddings, bind.
  rewrite ensureConnected_connected by exact Hconn.
  unfold tryCatch. rewrite (embedEach_all_ok ep texts [] w vs Hok).
  reflexivity.
Qed.

Lemma contents_of_chunks chunks :
  map Document.pageContent (map Document.make chunks) = chunks.
Proof. rewrite map_map. apply map_id. Qed.

(** X8.  On an initialized store with the service connected, when every
    embeddings request succeeds, [addDocumentsToStore] sends one request per
    chunk in order and appends the chunks, each paired with its own vector,
    after the documents already stored, which stay as they are. *)
Theorem addDocumentsToStore_appends
        (ep : Endpoint) (w : World) (s : SimpleVectorStore)
        (chunks : list string) (vs : list (list float)) :
  vectorStore w = Some s ->
  isInitialized s = true ->
  isConnected (ollama w) = true ->
  answers ep (modelName (ollama w)) (List.length (log w)) chunks
  = map EmbeddingsOk vs ->
  VectorStore.addDocumentsToStore ep chunks w =
  (Ret tt,
   mkWorld (ollama w)
           (Some (mkStore (documents s ++ paired chunks vs) true))
           (routeInitialized w)
           (log w ++ map (FetchEmbeddings (modelName (ollama w))) chunks)).
Proof.
  intros Hs Hi Hconn Hok.
  assert (Hlen : List.length vs = List.length chunks).
  { apply (f_equal (@List.length _)) in Hok.
    rewrite answers_length, length_map in Hok. auto. }
  unfold VectorStore.addDocumentsToStore, bind at 1.
  unfold VectorStore.initializeVectorStore, bind at 1. cbn [get]. rewrite Hs.
  cbn [ret]. unfold VectorStore.addDocuments.
  unfold bind at 1. rewrite (this_some w Hs), Hi. cbn [negb].
  unfold bind at 1. cbn [ret]. unfold tryCatch, bind at 1.
  rewrite contents_of_chunks.
  rewrite (getEmbeddings_all_ok ep w chunks vs Hconn Hok).
  unfold bind.
  rewrite (this_some (extended w (requests (modelName (ollama w)) chunks)) Hs).
  cbn [setVectorStore]. rewrite (mapi_paired chunks vs Hlen), Hi.
  reflexivity.
Qed.

Lemma addDocumentsToStore_appends_witness :
  VectorStore.addDocumentsToStore namedEndpoint ["half"; "zero"] oneChunkStored =
  (Ret tt,
   mkWorld (ollama oneChunkStored)
           (Some (mkStore [mkStored "a" [1%float; 0%float];
                           mkStored "half" [3%float; 4%float];
                           mkStored "zero" [0%float; 0%float]] true))
           (routeInitialized oneChunkStored)
           (log oneChunkStored ++
            [FetchEmbeddings "llama3.2" "half"; FetchEmbeddings "llama3.2" "zero"])).
Proof.
  exact (addDocumentsToStore_appends
           namedEndpoint oneChunkStored
           (mkStore [mkStored "a" [1%float; 0%float]] true)
           ["half"; "zero"] [[3%float; 4%float]; [0%float; 0%float]]
           eq_refl eq_refl eq_refl eq_refl).
Defined.

(** What [addDocuments] leaves behind: on a throw, the documents stored
    before; on a return, those followed by the new ones. *)
Lemma addDocuments_outcome ep docs w :
  match VectorStore.addDocuments ep docs w with
  | (Ret _, w') =>
      exists embs,
        storedDocuments w' =
        storedDocuments w ++
        VectorStore.mapi
          (fun doc i => mkStored (Document.pageContent doc) (nth i embs []))
          docs
  | (Throw _, w') => storedDocuments w' = storedDocuments w
  end.
Proof.
  unfold VectorStore.addDocuments. unfold bind at 1.
  destruct (vectorStore w) as [s|] eqn:Hs.
  2:{ unfold VectorStore.this, bind, get. rewrite Hs. reflexivity. }
  rewrite (this_some w Hs). unfold bind at 1.
  assert (Hinit : sameDocuments
                    w (snd ((if negb (isInitialized s)
                             then VectorStore.initialize ep else ret tt) w))).
  { destruct (negb (isInitialized s));
      [apply initialize_sameDocuments | reflexivity]. }
  destruct ((if negb (isInitialized s) then VectorStore.initialize ep else ret tt) w)
    as [[[]|e] w1]; cbn [snd] in Hinit; [ | exact Hinit ].
  unfold tryCatch, bind at 1.
  pose proof (getEmbeddings_sameDocuments
                ep (map Document.pageContent docs) w1) as Hemb.
  destruct (Ollama.getEmbeddings ep (map Document.pageContent docs) w1)
    as [[embs|e] w2]; cbn [snd] in Hemb.
  2:{ cbn. unfold sameDocuments in *. congruence. }
  unfold bind at 1.
  destruct (vectorStore w2) as [s2|] eqn:Hs2.
  - rewrite (this_some w2 Hs2). cbn [setVectorStore].
    exists embs. unfold sameDocuments, storedDocuments in *. cbn.
    rewrite Hs2 in Hemb. rewrite Hemb, Hinit. reflexivity.
  - unfold VectorStore.this, bind, get. rewrite Hs2. cbn.
    unfold sameDocuments in *. congruence.
Qed.

Lemma addDocumentsToStore_outcome ep chunks w :
  match VectorStore.addDocumentsToStore ep chunks w with
  | (Ret _, w') =>
      exists embs,
        storedDocuments w' =
        storedDocuments w ++
        VectorStore.mapi
          (fun doc i => mkStored (Document.pageContent doc) (nth i embs []))
          (map Document.make chunks)
  | (Throw _, w') => storedDocuments w' = storedDocuments w
  end.
Proof.
  unfold VectorStore.addDocumentsToStore, bind.
  pose proof (initializeVectorStore_sameDocuments ep w) as Hinit.
  destruct (VectorStore.initializeVectorStore ep w) as [[s|e] w1];
    cbn [snd] in Hinit; [ | exact Hinit ].
  pose proof (addDocuments_outcome ep (map Document.make chunks) w1) as Hadd.
  destruct (VectorStore.addDocuments ep (map Document.make chunks) w1)
    as [[[]|e] w2]; unfold sameDocuments in Hinit.
  - destruct Hadd as [embs Hadd]. exists embs. rewrite Hadd, Hinit. reflexivity.
  - congruence.
Qed.

(** X9.  [addDocumentsToStore] is all or nothing: whenever it throws (no
    connection, a failed embeddings request at any position), the stored
    documents are exactly those stored before, none of the new chunks
    among them. *)
Theorem addDocumentsToStore_all_or_nothing
        (ep : Endpoint) (w : World) (chunks : list string) (e : Js.Error) :
  fst (VectorStore.addDocumentsToStore ep chunks w) = Throw e ->
  storedDocuments (snd (VectorStore.addDocumentsToStore ep chunks w))
  = storedDocuments w.
Proof.
  intros Hthrow.
  pose proof (addDocumentsToStore_outcome ep chunks w) as H.
  destruct (VectorStore.addDocumentsToStore ep chunks w) as [[[]|e'] w'];
    [discriminate | exact H].
Qed.

Lemma addDocumentsToStore_all_or_nothing_witness :
  storedDocuments
    (snd (VectorStore.addDocumentsToStore flakyEndpoint ["c"; "b"; "d"]
                                          oneChunkStored))
  = [mkStored "a" [1%float; 0%float]].
Proof.
  exact (addDocumentsToStore_all_or_nothing
           flakyEndpoint oneChunkStored ["c"; "b"; "d"]
           (Js.newError
              "Failed to generate embeddings: Failed to get embeddings: Internal Server Error")
           eq_refl).
Defined.

Lemma ensureVectorStore_sameDocuments ep :
  respects sameDocuments (ChatRouteModes.ensureVectorStore ep).
Proof. unfold ChatRouteModes.ensureVectorStore. respects_auto. Qed.

#[export] Hint Resolve ensureVectorStore_sameDocuments : frame.

Lemma retrieveContext_sameDocuments ep history message :
  respects sameDocuments (ChatRouteModes.retrieveContext ep history message).
Proof. unfold ChatRouteModes.retrieveContext. respects_auto. Qed.

Lemma respond_sameDocuments ep prompt contextChunks :
  respects sameDocuments (ChatRouteModes.respond ep prompt contextChunks).
Proof. unfold ChatRouteModes.respond. respects_auto. Qed.

Lemma addDocumentsToStore_documentsGrow ep chunks :
  respects documentsGrow (VectorStore.addDocumentsToStore ep chunks).
Proof.
  intros w. pose proof (addDocumentsToStore_outcome ep chunks w) as H.
  destruct (VectorStore.addDocumentsToStore ep chunks w) as [[[]|e] w'].
  - destruct H as [embs H]. eexists. exact H.
  - apply sameDocuments_documentsGrow. exact H.
Qed.

Lemma grows_of_same A (m : M A) :
  respects sameDocuments m -> respects documentsGrow m.
Proof. apply respects_weaken. exact sameDocuments_documentsGrow. Qed.

Lemma ChatRouteModes_POST_documentsGrow ep formatError req :
  respects documentsGrow (ChatRouteModes.POST ep formatError req).
Proof.
  unfold ChatRouteModes.POST.
  apply respects_tryCatch; [exact _ | | intros e; apply respects_ret; exact _].
  apply respects_bind;
    [exact _ | apply grows_of_same, checkConnection_sameDocuments | intros st].
  destruct (negb (Ollama.isRunning st)); [apply respects_ret; exact _ | ].
  destruct (ChatRouteModes.hasChunks (ChatRouteModes.chunks req)).
  - apply respects_bind;
      [exact _ | apply grows_of_same, ensureVectorStore_sameDocuments | intros _].
    apply respects_bind;
      [exact _ | apply addDocumentsToStore_documentsGrow | intros _].
    apply respects_ret; exact _.
  - destruct (noMessage (ChatRouteModes.message req));
      [apply respects_ret; exact _ | ].
    destruct (ChatRouteModes.isPDFMode req).
    + apply respects_bind;
        [exact _ | apply grows_of_same, retrieveContext_sameDocuments | intros r].
      destruct r as [early | [prompt contextChunks]];
        [apply respects_ret; exact _
        | apply grows_of_same, respond_sameDocuments].
    + apply grows_of_same, respond_sameDocuments.
Qed.

(** X10.  Stored documents are never removed, replaced or reordered: after
    [addDocumentsToStore] or any request to the mode-aware chat handler,
    whatever its outcome, the documents stored before are still there, in
    the same places, possibly followed by new ones. *)
Theorem documents_only_grow (ep : Endpoint) (w : World) :
  (forall chunks,
      exists added,
        storedDocuments (snd (VectorStore.addDocumentsToStore ep chunks w))
        = storedDocuments w ++ added) /\
  (forall formatError req,
      exists added,
        storedDocuments (snd (ChatRouteModes.POST ep formatError req w))
        = storedDocuments w ++ added).
Proof.
  split; intros.
  - apply (addDocumentsToStore_documentsGrow ep chunks w).
  - apply (ChatRouteModes_POST_documentsGrow ep formatError req w).
Qed.

(** ** What a search can return *)

Lemma NoDup_firstn {A} n (xs : list A) : NoDup xs -> NoDup (firstn n xs).
Proof.
  intros H. rewrite <- (firstn_skipn n xs) in H.
  apply NoDup_app_remove_r in H. exact H.
Qed.

Lemma slice0_is_firstn {A} (k : Z) (xs : list A) :
  exists m, Js.slice0 k xs = firstn m xs /\ ((0 <= k)%Z -> m = Z.to_nat k).
Proof.
  unfold Js.slice0. destruct (k <? 0)%Z eqn:Hneg.
  - eexists. split; [reflexivity | ]. apply Z.ltb_lt in Hneg. lia.
  - eexists. split; reflexivity.
Qed.

(** The documents at the slots [slots] of the store. *)
Lemma similaritySearch_initialized_slots ep query k w s ds w' :
  vectorStore w = Some s -> isInitialized s = true ->
  VectorStore.similaritySearch ep query k w = (Ret ds, w') ->
  exists slots,
    ds = map (fun i => Document.make (nth i (map pageContent (documents s)) ""))
             slots /\
    NoDup slots /\
    Forall (fun i => i < List.length (documents s)) slots /\
    ((0 <= k)%Z -> List.length slots <= Z.to_nat k).
Proof.
  intros Hs Hi Hrun.
  assert (Hnone : exists slots : list nat,
             @nil Document.t =
             map (fun i => Document.make (nth i (map pageContent (documents s)) ""))
                 slots /\
             NoDup slots /\
             Forall (fun i => i < List.length (documents s)) slots /\
             ((0 <= k)%Z -> List.length slots <= Z.to_nat k)).
  { exists []. repeat split; [constructor | constructor | cbn; lia]. }
  rewrite (similaritySearch_initialized ep query k w Hs Hi) in Hrun.
  destruct (documents s) as [|doc docs] eqn:Hdocs.
  { injection Hrun as <- _. exact Hnone. }
  rewrite <- Hdocs in *.
  destruct (Ollama.getEmbeddings ep [query] w) as [[[|qe rest]|e] w1].
  - injection Hrun as <- _. exact Hnone.
  - set (scores := scoresOf qe (documents s)) in *.
    rewrite similarities_indexed in Hrun. fold scores in Hrun.
    set (sorted := VectorStore.sort VectorStore.byScoreDesc (indexed scores)) in *.
    assert (Hlen : List.length scores = List.length (documents s))
      by (unfold scores, scoresOf; apply length_map).
    assert (Hperm : Permutation (map VectorStore.index sorted)
                                (seq 0 (List.length scores))).
    { rewrite <- indexed_index. apply Permutation_map, sort_perm. }
    destruct (slice0_is_firstn k sorted) as [m [Hslice Hm]].
    rewrite Hslice in Hrun.
    rewrite toDocuments_indexed in Hrun.
    + injection Hrun as <- _.
      exists (map VectorStore.index (firstn m sorted)).
      split; [rewrite map_map; reflexivity | ].
      rewrite <- firstn_map.
      split; [ | split ].
      * apply NoDup_firstn.
        apply (Permutation_NoDup (Permutation_sym Hperm)), seq_NoDup.
      * apply Forall_forall. intros i Hin. apply firstn_subset in Hin.
        apply (Permutation_in _ Hperm) in Hin. apply in_seq in Hin. lia.
      * intros Hk. rewrite length_firstn, (Hm Hk). lia.
    + apply Forall_forall. intros sim Hsim. apply firstn_subset in Hsim.
      apply (Permutation_in _ (sort_perm VectorStore.byScoreDesc
                                         (indexed scores))) in Hsim.
      apply indexed_In in Hsim as [Hlt _]. rewrite <- Hlen. exact Hlt.
  - injection Hrun as <- _. exact Hnone.
Qed.

(** X11.  Whatever the endpoint answers and whatever the scores are (NaN
    included), the documents that [similaritySearch] returns on an
    initialized store are stored chunks, each taken from a different slot
    of the store, and at most [k] of them for a [k] that is not negative. *)
Theorem similaritySearch_returns_stored_chunks
        (ep : Endpoint) (w w' : World) (s : SimpleVectorStore)
        (query : string) (k : Z) (ds : list Document.t) :
  vectorStore w = Some s ->
  isInitialized s = true ->
  VectorStore.similaritySearch ep query k w = (Ret ds, w') ->
  exists slots,
    ds = map (fun i => Document.make (nth i (map pageContent (documents s)) ""))
             slots /\
    NoDup slots /\
    Forall (fun i => i < List.length (documents s)) slots /\
    List.length ds <= List.length (documents s) /\
    ((0 <= k)%Z -> List.length ds <= Z.to_nat k).
Proof.
  intros Hs Hi Hrun.
  destruct (similaritySearch_initialized_slots ep query k w s ds w' Hs Hi Hrun)
    as [slots [Hds [Hnodup [Hall Hk]]]].
  exists slots. subst ds. rewrite length_map.
  repeat split; try assumption.
  assert (Hincl : incl slots (seq 0 (List.length (documents s)))).
  { intros i Hin. apply in_seq. rewrite Forall_forall in Hall.
    specialize (Hall i Hin). lia. }
  pose proof (NoDup_incl_length Hnodup Hincl) as Hle.
  rewrite length_seq in Hle. exact Hle.
Qed.

Lemma similaritySearch_returns_stored_chunks_witness :
  exists slots,
    [Document.make "zero"; Document.make "short"] =
    map (fun i => Document.make (nth i ["zero"; "short"; "same"] "")) slots /\
    NoDup slots /\
    Forall (fun i => i < 3) slots /\
    2 <= 3 /\
    ((0 <= 2)%Z -> 2 <= 2).
Proof.
  exact (similaritySearch_returns_stored_chunks
           namedEndpoint threeChunksStored
           (snd (VectorStore.similaritySearch namedEndpoint "query" 2
                                              threeChunksStored))
           (mkStore threeChunks true) "query" 2
           [Document.make "zero"; Document.make "short"]
           eq_refl eq_refl eq_refl).
Defined.

(** ** The singleton store *)

(** X12.  On a process without a store, when no model can be found,
    [initializeVectorStore] creates the store, fails to initialize it and
    throws the message of the connection check; the store stays behind,
    empty and not initialized.  Every later [initializeVectorStore] then
    hands out that uninitialized store as it is, with no connection check,
    no request and no error, whatever the endpoint would answer by then. *)
Theorem initializeVectorStore_failed_start (ep : Endpoint) (w : World) :
  vectorStore w = None ->
  (forall t, modelAt ep t = None) ->
  let w' :=
    mkWorld (ollama w) (Some (mkStore [] false)) (routeInitialized w)
            (log w ++ [FetchTags; Sleep 1000; FetchTags; Sleep 1000; FetchTags]) in
  VectorStore.initializeVectorStore ep w =
  (Throw (Js.newError (Ollama.couldNotConnect ep)), w') /\
  (forall later, VectorStore.initializeVectorStore later w' =
                 (Ret (mkStore [] false), w')).
Proof.
  intros Hnone Hmodel w'. split.
  - unfold VectorStore.initializeVectorStore, bind at 1. cbn [get].
    rewrite Hnone. unfold bind at 1. cbn [setVectorStore].
    unfold bind at 1.
    rewrite (@initialize_uninitialized
               ep
               (mkWorld (ollama w) (Some (mkStore [] false))
                        (routeInitialized w) (log w))
               (mkStore [] false)
               (Ollama.mkStatus false (Some (Ollama.couldNotConnect ep)))
               w' eq_refl eq_refl).
    + reflexivity.
    + rewrite (checkConnection_no_model ep _ Hmodel). reflexivity.
  - intros later. reflexivity.
Qed.

Lemma initializeVectorStore_failed_start_witness :
  VectorStore.initializeVectorStore deadEndpoint boot =
  (Throw (Js.newError
            "Could not connect to Ollama at http://127.0.0.1:11434 after multiple attempts. Please ensure Ollama is running."),
   mkWorld (mkOllama false "llama3.2") (Some (mkStore [] false)) false
           [FetchTags; Sleep 1000; FetchTags; Sleep 1000; FetchTags]).
Proof.
  refine (proj1 (initializeVectorStore_failed_start deadEndpoint boot eq_refl _)).
  intros t. reflexivity.
Defined.

(** ** The handler of route.ts *)

Lemma generate_error_codeless ep prompt w e :
  fst (Ollama.generate ep prompt w) = Throw e -> Js.code e = None.
Proof.
  unfold Ollama.generate, bind at 1.
  unfold Ollama.ensureConnected, bind at 1. cbn [get].
  destruct (negb (isConnected (ollama w))).
  - unfold bind at 1.
    destruct (checkConnection_returns ep w) as [st [w1 [Hc _]]]. rewrite Hc.
    destruct (negb (Ollama.isRunning st)).
    + cbn. intros H. injection H as <-. reflexivity.
    + cbn [ret]. unfold tryCatch.
      destruct (bind get _ w1) as [[r|e'] w2]; cbn; intros H;
        [discriminate | injection H as <-; reflexivity].
  - cbn [ret]. unfold tryCatch.
    destruct (bind get _ w) as [[r|e'] w2]; cbn; intros H;
      [discriminate | injection H as <-; reflexivity].
Qed.

Lemma ChatRoute_POST_unfold ep formatError req w st w1 :
  Ollama.checkConnection ep w = (Ret st, w1) ->
  ChatRoute.POST ep formatError req w =
  if negb (Ollama.isRunning st)
  then (Ret (Json (ErrorBody (Ollama.error st)) 503), w1)
  else if noMessage (ChatRoute.message req)
  then (Ret (Json (ErrorBody (Some "Message is required")) 400), w1)
  else
    let message := messageText (ChatRoute.message req) in
    let found := retrieved ep message w1 in
    answered formatError (fst found)
             (Ollama.generate
                ep (promptFor (fst found) (ChatRoute.history req) message)
                (snd found)).
Proof.
  intros Hc. unfold ChatRoute.POST.
  unfold tryCatch at 1. unfold bind at 1. rewrite Hc.
  destruct (negb (Ollama.isRunning st)); [reflexivity | ].
  destruct (noMessage (ChatRoute.message req)); [reflexivity | ].
  cbv zeta. unfold retrieved, promptFor, answered.
  unfold bind at 1. unfold tryCatch at 1.
  destruct (VectorStore.searchSimilarChunks
              ep (messageText (ChatRoute.message req)) 3 w1)
    as [[contextChunks|e] w2]; cbn [ret fst snd]; unfold bind;
    destruct (Ollama.generate ep _ w2) as [[response|e'] w3]; reflexivity.
Qed.

(** X13.  The handler of route.ts never throws, and answers by the outcome
    of the connection check it starts with.  A check that fails gives 503
    with the message of the check, and a missing or empty message gives 400
    "Message is required": in both cases nothing else is done (no retrieval,
    no generation).  Otherwise the answer is 200 with a generated text, or
    500: the 503 branch of the final [catch] is never taken, because the
    errors of [generate] carry no code. *)
Theorem ChatRoute_POST_responses
        (ep : Endpoint) (formatError : Js.Error -> string)
        (req : ChatRoute.Request) (w : World)
        (st : Ollama.ConnectionStatus) (w1 : World) :
  Ollama.checkConnection ep w = (Ret st, w1) ->
  (Ollama.isRunning st = false ->
   ChatRoute.POST ep formatError req w =
   (Ret (Json (ErrorBody (Ollama.error st)) 503), w1)) /\
  (Ollama.isRunning st = true ->
   noMessage (ChatRoute.message req) = true ->
   ChatRoute.POST ep formatError req w =
   (Ret (Json (ErrorBody (Some "Message is required")) 400), w1)) /\
  (Ollama.isRunning st = true ->
   noMessage (ChatRoute.message req) = false ->
   (exists answer contextChunks,
       fst (ChatRoute.POST ep formatError req w) =
       Ret (Json (AnswerBody answer contextChunks) 200)) \/
   (exists e,
       fst (ChatRoute.POST ep formatError req w) =
       Ret (Json (ErrorBody (Some (formatError e))) 500))).
Proof.
  intros Hc. rewrite (ChatRoute_POST_unfold ep formatError req w st w1 Hc).
  split; [ | split ].
  - intros ->. reflexivity.
  - intros -> ->. reflexivity.
  - intros -> ->. cbn [negb]. cbv zeta. unfold answered.
    match goal with
    | |- context [Ollama.generate ep ?p ?w2] =>
        pose proof (generate_error_codeless ep p w2) as Hcode;
        destruct (Ollama.generate ep p w2) as [[answer|e] w3]
    end.
    + left. do 2 eexists. reflexivity.
    + right. exists e. unfold chatApiError.
      rewrite (Hcode e eq_refl). reflexivity.
Qed.

Lemma ChatRoute_POST_responses_witness :
  ChatRoute.POST deadEndpoint Js.message (ChatRoute.mkRequest (Some "hi") []) boot =
  (Ret (Json (ErrorBody
                (Some "Could not connect to Ollama at http://127.0.0.1:11434 after multiple attempts. Please ensure Ollama is running."))
             503),
   extended boot [FetchTags; Sleep 1000; FetchTags; Sleep 1000; FetchTags]).
Proof.
  exact (proj1 (ChatRoute_POST_responses
                  deadEndpoint Js.message (ChatRoute.mkRequest (Some "hi") [])
                  boot
                  (Ollama.mkStatus false (Some (Ollama.couldNotConnect deadEndpoint)))
                  (extended boot [FetchTags; Sleep 1000; FetchTags; Sleep 1000;
                                  FetchTags])
                  eq_refl)
               eq_refl).
Defined.

(** X14.  When retrieval finds chunks, the handler of route.ts sends one
    [generate] request whose prompt is the context prompt built from exactly
    those chunks (joined by blank lines), the history and the message, and
    on success the [context] of the 200 answer is that same list of chunks,
    in the same order. *)
Theorem ChatRoute_POST_with_context
        (ep : Endpoint) (formatError : Js.Error -> string)
        (req : ChatRoute.Request) (w : World)
        (st : Ollama.ConnectionStatus) (w1 w2 : World)
        (contextChunks : list string) (answer : string) :
  Ollama.checkConnection ep w = (Ret st, w1) ->
  Ollama.isRunning st = true ->
  noMessage (ChatRoute.message req) = false ->
  VectorStore.searchSimilarChunks
    ep (messageText (ChatRoute.message req)) 3 w1 = (Ret contextChunks, w2) ->
  contextChunks <> [] ->
  let prompt := ChatRoute.contextPrompt contextChunks (ChatRoute.history req)
                                        (messageText (ChatRoute.message req)) in
  generation ep (List.length (log w2)) (modelName (ollama w2)) prompt
  = GenerateOk answer ->
  ChatRoute.POST ep formatError req w =
  (Ret (Json (AnswerBody answer contextChunks) 200),
   extended w2 [FetchGenerate (modelName (ollama w2)) prompt]).
Proof.
  intros Hc Hrun Hmsg Hsearch Hsome prompt Hgen.
  rewrite (ChatRoute_POST_unfold ep formatError req w st w1 Hc), Hrun, Hmsg.
  cbn [negb]. cbv zeta. unfold retrieved. rewrite Hsearch. cbn [fst snd].
  unfold promptFor.
  destruct contextChunks as [|c cs]; [contradiction | ].
  cbn [List.length Nat.ltb Nat.leb]. fold prompt.
  assert (Hconn : isConnected (ollama w2) = true).
  { pose proof (searchSimilarChunks_keepsConnection
                  ep (messageText (ChatRoute.message req)) 3 w1) as H.
    rewrite Hsearch in H. apply H.
    exact (@checkConnection_running ep w st w1 Hc Hrun). }
  rewrite (generate_connected_result ep prompt w2 Hconn), Hgen. reflexivity.
Qed.

Lemma ChatRoute_POST_with_context_witness :
  fst (ChatRoute.POST namedEndpoint Js.message
                      (ChatRoute.mkRequest (Some "query") []) rankedStored) =
  Ret (Json (AnswerBody "ok" ["same"; "twin"; "half"]) 200).
Proof.
  refine (f_equal fst
            (ChatRoute_POST_with_context
               namedEndpoint Js.message (ChatRoute.mkRequest (Some "query") [])
               rankedStored (Ollama.mkStatus true None)
               (snd (Ollama.checkConnection namedEndpoint rankedStored))
               (snd (VectorStore.searchSimilarChunks
                       namedEndpoint "query" 3
                       (snd (Ollama.checkConnection namedEndpoint rankedStored))))
               ["same"; "twin"; "half"] "ok"
               eq_refl eq_refl eq_refl eq_refl _ eq_refl)).
  discriminate.
Defined.

(** ** The mode-aware handler *)

Lemma ChatRouteModes_POST_unfold ep formatError req w st w1 :
  Ollama.checkConnection ep w = (Ret st, w1) ->
  ChatRouteModes.POST ep formatError req w =
  if negb (Ollama.isRunning st)
  then (Ret (Json (ErrorBody (Some (notAvailable st))) 503), w1)
  else if ChatRouteModes.hasChunks (ChatRouteModes.chunks req)
  then
    match (ChatRouteModes.ensureVectorStore ep ;;;
           VectorStore.addDocumentsToStore ep (chunksOf req)) w1 with
    | (Ret _, w2) => (Ret (Json SuccessBody 200), w2)
    | (Throw e, w2) => (Ret (chatApiError formatError e), w2)
    end
  else if noMessage (ChatRouteModes.message req)
  then (Ret (Json (ErrorBody (Some "Message is required")) 400), w1)
  else
    let message := messageText (ChatRouteModes.message req) in
    if ChatRouteModes.isPDFMode req
    then
      match (ChatRouteModes.ensureVectorStore ep ;;;
             VectorStore.searchSimilarChunks ep message 3) w1 with
      | (Ret [], w2) =>
          (Ret (Json (ErrorBody (Some ChatRouteModes.noRelevantInformation)) 404),
           w2)
      | (Ret contextChunks, w2) =>
          responded contextChunks
                    (Ollama.generate
                       ep (ChatRouteModes.contextPrompt
                             contextChunks (ChatRouteModes.history req) message)
                       w2)
      | (Throw _, w2) =>
          (Ret (Json (ErrorBody (Some ChatRouteModes.failedToRetrieve)) 500), w2)
      end
    else responded [] (Ollama.generate
                         ep (plainPrompt (ChatRouteModes.history req) message) w1).
Proof.
  intros Hc. unfold ChatRouteModes.POST.
  unfold tryCatch at 1. unfold bind at 1. rewrite Hc.
  destruct (negb (Ollama.isRunning st)); [reflexivity | ].
  destruct (ChatRouteModes.hasChunks (ChatRouteModes.chunks req)).
  { unfold chunksOf, bind.
    destruct (ChatRouteModes.ensureVectorStore ep w1) as [[[]|e] w2];
      [ | reflexivity ].
    destruct (VectorStore.addDocumentsToStore ep _ w2) as [[[]|e] w3];
      reflexivity. }
  destruct (noMessage (ChatRouteModes.message req)); [reflexivity | ].
  cbv zeta. destruct (ChatRouteModes.isPDFMode req).
  - unfold ChatRouteModes.retrieveContext, ChatRouteModes.respond, responded,
      tryCatch, bind.
    destruct (ChatRouteModes.ensureVectorStore ep w1) as [[[]|e] w2];
      [ | reflexivity ].
    destruct (VectorStore.searchSimilarChunks ep _ 3 w2) as [[[|c cs]|e] w3];
      cbn [List.length Nat.eqb ret]; try reflexivity.
    destruct (Ollama.generate ep _ w3) as [[response|e] w4]; reflexivity.
  - unfold ChatRouteModes.respond, responded, tryCatch, bind.
    destruct (Ollama.generate ep _ w1) as [[response|e] w4]; reflexivity.
Qed.

(** *** Errors without a code *)

Lemma codeless_ret A (a : A) : codeless (ret a).
Proof. intros w e H. discriminate. Qed.

Lemma codeless_newError A msg : codeless (@throw A (Js.newError msg)).
Proof. intros w e H. injection H as <-. reflexivity. Qed.

Lemma codeless_bind A B (m : M A) (k : A -> M B) :
  codeless m -> (forall a, codeless (k a)) -> codeless (bind m k).
Proof.
  intros Hm Hk w e. unfold bind. specialize (Hm w).
  destruct (m w) as [[a|e'] w1]; cbn in *.
  - apply Hk.
  - intros H. injection H as <-. apply Hm. reflexivity.
Qed.

Lemma codeless_tryCatch A (m : M A) (h : Js.Error -> M A) :
  codeless m -> (forall e, Js.code e = None -> codeless (h e)) ->
  codeless (tryCatch m h).
Proof.
  intros Hm Hh w e. unfold tryCatch. specialize (Hm w).
  destruct (m w) as [[a|e'] w1]; cbn in *.
  - discriminate.
  - apply Hh. apply Hm. reflexivity.
Qed.

Lemma codeless_rethrow A e : Js.code e = None -> codeless (@throw A e).
Proof. intros He w e' H. injection H as <-. exact He. Qed.

Lemma codeless_never A (m : M A) :
  (forall w, exists a, fst (m w) = Ret a) -> codeless m.
Proof. intros H w e He. destruct (H w) as [a Ha]. congruence. Qed.

Lemma checkConnection_codeless ep : codeless (Ollama.checkConnection ep).
Proof.
  apply codeless_never. intros w.
  destruct (checkConnection_returns ep w) as [st [w1 [Hc _]]].
  exists st. rewrite Hc. reflexivity.
Qed.

Lemma getEmbeddings_codeless ep texts : codeless (Ollama.getEmbeddings ep texts).
Proof.
  unfold Ollama.getEmbeddings.
  apply codeless_bind.
  - unfold Ollama.ensureConnected.
    apply codeless_bind; [apply codeless_never; intros w; eexists; reflexivity | ].
    intros w0. destruct (negb (isConnected (ollama w0))); [ | apply codeless_ret].
    apply codeless_bind; [apply checkConnection_codeless | intros st].
    destruct (negb (Ollama.isRunning st));
      [apply codeless_newError | apply codeless_ret].
  - intros _. intros w e. unfold tryCatch.
    destruct (Ollama.embedEach ep texts [] w) as [[vs|e'] w1]; cbn.
    + discriminate.
    + intros H. injection H as <-. reflexivity.
Qed.

Lemma this_codeless : codeless VectorStore.this.
Proof.
  unfold VectorStore.this.
  apply codeless_bind; [apply codeless_never; intros w; eexists; reflexivity | ].
  intros w0. destruct (vectorStore w0);
    [apply codeless_ret | apply codeless_newError].
Qed.

Lemma setVectorStore_codeless s : codeless (setVectorStore s).
Proof. apply codeless_never. intros w. eexists. reflexivity. Qed.

Lemma initialize_codeless ep : codeless (VectorStore.initialize ep).
Proof.
  unfold VectorStore.initialize.
  apply codeless_bind; [apply this_codeless | intros s].
  destruct (isInitialized s); [apply codeless_ret | ].
  apply codeless_tryCatch; [ | intros e He; apply codeless_rethrow, He].
  apply codeless_bind; [apply checkConnection_codeless | intros st].
  destruct (negb (Ollama.isRunning st)); [apply codeless_newError | ].
  apply codeless_bind; [apply this_codeless | intros s'].
  apply setVectorStore_codeless.
Qed.

Lemma initializeVectorStore_codeless ep :
  codeless (VectorStore.initializeVectorStore ep).
Proof.
  unfold VectorStore.initializeVectorStore.
  apply codeless_bind; [apply codeless_never; intros w; eexists; reflexivity | ].
  intros w0. destruct (vectorStore w0); [apply codeless_ret | ].
  apply codeless_bind; [apply setVectorStore_codeless | intros _].
  apply codeless_bind; [apply initialize_codeless | intros _].
  apply this_codeless.
Qed.

Lemma addDocumentsToStore_codeless ep chunks :
  codeless (VectorStore.addDocumentsToStore ep chunks).
Proof.
  unfold VectorStore.addDocumentsToStore.
  apply codeless_bind; [apply initializeVectorStore_codeless | intros _].
  unfold VectorStore.addDocuments.
  apply codeless_bind; [apply this_codeless | intros s].
  apply codeless_bind.
  - destruct (negb (isInitialized s));
      [apply initialize_codeless | apply codeless_ret].
  - intros _.
    apply codeless_tryCatch; [ | intros e He; apply codeless_rethrow, He].
    apply codeless_bind; [apply getEmbeddings_codeless | intros embs].
    apply codeless_bind; [apply this_codeless | intros s'].
    apply setVectorStore_codeless.
Qed.

Lemma ensureVectorStore_codeless ep :
  codeless (ChatRouteModes.ensureVectorStore ep).
Proof.
  unfold ChatRouteModes.ensureVectorStore.
  apply codeless_bind; [apply codeless_never; intros w; eexists; reflexivity | ].
  intros w0. destruct (negb (routeInitialized w0)); [ | apply codeless_ret].
  apply codeless_bind; [apply initializeVectorStore_codeless | intros _].
  apply codeless_never. intros w. eexists. reflexivity.
Qed.

(** X15.  The mode-aware handler never throws and answers with one of the
    statuses 200, 400, 404, 500 and 503; it answers 503 exactly when the
    connection check it starts with fails, and then does nothing else.  The
    503 branch of its final [catch] is never taken: every error that storing
    chunks can raise carries no code. *)
Theorem ChatRouteModes_POST_responses
        (ep : Endpoint) (formatError : Js.Error -> string)
        (req : ChatRouteModes.Request) (w : World)
        (st : Ollama.ConnectionStatus) (w1 : World) :
  Ollama.checkConnection ep w = (Ret st, w1) ->
  exists r,
    fst (ChatRouteModes.POST ep formatError req w) = Ret r /\
    chatStatus r /\
    (status r = 503%Z <-> Ollama.isRunning st = false) /\
    (Ollama.isRunning st = false ->
     ChatRouteModes.POST ep formatError req w =
     (Ret (Json (ErrorBody (Some (notAvailable st))) 503), w1)).
Proof.
  intros Hc. rewrite (ChatRouteModes_POST_unfold ep formatError req w st w1 Hc).
  unfold chatStatus.
  destruct (Ollama.isRunning st); cbn [negb].
  2:{ eexists. split; [reflexivity | ]. cbn. intuition auto. }
  destruct (ChatRouteModes.hasChunks (ChatRouteModes.chunks req)).
  { pose proof (codeless_bind _ _ _ _ (ensureVectorStore_codeless ep)
                  (fun _ => addDocumentsToStore_codeless ep (chunksOf req)) w1)
      as Hcode.
    destruct ((ChatRouteModes.ensureVectorStore ep ;;;
               VectorStore.addDocumentsToStore ep (chunksOf req)) w1)
      as [[[]|e] w2].
    - eexists. split; [reflexivity | ]. cbn.
      repeat split; auto; intros; discriminate.
    - eexists. split; [reflexivity | ]. unfold chatApiError.
      rewrite (Hcode e eq_refl). cbn.
      repeat split; auto; intros; discriminate. }
  destruct (noMessage (ChatRouteModes.message req)).
  { eexists. split; [reflexivity | ]. cbn.
    repeat split; auto; intros; discriminate. }
  cbv zeta. destruct (ChatRouteModes.isPDFMode req).
  - destruct ((ChatRouteModes.ensureVectorStore ep ;;;
               VectorStore.searchSimilarChunks ep _ 3) w1)
      as [[[|c cs]|e] w2].
    + eexists. split; [reflexivity | ]. cbn.
      repeat split; auto; intros; discriminate.
    + unfold responded.
      destruct (Ollama.generate ep _ w2) as [[response|e] w3];
        (eexists; split; [reflexivity | ]; cbn;
         repeat split; auto; intros; discriminate).
    + eexists. split; [reflexivity | ]. cbn.
      repeat split; auto; intros; discriminate.
  - unfold responded.
    destruct (Ollama.generate ep _ w1) as [[response|e] w3];
      (eexists; split; [reflexivity | ]; cbn;
       repeat split; auto; intros; discriminate).
Qed.

Lemma ChatRouteModes_POST_responses_witness :
  exists r,
    fst (ChatRouteModes.POST deadEndpoint Js.message
                             (ChatRouteModes.mkRequest (Some "hi") [] true None)
                             boot) = Ret r /\
    chatStatus r /\
    (status r = 503%Z <-> false = false) /\
    (false = false ->
     ChatRouteModes.POST deadEndpoint Js.message
                         (ChatRouteModes.mkRequest (Some "hi") [] true None) boot =
     (Ret (Json (ErrorBody
                   (Some "Ollama service not available: Could not connect to Ollama at http://127.0.0.1:11434 after multiple attempts. Please ensure Ollama is running."))
                503),
      extended boot [FetchTags; Sleep 1000; FetchTags; Sleep 1000; FetchTags])).
Proof.
  exact (ChatRouteModes_POST_responses
           deadEndpoint Js.message
           (ChatRouteModes.mkRequest (Some "hi") [] true None) boot
           (Ollama.mkStatus false (Some (Ollama.couldNotConnect deadEndpoint)))
           (extended boot [FetchTags; Sleep 1000; FetchTags; Sleep 1000; FetchTags])
           eq_refl).
Defined.

Lemma stored_texts docs embs :
  map pageContent
      (VectorStore.mapi
         (fun doc i => mkStored (Document.pageContent doc) (nth i embs [])) docs)
  = map Document.pageContent docs.
Proof.
  unfold VectorStore.mapi. generalize 0.
  induction docs as [|doc docs IH]; intros i; cbn; [ | rewrite IH ]; reflexivity.
Qed.

(** X16.  A request that carries chunks is an ingest request and nothing
    else: its message, history and mode are not looked at, no [generate]
    request is sent, and the answer is [{ success: true }] or a 500.  When
    it answers success, the texts in the store are the texts stored before
    followed by the chunks of the request, in order. *)
Theorem ChatRouteModes_POST_ingest
        (ep : Endpoint) (formatError : Js.Error -> string)
        (req : ChatRouteModes.Request) (w : World)
        (st : Ollama.ConnectionStatus) (w1 : World) :
  Ollama.checkConnection ep w = (Ret st, w1) ->
  Ollama.isRunning st = true ->
  ChatRouteModes.hasChunks (ChatRouteModes.chunks req) = true ->
  let out := ChatRouteModes.POST ep formatError req w in
  (forall message history mode,
      ChatRouteModes.POST
        ep formatError
        (ChatRouteModes.mkRequest message history mode (ChatRouteModes.chunks req))
        w = out) /\
  generateCalls (log (snd out)) = generateCalls (log w) /\
  (fst out = Ret (Json SuccessBody 200) \/
   exists e, fst out = Ret (Json (ErrorBody (Some (formatError e))) 500)) /\
  (fst out = Ret (Json SuccessBody 200) ->
   map pageContent (storedDocuments (snd out)) =
   map pageContent (storedDocuments w) ++ chunksOf req).
Proof.
  intros Hc Hrun Hchunks out. subst out.
  rewrite (ChatRouteModes_POST_unfold ep formatError req w st w1 Hc).
  rewrite Hrun, Hchunks. cbn [negb].
  split.
  { intros message history mode.
    rewrite (ChatRouteModes_POST_unfold ep formatError _ w st w1 Hc).
    cbn [ChatRouteModes.chunks]. rewrite Hrun, Hchunks. reflexivity. }
  pose proof (checkConnection_quietly ep w) as Hq1.
  pose proof (checkConnection_sameDocuments ep w) as Hd1.
  rewrite Hc in Hq1, Hd1. cbn [snd] in Hq1, Hd1.
  unfold bind.
  pose proof (ensureVectorStore_quietly ep w1) as Hq2.
  pose proof (ensureVectorStore_sameDocuments ep w1) as Hd2.
  pose proof (ensureVectorStore_codeless ep w1) as Hc2.
  destruct (ChatRouteModes.ensureVectorStore ep w1) as [[[]|e] w2];
    cbn [snd fst] in *.
  2:{ split; [ | split ].
      - rewrite (quietly_generateCalls Hq2), (quietly_generateCalls Hq1).
        reflexivity.
      - right. exists e. unfold chatApiError. rewrite (Hc2 e eq_refl).
        reflexivity.
      - unfold chatApiError. rewrite (Hc2 e eq_refl). discriminate. }
  pose proof (addDocumentsToStore_quietly ep (chunksOf req) w2) as Hq3.
  pose proof (addDocumentsToStore_outcome ep (chunksOf req) w2) as Hd3.
  pose proof (addDocumentsToStore_codeless ep (chunksOf req) w2) as Hc3.
  destruct (VectorStore.addDocumentsToStore ep (chunksOf req) w2)
    as [[[]|e] w3]; cbn [snd fst] in *.
  - split; [ | split ].
    + rewrite (quietly_generateCalls Hq3), (quietly_generateCalls Hq2),
        (quietly_generateCalls Hq1). reflexivity.
    + left. reflexivity.
    + intros _. destruct Hd3 as [embs Hd3]. unfold sameDocuments in *.
      rewrite Hd3, Hd2, Hd1, map_app, stored_texts, contents_of_chunks.
      reflexivity.
  - split; [ | split ].
    + rewrite (quietly_generateCalls Hq3), (quietly_generateCalls Hq2),
        (quietly_generateCalls Hq1). reflexivity.
    + right. exists e. unfold chatApiError. rewrite (Hc3 e eq_refl).
      reflexivity.
    + unfold chatApiError. rewrite (Hc3 e eq_refl). discriminate.
Qed.

Lemma ChatRouteModes_POST_ingest_witness :
  map pageContent
      (storedDocuments
         (snd (ChatRouteModes.POST
                 namedEndpoint Js.message
                 (ChatRouteModes.mkRequest (Some "ignored") [] true
                                           (Some ["half"; "zero"]))
                 oneChunkStored)))
  = ["a"; "half"; "zero"].
Proof.
  refine (proj2 (proj2 (proj2
            (ChatRouteModes_POST_ingest
               namedEndpoint Js.message
               (ChatRouteModes.mkRequest (Some "ignored") [] true
                                         (Some ["half"; "zero"]))
               oneChunkStored (Ollama.mkStatus true None)
               (snd (Ollama.checkConnection namedEndpoint oneChunkStored))
               eq_refl eq_refl eq_refl))) eq_refl).
Defined.

(** *** Plain chat *)

#[export] Instance discoveryOnly_pre : PreOrder discoveryOnly.
Proof.
  split.
  - intros w. exists []. rewrite app_nil_r. split; reflexivity.
  - intros a b c [l1 [H1 G1]] [l2 [H2 G2]]. exists (l1 ++ l2). split.
    + rewrite H2, H1, app_assoc. reflexivity.
    + unfold modelCalls in *. rewrite filter_app, G1, G2. reflexivity.
Qed.

Lemma emit_discoveryOnly e :
  isFetchEmbeddings e || isFetchGenerate e = false ->
  respects discoveryOnly (emit e).
Proof.
  intros He w. exists [e]. split; [reflexivity | ].
  unfold modelCalls. cbn. rewrite He. reflexivity.
Qed.

Lemma setOllama_discoveryOnly o : respects discoveryOnly (setOllama o).
Proof. intros w. exists []. cbn. rewrite app_nil_r. split; reflexivity. Qed.

#[export] Hint Resolve emit_discoveryOnly setOllama_discoveryOnly : frame.

Lemma waitForConnectionFrom_discoveryOnly ep todo i retries :
  respects discoveryOnly (Ollama.waitForConnectionFrom ep todo i retries).
Proof.
  revert i. induction todo as [|todo IH]; intros i; simpl.
  - respects_auto.
  - unfold Ollama.sleep, Ollama.detectAvailableModel. respects_auto.
Qed.

#[export] Hint Resolve waitForConnectionFrom_discoveryOnly : frame.

Lemma checkConnection_discoveryOnly ep :
  respects discoveryOnly (Ollama.checkConnection ep).
Proof.
  unfold Ollama.checkConnection, Ollama.waitForConnection. respects_auto.
Qed.

(** X17.  Outside PDF mode the mode-aware handler does no retrieval: it
    sends no embeddings request, does not create, initialize or change the
    store, and sends exactly one [generate] request, whose prompt is the
    context-free prompt; a 200 answer carries an empty context. *)
Theorem ChatRouteModes_POST_plain_chat
        (ep : Endpoint) (formatError : Js.Error -> string)
        (req : ChatRouteModes.Request) (w : World)
        (st : Ollama.ConnectionStatus) (w1 : World) :
  Ollama.checkConnection ep w = (Ret st, w1) ->
  Ollama.isRunning st = true ->
  ChatRouteModes.hasChunks (ChatRouteModes.chunks req) = false ->
  noMessage (ChatRouteModes.message req) = false ->
  ChatRouteModes.isPDFMode req = false ->
  let out := ChatRouteModes.POST ep formatError req w in
  let prompt := plainPrompt (ChatRouteModes.history req)
                            (messageText (ChatRouteModes.message req)) in
  (exists l,
      log (snd out) = log w ++ l ++ [FetchGenerate (modelName (ollama w1)) prompt] /\
      modelCalls l = []) /\
  vectorStore (snd out) = vectorStore w /\
  routeInitialized (snd out) = routeInitialized w /\
  (forall answer,
      generation ep (List.length (log w1)) (modelName (ollama w1)) prompt
      = GenerateOk answer ->
      fst out = Ret (Json (AnswerBody answer []) 200)).
Proof.
  intros Hc Hrun Hchunks Hmsg Hmode out prompt. subst out.
  rewrite (ChatRouteModes_POST_unfold ep formatError req w st w1 Hc).
  rewrite Hrun, Hchunks, Hmsg, Hmode. cbn [negb]. cbv zeta. fold prompt.
  pose proof (@checkConnection_running ep w st w1 Hc Hrun) as Hconn.
  pose proof (checkConnection_discoveryOnly ep w) as Hlog.
  pose proof (checkConnection_sameStore ep w) as Hstore.
  rewrite Hc in Hlog, Hstore. cbn [snd] in Hlog, Hstore.
  destruct Hlog as [l [Hl Hcalls]]. destruct Hstore as [Hv Hr].
  rewrite (generate_connected_result ep prompt w1 Hconn).
  unfold responded.
  destruct (generation ep (List.length (log w1)) (modelName (ollama w1)) prompt)
    as [e|statusText errorText|answer]; cbn [fst snd extended log vectorStore
                                            routeInitialized];
    (split; [exists l; split; [rewrite Hl, app_assoc; reflexivity | exact Hcalls]
            | split; [exact Hv | split; [exact Hr | ] ] ]);
    intros answer' H; try discriminate.
  injection H as <-. reflexivity.
Qed.

Lemma ChatRouteModes_POST_plain_chat_witness :
  fst (ChatRouteModes.POST talkativeEndpoint Js.message
                           (ChatRouteModes.mkRequest (Some "hi") [] false None)
                           boot)
  = Ret (Json (AnswerBody "made up" []) 200).
Proof.
  exact (proj2 (proj2 (proj2
           (ChatRouteModes_POST_plain_chat
              talkativeEndpoint Js.message
              (ChatRouteModes.mkRequest (Some "hi") [] false None) boot
              (Ollama.mkStatus true None) afterCheck
              eq_refl eq_refl eq_refl eq_refl eq_refl)))
           "made up" eq_refl).
Defined.

(** X18.  In PDF mode, when retrieval throws, the mode-aware handler answers
    500 "Failed to retrieve context from PDF. ..." and sends no [generate]
    request.  Outside PDF mode, when the [generate] request fails, the 500
    answer repeats the prefix: its message is "Failed to generate response:
    Failed to generate response: " followed by the cause. *)
Theorem ChatRouteModes_POST_failures
        (ep : Endpoint) (formatError : Js.Error -> string)
        (req : ChatRouteModes.Request) (w : World)
        (st : Ollama.ConnectionStatus) (w1 : World) :
  Ollama.checkConnection ep w = (Ret st, w1) ->
  Ollama.isRunning st = true ->
  ChatRouteModes.hasChunks (ChatRouteModes.chunks req) = false ->
  noMessage (ChatRouteModes.message req) = false ->
  let message := messageText (ChatRouteModes.message req) in
  (ChatRouteModes.isPDFMode req = true ->
   forall e w2,
     (ChatRouteModes.ensureVectorStore ep ;;;
      VectorStore.searchSimilarChunks ep message 3) w1 = (Throw e, w2) ->
     ChatRouteModes.POST ep formatError req w =
     (Ret (Json (ErrorBody (Some ChatRouteModes.failedToRetrieve)) 500), w2) /\
     generateCalls (log w2) = generateCalls (log w)) /\
  (ChatRouteModes.isPDFMode req = false ->
   forall r,
     generation ep (List.length (log w1)) (modelName (ollama w1))
                (plainPrompt (ChatRouteModes.history req) message) = r ->
     (forall answer, r <> GenerateOk answer) ->
     fst (ChatRouteModes.POST ep formatError req w) =
     Ret (Json (ErrorBody
                  (Some ("Failed to generate response: Failed to generate response: "
                         ++ Js.message (generateFailure r))%string)) 500)).
Proof.
  intros Hc Hrun Hchunks Hmsg message.
  rewrite (ChatRouteModes_POST_unfold ep formatError req w st w1 Hc).
  rewrite Hrun, Hchunks, Hmsg. cbn [negb]. cbv zeta. fold message.
  split.
  - intros -> e w2 Hsearch. rewrite Hsearch. split; [reflexivity | ].
    pose proof (checkConnection_quietly ep w) as H1.
    pose proof (retrieval_quietly ep message 3 w1) as H2.
    rewrite Hc in H1. rewrite Hsearch in H2. cbn [snd] in H1, H2.
    rewrite (quietly_generateCalls H2), (quietly_generateCalls H1).
    reflexivity.
  - intros -> r Hgen Hbad.
    pose proof (@checkConnection_running ep w st w1 Hc Hrun) as Hconn.
    rewrite (generate_connected_result ep _ w1 Hconn), Hgen.
    destruct r as [e|statusText errorText|answer]; try reflexivity.
    exfalso. apply (Hbad answer). reflexivity.
Qed.

Lemma ChatRouteModes_POST_failures_witness :
  fst (ChatRouteModes.POST muteEndpoint Js.message
                           (ChatRouteModes.mkRequest (Some "hi") [] false None)
                           boot)
  = Ret (Json (ErrorBody
                 (Some "Failed to generate response: Failed to generate response: fetch failed"))
              500).
Proof.
  refine (proj2 (ChatRouteModes_POST_failures
                   muteEndpoint Js.message
                   (ChatRouteModes.mkRequest (Some "hi") [] false None) boot
                   (Ollama.mkStatus true None)
                   (snd (Ollama.checkConnection muteEndpoint boot))
                   eq_refl eq_refl eq_refl eq_refl)
                eq_refl (GenerateRejected refused) eq_refl _).
  intros answer. discriminate.
Defined.


(** ** Splitting a PDF *)









(** ** Merging PDFs *)

Lemma StronglySorted_app {A} (R : A -> A -> Prop) l1 l2 :
  StronglySorted R l1 -> StronglySorted R l2 ->
  (forall x y, In x l1 -> In y l2 -> R x y) ->
  StronglySorted R (l1 ++ l2).
Proof.
  intros H1 H2 H. induction H1 as [|a l1 Hl1 IH Ha]; cbn; [ exact H2 | ].
  constructor.
  - apply IH. intros x y Hx. apply H. right. exact Hx.
  - apply Forall_app. split; [ exact Ha | ].
    apply Forall_forall. intros y Hy. apply H; [ left; reflexivity | exact Hy ].
Qed.

Lemma pages_of_file_sorted i pageCount :
  StronglySorted readingOrder (map (pair i) (MergeRoute.getPageIndices pageCount)).
Proof.
  unfold MergeRoute.getPageIndices. generalize 0.
  induction pageCount as [|n IH]; intros a; cbn; constructor.
  - apply IH.
  - apply Forall_forall. intros [f p] Hp. apply in_map_iff in Hp.
    destruct Hp as [q [[= <- <-] Hq]]. apply in_seq in Hq.
    right. cbn. lia.
Qed.

(** What the loop has done when it ends: every file was readable, and the
    pages added are those of the files, file by file. *)
Lemma mergeFrom_outcome files :
  forall i mergedPdf pages,
    MergeRoute.mergeFrom i files mergedPdf = Some pages ->
    exists counts added,
      files = map MergeRoute.Pdf counts /\
      pages = mergedPdf ++ added /\
      List.length added = list_sum counts /\
      StronglySorted readingOrder added /\
      (forall f p, In (f, p) added <->
                   i <= f /\ exists n, nth_error counts (f - i) = Some n /\ p < n).
Proof.
  induction files as [|[|n] files IH]; intros i mergedPdf pages H; cbn in H.
  - injection H as <-. exists [], []. rewrite app_nil_r.
    split; [ reflexivity | ]. split; [ reflexivity | ].
    split; [ reflexivity | ]. split; [ constructor | ].
    intros f p. split.
    + intros [].
    + intros [_ [n [Hn _]]]. destruct (f - i); discriminate.
  - discriminate.
  - destruct (IH _ _ _ H) as [counts [added [-> [-> [Hlen [Hsort Hin]]]]]].
    exists (n :: counts), (map (pair i) (MergeRoute.getPageIndices n) ++ added).
    split; [ reflexivity | ]. split; [ rewrite app_assoc; reflexivity | ].
    split; [ | split ].
    + rewrite length_app, length_map. unfold MergeRoute.getPageIndices.
      rewrite length_seq. cbn [list_sum fold_right]. fold (list_sum counts).
      rewrite <- Hlen. reflexivity.
    + apply StronglySorted_app; [ apply pages_of_file_sorted | exact Hsort | ].
      intros [f p] [g q] Hx Hy. apply in_map_iff in Hx.
      destruct Hx as [p' [[= <- <-] _]]. apply Hin in Hy. left. cbn. lia.
    + intros f p. rewrite in_app_iff, Hin, in_map_iff.
      unfold MergeRoute.getPageIndices. split.
      * intros [[q [[= <- <-] Hq]]|[Hf [m [Hm Hp]]]].
        -- apply in_seq in Hq. split; [ lia | ]. exists n.
           rewrite Nat.sub_diag. split; [ reflexivity | lia ].
        -- split; [ lia | ]. exists m. split; [ | exact Hp ].
           replace (f - i) with (S (f - S i)) by lia. exact Hm.
      * intros [Hf [m [Hm Hp]]]. destruct (f - i) as [|d] eqn:Hd.
        -- left. injection Hm as <-. exists p. split.
           ++ f_equal. lia.
           ++ apply in_seq. lia.
        -- right. split; [ lia | ]. exists m. split; [ | exact Hp ].
           replace (f - S i) with d by lia. exact Hm.
Qed.



(** X22.  The merge handler is all or nothing: with two or more files of
    which one is unreadable, wherever it stands among them, the answer is
    500 "Failed to merge PDFs" and no partial document is sent; with fewer
    than two files it is 400, whether or not they are readable. *)
Theorem MergeRoute_POST_rejects (files : list MergeRoute.Upload) :
  (List.length files < 2 ->
   MergeRoute.POST files =
   MergeRoute.JsonError "At least two PDFs are required for merging" 400) /\
  (2 <= List.length files -> In MergeRoute.Unreadable files ->
   MergeRoute.POST files = MergeRoute.JsonError "Failed to merge PDFs" 500).
Proof.
  unfold MergeRoute.POST. split.
  - intros H. apply Nat.ltb_lt in H. rewrite H. reflexivity.
  - intros H Hin. apply Nat.ltb_ge in H. rewrite H.
    destruct (MergeRoute.mergeFrom 0 files []) as [pages|] eqn:Hm;
      [ exfalso | reflexivity ].
    destruct (mergeFrom_outcome _ _ _ _ Hm) as [counts [_ [-> _]]].
    apply in_map_iff in Hin. destruct Hin as [n [Hn _]]. discriminate.
Qed.

Lemma MergeRoute_POST_rejects_witness :
  MergeRoute.POST [MergeRoute.Pdf 2; MergeRoute.Unreadable; MergeRoute.Pdf 1] =
  MergeRoute.JsonError "Failed to merge PDFs" 500.
Proof.
  apply (proj2 (MergeRoute_POST_rejects
                  [MergeRoute.Pdf 2; MergeRoute.Unreadable; MergeRoute.Pdf 1])).
  - cbn. lia.
  - right. left. reflexivity.
Defined.
